(** * 88-key USB HID keyboard (Zephyr): the input-to-report pipeline

    A shallow embedding of [src/main.c]: the key-code translation table,
    the six-key rollover array, the modifier mask, the report builder, the
    HID transport callbacks and the body of the consumer loop, followed by
    the properties of the design document that concern them.

    Conventions.  C integers are [Z] with the wrap-around of their type
    written out where the code can reach it; the [uint16_t] input code,
    which is only compared and used as an index, is an [N].  The file-scope
    variables of [main.c] are the fields of [kb_state].  A C function is a
    computation in the monad [M]: it threads the state, records the calls
    it makes to its collaborators (logging, GPIO, USB) in a trace, and
    stops with [OutOfBounds] when it would index an array outside its
    bounds. *)

From Stdlib Require Import String.
From Stdlib Require Import ZArith NArith List Bool Lia.
Import ListNotations.

Open Scope Z_scope.

(** ** Constants of the Zephyr headers *)

(** Key codes of [<zephyr/dt-bindings/input/input-event-codes.h>]. *)
Module InputCodes.
Definition INPUT_KEY_RESERVED : N := 0.
Definition INPUT_KEY_ESC : N := 1.
Definition INPUT_KEY_1 : N := 2.
Definition INPUT_KEY_2 : N := 3.
Definition INPUT_KEY_3 : N := 4.
Definition INPUT_KEY_4 : N := 5.
Definition INPUT_KEY_5 : N := 6.
Definition INPUT_KEY_6 : N := 7.
Definition INPUT_KEY_7 : N := 8.
Definition INPUT_KEY_8 : N := 9.
Definition INPUT_KEY_9 : N := 10.
Definition INPUT_KEY_0 : N := 11.
Definition INPUT_KEY_MINUS : N := 12.
Definition INPUT_KEY_EQUAL : N := 13.
Definition INPUT_KEY_BACKSPACE : N := 14.
Definition INPUT_KEY_TAB : N := 15.
Definition INPUT_KEY_Q : N := 16.
Definition INPUT_KEY_W : N := 17.
Definition INPUT_KEY_E : N := 18.
Definition INPUT_KEY_R : N := 19.
Definition INPUT_KEY_T : N := 20.
Definition INPUT_KEY_Y : N := 21.
Definition INPUT_KEY_U : N := 22.
Definition INPUT_KEY_I : N := 23.
Definition INPUT_KEY_O : N := 24.
Definition INPUT_KEY_P : N := 25.
Definition INPUT_KEY_LEFTBRACE : N := 26.
Definition INPUT_KEY_RIGHTBRACE : N := 27.
Definition INPUT_KEY_ENTER : N := 28.
Definition INPUT_KEY_LEFTCTRL : N := 29.
Definition INPUT_KEY_A : N := 30.
Definition INPUT_KEY_S : N := 31.
Definition INPUT_KEY_D : N := 32.
Definition INPUT_KEY_F : N := 33.
Definition INPUT_KEY_G : N := 34.
Definition INPUT_KEY_H : N := 35.
Definition INPUT_KEY_J : N := 36.
Definition INPUT_KEY_K : N := 37.
Definition INPUT_KEY_L : N := 38.
Definition INPUT_KEY_SEMICOLON : N := 39.
Definition INPUT_KEY_APOSTROPHE : N := 40.
Definition INPUT_KEY_GRAVE : N := 41.
Definition INPUT_KEY_LEFTSHIFT : N := 42.
Definition INPUT_KEY_BACKSLASH : N := 43.
Definition INPUT_KEY_Z : N := 44.
Definition INPUT_KEY_X : N := 45.
Definition INPUT_KEY_C : N := 46.
Definition INPUT_KEY_V : N := 47.
Definition INPUT_KEY_B : N := 48.
Definition INPUT_KEY_N : N := 49.
Definition INPUT_KEY_M : N := 50.
Definition INPUT_KEY_COMMA : N := 51.
Definition INPUT_KEY_DOT : N := 52.
Definition INPUT_KEY_SLASH : N := 53.
Definition INPUT_KEY_RIGHTSHIFT : N := 54.
Definition INPUT_KEY_KPASTERISK : N := 55.
Definition INPUT_KEY_LEFTALT : N := 56.
Definition INPUT_KEY_SPACE : N := 57.
Definition INPUT_KEY_CAPSLOCK : N := 58.
Definition INPUT_KEY_F1 : N := 59.
Definition INPUT_KEY_F2 : N := 60.
Definition INPUT_KEY_F3 : N := 61.
Definition INPUT_KEY_F4 : N := 62.
Definition INPUT_KEY_F5 : N := 63.
Definition INPUT_KEY_F6 : N := 64.
Definition INPUT_KEY_F7 : N := 65.
Definition INPUT_KEY_F8 : N := 66.
Definition INPUT_KEY_F9 : N := 67.
Definition INPUT_KEY_F10 : N := 68.
Definition INPUT_KEY_NUMLOCK : N := 69.
Definition INPUT_KEY_SCROLLLOCK : N := 70.
Definition INPUT_KEY_KP7 : N := 71.
Definition INPUT_KEY_KP8 : N := 72.
Definition INPUT_KEY_KP9 : N := 73.
Definition INPUT_KEY_KPMINUS : N := 74.
Definition INPUT_KEY_KP4 : N := 75.
Definition INPUT_KEY_KP5 : N := 76.
Definition INPUT_KEY_KP6 : N := 77.
Definition INPUT_KEY_KPPLUS : N := 78.
Definition INPUT_KEY_KP1 : N := 79.
Definition INPUT_KEY_KP2 : N := 80.
Definition INPUT_KEY_KP3 : N := 81.
Definition INPUT_KEY_KP0 : N := 82.
Definition INPUT_KEY_KPDOT : N := 83.
Definition INPUT_KEY_F11 : N := 87.
Definition INPUT_KEY_F12 : N := 88.
Definition INPUT_KEY_KPENTER : N := 96.
Definition INPUT_KEY_RIGHTCTRL : N := 97.
Definition INPUT_KEY_KPSLASH : N := 98.
Definition INPUT_KEY_SYSRQ : N := 99.
Definition INPUT_KEY_RIGHTALT : N := 100.
Definition INPUT_KEY_HOME : N := 102.
Definition INPUT_KEY_UP : N := 103.
Definition INPUT_KEY_PAGEUP : N := 104.
Definition INPUT_KEY_LEFT : N := 105.
Definition INPUT_KEY_RIGHT : N := 106.
Definition INPUT_KEY_END : N := 107.
Definition INPUT_KEY_DOWN : N := 108.
Definition INPUT_KEY_PAGEDOWN : N := 109.
Definition INPUT_KEY_INSERT : N := 110.
Definition INPUT_KEY_DELETE : N := 111.
Definition INPUT_KEY_PAUSE : N := 119.
Definition INPUT_KEY_LEFTMETA : N := 125.
Definition INPUT_KEY_RIGHTMETA : N := 126.
Definition INPUT_KEY_COMPOSE : N := 127.
End InputCodes.
Import InputCodes.

(** Usage codes, modifier bits and report types of
    [<zephyr/usb/class/hid.h>], and [ENOTSUP] of Zephyr's [errno.h]. *)
Module HidCodes.
Definition HID_KEY_A := 4.
Definition HID_KEY_B := 5.
Definition HID_KEY_C := 6.
Definition HID_KEY_D := 7.
Definition HID_KEY_E := 8.
Definition HID_KEY_F := 9.
Definition HID_KEY_G := 10.
Definition HID_KEY_H := 11.
Definition HID_KEY_I := 12.
Definition HID_KEY_J := 13.
Definition HID_KEY_K := 14.
Definition HID_KEY_L := 15.
Definition HID_KEY_M := 16.
Definition HID_KEY_N := 17.
Definition HID_KEY_O := 18.
Definition HID_KEY_P := 19.
Definition HID_KEY_Q := 20.
Definition HID_KEY_R := 21.
Definition HID_KEY_S := 22.
Definition HID_KEY_T := 23.
Definition HID_KEY_U := 24.
Definition HID_KEY_V := 25.
Definition HID_KEY_W := 26.
Definition HID_KEY_X := 27.
Definition HID_KEY_Y := 28.
Definition HID_KEY_Z := 29.
Definition HID_KEY_1 := 30.
Definition HID_KEY_2 := 31.
Definition HID_KEY_3 := 32.
Definition HID_KEY_4 := 33.
Definition HID_KEY_5 := 34.
Definition HID_KEY_6 := 35.
Definition HID_KEY_7 := 36.
Definition HID_KEY_8 := 37.
Definition HID_KEY_9 := 38.
Definition HID_KEY_0 := 39.
Definition HID_KEY_ENTER := 40.
Definition HID_KEY_ESC := 41.
Definition HID_KEY_BACKSPACE := 42.
Definition HID_KEY_TAB := 43.
Definition HID_KEY_SPACE := 44.
Definition HID_KEY_MINUS := 45.
Definition HID_KEY_EQUAL := 46.
Definition HID_KEY_LEFTBRACE := 47.
Definition HID_KEY_RIGHTBRACE := 48.
Definition HID_KEY_BACKSLASH := 49.
Definition HID_KEY_SEMICOLON := 51.
Definition HID_KEY_APOSTROPHE := 52.
Definition HID_KEY_GRAVE := 53.
Definition HID_KEY_COMMA := 54.
Definition HID_KEY_DOT := 55.
Definition HID_KEY_SLASH := 56.
Definition HID_KEY_CAPSLOCK := 57.
Definition HID_KEY_F1 := 58.
Definition HID_KEY_F2 := 59.
Definition HID_KEY_F3 := 60.
Definition HID_KEY_F4 := 61.
Definition HID_KEY_F5 := 62.
Definition HID_KEY_F6 := 63.
Definition HID_KEY_F7 := 64.
Definition HID_KEY_F8 := 65.
Definition HID_KEY_F9 := 66.
Definition HID_KEY_F10 := 67.
Definition HID_KEY_F11 := 68.
Definition HID_KEY_F12 := 69.
Definition HID_KEY_SYSRQ := 70.
Definition HID_KEY_SCROLLLOCK := 71.
Definition HID_KEY_PAUSE := 72.
Definition HID_KEY_INSERT := 73.
Definition HID_KEY_HOME := 74.
Definition HID_KEY_PAGEUP := 75.
Definition HID_KEY_DELETE := 76.
Definition HID_KEY_END := 77.
Definition HID_KEY_PAGEDOWN := 78.
Definition HID_KEY_RIGHT := 79.
Definition HID_KEY_LEFT := 80.
Definition HID_KEY_DOWN := 81.
Definition HID_KEY_UP := 82.
Definition HID_KEY_NUMLOCK := 83.
Definition HID_KEY_KPSLASH := 84.
Definition HID_KEY_KPASTERISK := 85.
Definition HID_KEY_KPMINUS := 86.
Definition HID_KEY_KPPLUS := 87.
Definition HID_KEY_KPENTER := 88.
Definition HID_KEY_KP_1 := 89.
Definition HID_KEY_KP_2 := 90.
Definition HID_KEY_KP_3 := 91.
Definition HID_KEY_KP_4 := 92.
Definition HID_KEY_KP_5 := 93.
Definition HID_KEY_KP_6 := 94.
Definition HID_KEY_KP_7 := 95.
Definition HID_KEY_KP_8 := 96.
Definition HID_KEY_KP_9 := 97.
Definition HID_KEY_KP_0 := 98.

Definition HID_KBD_MODIFIER_LEFT_CTRL := 1.
Definition HID_KBD_MODIFIER_LEFT_SHIFT := 2.
Definition HID_KBD_MODIFIER_LEFT_ALT := 4.
Definition HID_KBD_MODIFIER_LEFT_UI := 8.
Definition HID_KBD_MODIFIER_RIGHT_CTRL := 16.
Definition HID_KBD_MODIFIER_RIGHT_SHIFT := 32.
Definition HID_KBD_MODIFIER_RIGHT_ALT := 64.
Definition HID_KBD_MODIFIER_RIGHT_UI := 128.

Definition HID_REPORT_TYPE_INPUT := 1.
Definition HID_REPORT_TYPE_OUTPUT := 2.
Definition HID_REPORT_TYPE_FEATURE := 3.

Definition ENOTSUP := 134.
End HidCodes.
Import HidCodes.

(** ** Enumerations and sizes of [main.c] *)

Definition KB_LED_COUNT := 3.

(** [enum kb_report_idx] *)
Definition KB_MOD_KEY := 0.
Definition KB_RESERVED := 1.
Definition KB_KEY_CODE1 := 2.
Definition KB_KEY_CODE2 := 3.
Definition KB_KEY_CODE3 := 4.
Definition KB_KEY_CODE4 := 5.
Definition KB_KEY_CODE5 := 6.
Definition KB_KEY_CODE6 := 7.
Definition KB_REPORT_COUNT := 8.

Definition MAX_PRESSED_KEYS := 6.

(** [uint8_t] wrap-around. *)
Definition u8 (z : Z) : Z := z mod 256.

(** [BIT(i)] *)
Definition BIT (i : Z) : Z := Z.shiftl 1 i.

(** [struct kb_event] *)
Record kb_event := mk_kb_event { code : N; value : Z }.

(** ** C arrays *)

(** [a[i]]: defined inside the bounds only. *)
Definition array_get (a : list Z) (i : Z) : option Z :=
  if (0 <=? i) && (i <? Z.of_nat (length a))
  then nth_error a (Z.to_nat i) else None.

(** [a[i] = v]: defined inside the bounds only. *)
Definition array_set (a : list Z) (i : Z) (v : Z) : option (list Z) :=
  if (0 <=? i) && (i <? Z.of_nat (length a))
  then Some (firstn (Z.to_nat i) a ++ v :: skipn (S (Z.to_nat i)) a)
  else None.

(** [memset(a, v, n)] *)
Definition memset (a : list Z) (v : Z) (n : Z) : option (list Z) :=
  if (0 <=? n) && (n <=? Z.of_nat (length a))
  then Some (repeat v (Z.to_nat n) ++ skipn (Z.to_nat n) a) else None.

(** [memcpy(dst, src, n)] *)
Definition memcpy (dst src : list Z) (n : Z) : option (list Z) :=
  if (0 <=? n) && (n <=? Z.of_nat (length dst)) && (n <=? Z.of_nat (length src))
  then Some (firstn (Z.to_nat n) src ++ skipn (Z.to_nat n) dst) else None.

(** An array initialiser made of designators [[idx] = v]: the array is as
    long as the largest index requires, the elements that are not named
    are zero, and a later designator of an index overrides an earlier one. *)
Fixpoint designate (tbl : list Z) (idx : nat) (v : Z) : list Z :=
  match tbl, idx with
  | [], O => [v]
  | [], S i => 0 :: designate [] i v
  | _ :: t, O => v :: t
  | x :: t, S i => x :: designate t i v
  end.

Definition array_of_designators (ds : list (N * Z)) : list Z :=
  fold_left (fun t d => designate t (N.to_nat (fst d)) (snd d)) ds [].

(** ** The INPUT_KEY to HID_KEY conversion table *)

Definition input_to_hid_key : list Z := array_of_designators
  [ (INPUT_KEY_RESERVED, 0);
    (INPUT_KEY_ESC, HID_KEY_ESC);
    (INPUT_KEY_1, HID_KEY_1);
    (INPUT_KEY_2, HID_KEY_2);
    (INPUT_KEY_3, HID_KEY_3);
    (INPUT_KEY_4, HID_KEY_4);
    (INPUT_KEY_5, HID_KEY_5);
    (INPUT_KEY_6, HID_KEY_6);
    (INPUT_KEY_7, HID_KEY_7);
    (INPUT_KEY_8, HID_KEY_8);
    (INPUT_KEY_9, HID_KEY_9);
    (INPUT_KEY_0, HID_KEY_0);
    (INPUT_KEY_MINUS, HID_KEY_MINUS);
    (INPUT_KEY_EQUAL, HID_KEY_EQUAL);
    (INPUT_KEY_BACKSPACE, HID_KEY_BACKSPACE);
    (INPUT_KEY_TAB, HID_KEY_TAB);
    (INPUT_KEY_Q, HID_KEY_Q);
    (INPUT_KEY_W, HID_KEY_W);
    (INPUT_KEY_E, HID_KEY_E);
    (INPUT_KEY_R, HID_KEY_R);
    (INPUT_KEY_T, HID_KEY_T);
    (INPUT_KEY_Y, HID_KEY_Y);
    (INPUT_KEY_U, HID_KEY_U);
    (INPUT_KEY_I, HID_KEY_I);
    (INPUT_KEY_O, HID_KEY_O);
    (INPUT_KEY_P, HID_KEY_P);
    (INPUT_KEY_LEFTBRACE, HID_KEY_LEFTBRACE);
    (INPUT_KEY_RIGHTBRACE, HID_KEY_RIGHTBRACE);
    (INPUT_KEY_ENTER, HID_KEY_ENTER);
    (INPUT_KEY_LEFTCTRL, 0);
    (INPUT_KEY_A, HID_KEY_A);
    (INPUT_KEY_S, HID_KEY_S);
    (INPUT_KEY_D, HID_KEY_D);
    (INPUT_KEY_F, HID_KEY_F);
    (INPUT_KEY_G, HID_KEY_G);
    (INPUT_KEY_H, HID_KEY_H);
    (INPUT_KEY_J, HID_KEY_J);
    (INPUT_KEY_K, HID_KEY_K);
    (INPUT_KEY_L, HID_KEY_L);
    (INPUT_KEY_SEMICOLON, HID_KEY_SEMICOLON);
    (INPUT_KEY_APOSTROPHE, HID_KEY_APOSTROPHE);
    (INPUT_KEY_GRAVE, HID_KEY_GRAVE);
    (INPUT_KEY_LEFTSHIFT, 0);
    (INPUT_KEY_BACKSLASH, HID_KEY_BACKSLASH);
    (INPUT_KEY_Z, HID_KEY_Z);
    (INPUT_KEY_X, HID_KEY_X);
    (INPUT_KEY_C, HID_KEY_C);
    (INPUT_KEY_V, HID_KEY_V);
    (INPUT_KEY_B, HID_KEY_B);
    (INPUT_KEY_N, HID_KEY_N);
    (INPUT_KEY_M, HID_KEY_M);
    (INPUT_KEY_COMMA, HID_KEY_COMMA);
    (INPUT_KEY_DOT, HID_KEY_DOT);
    (INPUT_KEY_SLASH, HID_KEY_SLASH);
    (INPUT_KEY_RIGHTSHIFT, 0);
    (INPUT_KEY_KPASTERISK, HID_KEY_KPASTERISK);
    (INPUT_KEY_LEFTALT, 0);
    (INPUT_KEY_SPACE, HID_KEY_SPACE);
    (INPUT_KEY_CAPSLOCK, HID_KEY_CAPSLOCK);
    (INPUT_KEY_F1, HID_KEY_F1);
    (INPUT_KEY_F2, HID_KEY_F2);
    (INPUT_KEY_F3, HID_KEY_F3);
    (INPUT_KEY_F4, HID_KEY_F4);
    (INPUT_KEY_F5, HID_KEY_F5);
    (INPUT_KEY_F6, HID_KEY_F6);
    (INPUT_KEY_F7, HID_KEY_F7);
    (INPUT_KEY_F8, HID_KEY_F8);
    (INPUT_KEY_F9, HID_KEY_F9);
    (INPUT_KEY_F10, HID_KEY_F10);
    (INPUT_KEY_NUMLOCK, HID_KEY_NUMLOCK);
    (INPUT_KEY_SCROLLLOCK, HID_KEY_SCROLLLOCK);
    (INPUT_KEY_KP7, HID_KEY_KP_7);
    (INPUT_KEY_KP8, HID_KEY_KP_8);
    (INPUT_KEY_KP9, HID_KEY_KP_9);
    (INPUT_KEY_KPMINUS, HID_KEY_KPMINUS);
    (INPUT_KEY_KP4, HID_KEY_KP_4);
    (INPUT_KEY_KP5, HID_KEY_KP_5);
    (INPUT_KEY_KP6, HID_KEY_KP_6);
    (INPUT_KEY_KPPLUS, HID_KEY_KPPLUS);
    (INPUT_KEY_KP1, HID_KEY_KP_1);
    (INPUT_KEY_KP2, HID_KEY_KP_2);
    (INPUT_KEY_KP3, HID_KEY_KP_3);
    (INPUT_KEY_KP0, HID_KEY_KP_0);
    (INPUT_KEY_KPDOT, 99);
    (INPUT_KEY_F11, HID_KEY_F11);
    (INPUT_KEY_F12, HID_KEY_F12);
    (INPUT_KEY_KPENTER, HID_KEY_KPENTER);
    (INPUT_KEY_RIGHTCTRL, 0);
    (INPUT_KEY_KPSLASH, HID_KEY_KPSLASH);
    (INPUT_KEY_SYSRQ, HID_KEY_SYSRQ);
    (INPUT_KEY_RIGHTALT, 0);
    (INPUT_KEY_HOME, HID_KEY_HOME);
    (INPUT_KEY_UP, HID_KEY_UP);
    (INPUT_KEY_PAGEUP, HID_KEY_PAGEUP);
    (INPUT_KEY_LEFT, HID_KEY_LEFT);
    (INPUT_KEY_RIGHT, HID_KEY_RIGHT);
    (INPUT_KEY_END, HID_KEY_END);
    (INPUT_KEY_DOWN, HID_KEY_DOWN);
    (INPUT_KEY_PAGEDOWN, HID_KEY_PAGEDOWN);
    (INPUT_KEY_INSERT, HID_KEY_INSERT);
    (INPUT_KEY_DELETE, HID_KEY_DELETE);
    (INPUT_KEY_PAUSE, HID_KEY_PAUSE);
    (INPUT_KEY_LEFTMETA, 0);
    (INPUT_KEY_RIGHTMETA, 0);
    (INPUT_KEY_COMPOSE, 101) ].

(** [ARRAY_SIZE(input_to_hid_key)] *)
Definition INPUT_TO_HID_TABLE_SIZE : Z := Z.of_nat (length input_to_hid_key).

(** ** State, collaborators and the monad *)

(** The file-scope variables of [main.c]. *)
Record kb_state := mk_kb_state {
  report : list Z;
  kb_duration : Z;
  kb_ready : bool;
  pressed_keys : list Z;
  pressed_count : Z;
  modifier_state : Z }.

(** Static storage is zero-initialised. *)
Definition kb_initial : kb_state :=
  {| report := repeat 0 (Z.to_nat KB_REPORT_COUNT);
     kb_duration := 0;
     kb_ready := false;
     pressed_keys := repeat 0 (Z.to_nat MAX_PRESSED_KEYS);
     pressed_count := 0;
     modifier_state := 0 |}.

Definition set_report (r : list Z) (s : kb_state) : kb_state :=
  mk_kb_state r (kb_duration s) (kb_ready s) (pressed_keys s)
              (pressed_count s) (modifier_state s).
Definition set_kb_duration (d : Z) (s : kb_state) : kb_state :=
  mk_kb_state (report s) d (kb_ready s) (pressed_keys s)
              (pressed_count s) (modifier_state s).
Definition set_kb_ready (b : bool) (s : kb_state) : kb_state :=
  mk_kb_state (report s) (kb_duration s) b (pressed_keys s)
              (pressed_count s) (modifier_state s).
Definition set_pressed_keys (a : list Z) (s : kb_state) : kb_state :=
  mk_kb_state (report s) (kb_duration s) (kb_ready s) a
              (pressed_count s) (modifier_state s).
Definition set_pressed_count (c : Z) (s : kb_state) : kb_state :=
  mk_kb_state (report s) (kb_duration s) (kb_ready s) (pressed_keys s)
              c (modifier_state s).
Definition set_modifier_state (m : Z) (s : kb_state) : kb_state :=
  mk_kb_state (report s) (kb_duration s) (kb_ready s) (pressed_keys s)
              (pressed_count s) m.

(** [struct gpio_dt_spec]; [port = None] is the [NULL] port of the [{0}]
    that [GPIO_DT_SPEC_GET_OR] falls back to. *)
Record gpio_dt_spec := mk_gpio_dt_spec {
  port : option string;
  pin : Z;
  dt_flags : Z }.

(** What the build fixes: the three LED aliases of the devicetree and the
    Kconfig switch read by the consumer loop. *)
Record board := mk_board {
  led0 : gpio_dt_spec;
  led1 : gpio_dt_spec;
  led2 : gpio_dt_spec;
  CONFIG_KEYBOARD_USBD_REMOTE_WAKEUP : bool }.

Definition kb_leds (b : board) : list gpio_dt_spec := [led0 b; led1 b; led2 b].

Inductive log_level := ERR | WRN | INF | DBG.

Inductive log_arg := ArgU (z : Z) | ArgS (s : string).

(** Calls to the collaborators, in the order they are made. *)
Inductive effect :=
| LOG (lvl : log_level) (fmt : string) (args : list log_arg)
| LOG_HEXDUMP (lvl : log_level) (data : list Z) (str : string)
| gpio_pin_set_dt (led : Z) (val : Z)
| usbd_wakeup_request
| hid_device_submit_report (size : Z) (rep : list Z).

Inductive outcome (A : Type) :=
| Done (a : A) (s : kb_state) (tr : list effect)
| OutOfBounds.
Arguments Done {A} a s tr.
Arguments OutOfBounds {A}.

Definition M (A : Type) := kb_state -> outcome A.

Definition ret {A} (a : A) : M A := fun s => Done a s [].

Definition bind {A B} (m : M A) (f : A -> M B) : M B := fun s =>
  match m s with
  | Done a s1 t1 =>
      match f a s1 with
      | Done b s2 t2 => Done b s2 (t1 ++ t2)
      | OutOfBounds => OutOfBounds
      end
  | OutOfBounds => OutOfBounds
  end.

Notation "x <- m ;; k" := (bind m (fun x => k))
  (at level 61, m at next level, right associativity).
Notation "m ;; k" := (bind m (fun _ => k))
  (at level 61, right associativity).

Definition gets {A} (f : kb_state -> A) : M A := fun s => Done (f s) s [].
Definition modify (f : kb_state -> kb_state) : M unit :=
  fun s => Done tt (f s) [].
Definition emit (e : effect) : M unit := fun s => Done tt s [e].
Definition lift {A} (o : option A) : M A := fun s =>
  match o with Some a => Done a s [] | None => OutOfBounds end.

(** [for (i = from; ...; i++) body], for [n] iterations. *)
Fixpoint for_range (n : nat) (i : Z) (body : Z -> M unit) : M unit :=
  match n with
  | O => ret tt
  | S n' => body i ;; for_range n' (i + 1) body
  end.

(** The same loop when the body may [return]: [Some a] leaves the function
    with [a], [None] goes on with the next iteration. *)
Fixpoint for_range_ret {A} (n : nat) (i : Z) (body : Z -> M (option A))
  : M (option A) :=
  match n with
  | O => ret None
  | S n' =>
      r <- body i ;;
      match r with
      | Some a => ret (Some a)
      | None => for_range_ret n' (i + 1) body
      end
  end.

Definition read_pressed_keys (i : Z) : M Z :=
  a <- gets pressed_keys ;; lift (array_get a i).
Definition write_pressed_keys (i v : Z) : M unit :=
  a <- gets pressed_keys ;; a' <- lift (array_set a i v) ;;
  modify (set_pressed_keys a').
Definition write_report (i v : Z) : M unit :=
  a <- gets report ;; a' <- lift (array_set a i v) ;; modify (set_report a').

(** ** Key code translation *)

Definition get_modifier_bit (input_code : N) : Z :=
  if (input_code =? INPUT_KEY_LEFTCTRL)%N then HID_KBD_MODIFIER_LEFT_CTRL
  else if (input_code =? INPUT_KEY_LEFTSHIFT)%N then HID_KBD_MODIFIER_LEFT_SHIFT
  else if (input_code =? INPUT_KEY_LEFTALT)%N then HID_KBD_MODIFIER_LEFT_ALT
  else if (input_code =? INPUT_KEY_LEFTMETA)%N then HID_KBD_MODIFIER_LEFT_UI
  else if (input_code =? INPUT_KEY_RIGHTCTRL)%N then HID_KBD_MODIFIER_RIGHT_CTRL
  else if (input_code =? INPUT_KEY_RIGHTSHIFT)%N then HID_KBD_MODIFIER_RIGHT_SHIFT
  else if (input_code =? INPUT_KEY_RIGHTALT)%N then HID_KBD_MODIFIER_RIGHT_ALT
  else if (input_code =? INPUT_KEY_RIGHTMETA)%N then HID_KBD_MODIFIER_RIGHT_UI
  else 0.

Definition input_to_hid (input_code : N) : M Z :=
  if Z.of_N input_code <? INPUT_TO_HID_TABLE_SIZE
  then lift (array_get input_to_hid_key (Z.of_N input_code))
  else ret 0.

(** ** Rollover array *)

Definition add_pressed_key (hid_key : Z) : M bool :=
  cnt <- gets pressed_count ;;
  found <- for_range_ret (Z.to_nat (cnt - 0)) 0 (fun i =>
             k <- read_pressed_keys i ;;
             if k =? hid_key then ret (Some true) else ret None) ;;
  match found with
  | Some r => ret r
  | None =>
      cnt <- gets pressed_count ;;
      if cnt <? MAX_PRESSED_KEYS then
        write_pressed_keys cnt hid_key ;;
        modify (set_pressed_count (u8 (cnt + 1))) ;;
        ret true
      else
        emit (LOG WRN "6KRO limit reached, key ignored" []) ;;
        ret false
  end.

Definition remove_pressed_key (hid_key : Z) : M unit :=
  cnt <- gets pressed_count ;;
  _ <- for_range_ret (Z.to_nat (cnt - 0)) 0 (fun i =>
         k <- read_pressed_keys i ;;
         if k =? hid_key then
           cnt <- gets pressed_count ;;
           for_range (Z.to_nat (cnt - 1 - i)) i (fun j =>
             k' <- read_pressed_keys (j + 1) ;;
             write_pressed_keys j k') ;;
           modify (set_pressed_count (u8 (cnt - 1))) ;;
           ret (Some tt)
         else ret None) ;;
  ret tt.

(** ** Report builder *)

Definition build_hid_report : M unit :=
  r <- gets report ;;
  r' <- lift (memset r 0 KB_REPORT_COUNT) ;;
  modify (set_report r') ;;
  m <- gets modifier_state ;;
  write_report KB_MOD_KEY m ;;
  write_report KB_RESERVED 0 ;;
  cnt <- gets pressed_count ;;
  for_range (Z.to_nat (Z.min cnt MAX_PRESSED_KEYS - 0)) 0 (fun i =>
    k <- read_pressed_keys i ;;
    write_report (KB_KEY_CODE1 + i) k).

(** ** Folding one key event *)

Definition process_key_event (input_code : N) (pressed : bool) : M unit :=
  let mod_bit := get_modifier_bit input_code in
  (if negb (mod_bit =? 0) then
     m <- gets modifier_state ;;
     if pressed
     then modify (set_modifier_state (u8 (Z.lor m mod_bit)))
     else modify (set_modifier_state (u8 (Z.land m (Z.lnot mod_bit))))
   else
     hid_key <- input_to_hid input_code ;;
     if negb (hid_key =? 0) then
       if pressed
       then _ <- add_pressed_key hid_key ;; ret tt
       else remove_pressed_key hid_key
     else emit (LOG DBG "Unmapped input code: %u" [ArgU (Z.of_N input_code)])) ;;
  build_hid_report.

(** ** Event channel *)

(** [K_MSGQ_DEFINE(kb_msgq, sizeof(struct kb_event), 16, 4)]: a FIFO of at
    most sixteen events. *)
Definition kb_msgq_max_msgs : nat := 16.

(** [k_msgq_put(&kb_msgq, e, K_NO_WAIT)]: [None] when the queue is full. *)
Definition k_msgq_put (q : list kb_event) (e : kb_event)
  : option (list kb_event) :=
  if (length q <? kb_msgq_max_msgs)%nat then Some (q ++ [e]) else None.

(** [k_msgq_get(&kb_msgq, &e, K_FOREVER)]: [None] while the caller waits. *)
Definition k_msgq_get (q : list kb_event) : option (kb_event * list kb_event) :=
  match q with
  | [] => None
  | e :: q' => Some (e, q')
  end.

(** [struct input_event], the fields the callback reads. *)
Record input_event := mk_input_event {
  evt_type : Z;
  evt_code : N;
  evt_value : Z }.

(** [INPUT_EV_KEY] of the Zephyr input codes. *)
Definition INPUT_EV_KEY := 1.

(** The producer: key events are queued, a full queue drops the event and
    logs an error; the result is the queue and the log. *)
Definition input_cb (evt : input_event) (q : list kb_event)
  : list kb_event * list effect :=
  if negb (evt_type evt =? INPUT_EV_KEY) then (q, [])
  else
    match k_msgq_put q (mk_kb_event (evt_code evt) (evt_value evt)) with
    | Some q' => (q', [])
    | None => (q, [LOG ERR "Failed to put new input event" []])
    end.

(** ** Transport request handlers *)

Definition kb_iface_ready (dev_name : string) (ready : bool) : M unit :=
  emit (LOG INF "HID device %s interface is %s"
          [ArgS dev_name; ArgS (if ready then "ready" else "not ready")]) ;;
  modify (set_kb_ready ready).

(** Returns the [int] result and the caller's buffer after the call. *)
Definition kb_get_report (type id len : Z) (buf : list Z) : M (Z * list Z) :=
  if (type =? HID_REPORT_TYPE_INPUT) && (KB_REPORT_COUNT <=? len) then
    r <- gets report ;;
    buf' <- lift (memcpy buf r KB_REPORT_COUNT) ;;
    ret (KB_REPORT_COUNT, buf')
  else
    emit (LOG WRN "Get Report not implemented, Type %u ID %u"
            [ArgU type; ArgU id]) ;;
    ret (0, buf).

Definition kb_set_report (b : board) (type id len : Z) (buf : list Z) : M Z :=
  if negb (type =? HID_REPORT_TYPE_OUTPUT) then
    emit (LOG WRN "Unsupported report type" []) ;;
    ret (- ENOTSUP)
  else
    for_range (length (kb_leds b) - 0) 0 (fun i =>
      led <- lift (nth_error (kb_leds b) (Z.to_nat i)) ;;
      match port led with
      | None => ret tt
      | Some _ =>
          b0 <- lift (array_get buf 0) ;;
          emit (gpio_pin_set_dt i (Z.land b0 (BIT i)))
      end) ;;
    ret 0.

Definition kb_set_idle (id duration : Z) : M unit :=
  emit (LOG INF "Set Idle %u to %u" [ArgU id; ArgU duration]) ;;
  modify (set_kb_duration duration).

Definition kb_get_idle (id : Z) : M Z :=
  d <- gets kb_duration ;;
  emit (LOG INF "Get Idle %u to %u" [ArgU id; ArgU d]) ;;
  ret d.

Definition kb_set_protocol (proto : Z) : M unit :=
  emit (LOG INF "Protocol changed to %s"
          [ArgS (if proto =? 0 then "Boot Protocol" else "Report Protocol")]).

Definition kb_output_report (b : board) (len : Z) (buf : list Z) : M unit :=
  emit (LOG_HEXDUMP DBG (firstn (Z.to_nat len) buf) "o.r.") ;;
  _ <- kb_set_report b HID_REPORT_TYPE_OUTPUT 0 len buf ;;
  ret tt.

(** ** Consumer loop *)

(** What the USB stack answers during one iteration. *)
Record usb_env := mk_usb_env {
  usbd_is_suspended : bool;
  usbd_wakeup_request_ret : Z;
  hid_device_submit_report_ret : Z }.

(** The body of [while (true)] in [main], after [k_msgq_get] has delivered
    [kb_evt]; [continue] ends the body. *)
Definition main_loop_body (b : board) (env : usb_env) (kb_evt : kb_event)
  : M unit :=
  process_key_event (code kb_evt) (negb (value kb_evt =? 0)) ;;
  ready <- gets kb_ready ;;
  if negb ready then
    emit (LOG DBG "USB HID device is not ready" [])
  else if CONFIG_KEYBOARD_USBD_REMOTE_WAKEUP b && usbd_is_suspended env then
    if negb (value kb_evt =? 0) then
      emit usbd_wakeup_request ;;
      let r := usbd_wakeup_request_ret env in
      if negb (r =? 0)
      then emit (LOG ERR "Remote wakeup error, %d" [ArgU r])
      else ret tt
    else ret tt
  else
    rep <- gets report ;;
    emit (hid_device_submit_report KB_REPORT_COUNT rep) ;;
    let r := hid_device_submit_report_ret env in
    if negb (r =? 0)
    then emit (LOG ERR "HID submit report error, %d" [ArgU r])
    else ret tt.

(** One turn of the loop on the queue [q]: [None] while [k_msgq_get]
    waits, otherwise the body run on the oldest event and the rest of the
    queue. *)
Definition main_loop_iteration (b : board) (env : usb_env) (q : list kb_event)
  : option (M unit * list kb_event) :=
  match k_msgq_get q with
  | None => None
  | Some (kb_evt, q') => Some (main_loop_body b env kb_evt, q')
  end.

(** Folding a sequence of key events, as the loop does one after the other. *)
Fixpoint process_key_events (evs : list kb_event) : M unit :=
  match evs with
  | [] => ret tt
  | e :: evs' =>
      process_key_event (code e) (negb (value e =? 0)) ;;
      process_key_events evs'
  end.

(** The state the keyboard is in after the events [evs], starting from the
    zero-initialised one. *)
Definition state_after (evs : list kb_event) : outcome unit :=
  process_key_events evs kb_initial.

(** ** The rollover set and the report layout *)

(** The tracked codes: the first [pressed_count] elements of [pressed_keys]. *)
Definition rollover_set (s : kb_state) : list Z :=
  firstn (Z.to_nat (pressed_count s)) (pressed_keys s).

(** The boot-protocol layout of the state. *)
Definition report_layout (s : kb_state) : list Z :=
  modifier_state s :: 0 :: rollover_set s
    ++ repeat 0 (Z.to_nat MAX_PRESSED_KEYS - length (rollover_set s)).

(** The events of a key going down and coming up again. *)
Definition press (c : N) : kb_event := mk_kb_event c 1.
Definition release (c : N) : kb_event := mk_kb_event c 0.

(** The arrays have their declared sizes and the count is within the array. *)
Definition kb_wf (s : kb_state) : Prop :=
  length (pressed_keys s) = Z.to_nat MAX_PRESSED_KEYS /\
  length (report s) = Z.to_nat KB_REPORT_COUNT /\
  0 <= pressed_count s <= MAX_PRESSED_KEYS.

(** ** Translation as a pure function *)

(** The table entry of [input_code], zero outside the table. *)
Definition usage_code (input_code : N) : Z :=
  nth (N.to_nat input_code) input_to_hid_key 0.

(** The three classes of the design document; the modifier switch of
    [process_key_event] is consulted before the table. *)
Inductive key_class := Modifier (bit : Z) | UsageCode (c : Z) | Unmapped.

(** The class [process_key_event] treats [input_code] as. *)
Definition translate (input_code : N) : key_class :=
  if negb (get_modifier_bit input_code =? 0)
  then Modifier (get_modifier_bit input_code)
  else if negb (usage_code input_code =? 0)
       then UsageCode (usage_code input_code)
       else Unmapped.

(** ** What the loops of the rollover array compute *)

(** [k] is among the codes [l]: the scan both functions start with. *)
Definition mem (k : Z) (l : list Z) : bool := existsb (fun x => x =? k) l.

(** [x :: t] moved one place to the left: what the inner loop of
    [remove_pressed_key] leaves where [x :: t] was. *)
Fixpoint shift_left (x : Z) (t : list Z) : list Z :=
  match t with
  | [] => [x]
  | y :: t' => y :: shift_left y t'
  end.

(** The body of that inner loop. *)
Definition shift_body (j : Z) : M unit :=
  k' <- read_pressed_keys (j + 1) ;; write_pressed_keys j k'.

(** What [remove_pressed_key] leaves where the tracked codes [l] were, when
    [k] is one of them: the codes after the first [k] move one place to the
    left and the last place keeps its old content. *)
Fixpoint remove_shift (k : Z) (l : list Z) : list Z :=
  match l with
  | [] => []
  | x :: t => if x =? k then shift_left x t else x :: remove_shift k t
  end.

(** The tracked codes without the first [k]. *)
Fixpoint remove_first (k : Z) (l : list Z) : list Z :=
  match l with
  | [] => []
  | x :: t => if x =? k then t else x :: remove_first k t
  end.

(** The state with its report rebuilt. *)
Definition rebuilt (s : kb_state) : kb_state := set_report (report_layout s) s.

(** The state once [hid_key], absent and with room left, has been appended. *)
Definition appended (hid_key : Z) (s : kb_state) : kb_state :=
  set_pressed_count (pressed_count s + 1)
    (set_pressed_keys
       (rollover_set s ++ hid_key ::
          skipn (S (Z.to_nat (pressed_count s))) (pressed_keys s)) s).

(** The state once [hid_key], present, has been taken out. *)
Definition compacted (hid_key : Z) (s : kb_state) : kb_state :=
  set_pressed_count (pressed_count s - 1)
    (set_pressed_keys
       (remove_shift hid_key (rollover_set s)
          ++ skipn (Z.to_nat (pressed_count s)) (pressed_keys s)) s).

(** ** The rollover set of the design document

    [insert]: a code already present is left where it is; an absent code is
    appended when fewer than six are tracked and rejected otherwise.
    [remove]: the code is taken out and the others keep their order. *)
Definition RolloverSet_insert (c : Z) (l : list Z) : list Z :=
  if mem c l then l
  else if (length l <? 6)%nat then l ++ [c] else l.

Definition RolloverSet_remove (c : Z) (l : list Z) : list Z :=
  filter (fun x => negb (x =? c)) l.

Definition RolloverSet_step (l : list Z) (input_code : N) (pressed : bool)
  : list Z :=
  match translate input_code with
  | UsageCode c =>
      if pressed then RolloverSet_insert c l else RolloverSet_remove c l
  | Modifier _ | Unmapped => l
  end.

Definition RolloverSet_fold (l : list Z) (e : kb_event) : list Z :=
  RolloverSet_step l (code e) (negb (value e =? 0)).

(** The modifier mask after one event. *)
Definition Modifier_step (m : Z) (input_code : N) (pressed : bool) : Z :=
  match translate input_code with
  | Modifier bit =>
      u8 (if pressed then Z.lor m bit else Z.land m (Z.lnot bit))
  | UsageCode _ | Unmapped => m
  end.

(** The modifier of [input_code] is held in [s]. *)
Definition modifier_held (s : kb_state) (input_code : N) : bool :=
  negb (Z.land (modifier_state s) (get_modifier_bit input_code) =? 0).

(** The invariant of the consumer: well-formed, no code tracked twice, and
    the report buffer holds the layout of the state. *)
Definition kb_inv (s : kb_state) : Prop :=
  kb_wf s /\ NoDup (rollover_set s) /\ report s = report_layout s.

(** ** Observations on traces *)

(** The reports handed to [hid_device_submit_report], in order. *)
Fixpoint submitted (tr : list effect) : list (list Z) :=
  match tr with
  | [] => []
  | hid_device_submit_report _ r :: tr' => r :: submitted tr'
  | _ :: tr' => submitted tr'
  end.

(** The number of calls to [usbd_wakeup_request]. *)
Fixpoint wakeups (tr : list effect) : nat :=
  match tr with
  | [] => O
  | usbd_wakeup_request :: tr' => S (wakeups tr')
  | _ :: tr' => wakeups tr'
  end.


Definition has_port (l : gpio_dt_spec) : bool :=
  match port l with Some _ => true | None => false end.

(** LED [i] exists on the board. *)
Definition led_present (b : board) (i : Z) : bool :=
  match nth_error (kb_leds b) (Z.to_nat i) with
  | Some l => has_port l
  | None => false
  end.

(** The GPIO calls of [kb_set_report] for the byte [b0]. *)
Definition led_writes (b : board) (b0 : Z) : list effect :=
  (if has_port (led0 b) then [gpio_pin_set_dt 0 (Z.land b0 (BIT 0))] else [])
  ++ (if has_port (led1 b) then [gpio_pin_set_dt 1 (Z.land b0 (BIT 1))] else [])
  ++ (if has_port (led2 b) then [gpio_pin_set_dt 2 (Z.land b0 (BIT 2))] else []).

(** ** Reachable states

    The states the keyboard can be in: the zero-initialised one, and any
    state one of the entry points of [main.c] leaves behind, whether the
    fold of a key event by the consumer loop or a callback of the HID
    transport. *)
Inductive reachable : kb_state -> Prop :=
| reach_initial : reachable kb_initial
| reach_key_event s input_code pressed s' tr :
    reachable s ->
    process_key_event input_code pressed s = Done tt s' tr ->
    reachable s'
| reach_iface_ready s dev_name ready s' tr :
    reachable s ->
    kb_iface_ready dev_name ready s = Done tt s' tr ->
    reachable s'
| reach_get_report s type id len buf r s' tr :
    reachable s ->
    kb_get_report type id len buf s = Done r s' tr ->
    reachable s'
| reach_set_report s b type id len buf r s' tr :
    reachable s ->
    kb_set_report b type id len buf s = Done r s' tr ->
    reachable s'
| reach_set_idle s id duration s' tr :
    reachable s ->
    kb_set_idle id duration s = Done tt s' tr ->
    reachable s'
| reach_get_idle s id r s' tr :
    reachable s ->
    kb_get_idle id s = Done r s' tr ->
    reachable s'
| reach_set_protocol s proto s' tr :
    reachable s ->
    kb_set_protocol proto s = Done tt s' tr ->
    reachable s'
| reach_output_report s b len buf s' tr :
    reachable s ->
    kb_output_report b len buf s = Done tt s' tr ->
    reachable s'.
(** ** The consumer loop over several events *)

(** The loop for as many turns as [steps] has entries: each turn receives
    the next event of the queue and the answers of the USB stack during
    that turn. *)
Fixpoint main_loop_run (b : board) (steps : list (usb_env * kb_event))
  : M unit :=
  match steps with
  | [] => ret tt
  | (env, kb_evt) :: steps' =>
      main_loop_body b env kb_evt ;; main_loop_run b steps'
  end.

(** The producer called on the input events [evts], oldest first, with
    nothing taken out meanwhile. *)
Fixpoint input_cb_all (evts : list input_event) (q : list kb_event)
  : list kb_event * list effect :=
  match evts with
  | [] => (q, [])
  | evt :: evts' =>
      let (q1, t1) := input_cb evt q in
      let (q2, t2) := input_cb_all evts' q1 in
      (q2, t1 ++ t2)
  end.

(** The key event [input_cb] queues for [evt]. *)
Definition kb_event_of (evt : input_event) : kb_event :=
  mk_kb_event (evt_code evt) (evt_value evt).

Definition is_key_event (evt : input_event) : bool :=
  evt_type evt =? INPUT_EV_KEY.

(** ** USB device bring-up ([usbd_init.c], [msg_cb] and the start of [main]) *)

(** [EIO] and [ENODEV] of Zephyr's [errno.h]; the attribute bits of
    [<zephyr/usb/usb_ch9.h>]. *)
Definition EIO := 5.
Definition ENODEV := 19.
Definition USB_SCD_SELF_POWERED := BIT 6.
Definition USB_SCD_REMOTE_WAKEUP := BIT 5.

Inductive usbd_speed := USBD_SPEED_FS | USBD_SPEED_HS | USBD_SPEED_SS.

Inductive usbd_desc := kbd_lang | kbd_mfr | kbd_product.

Inductive usbd_config := kbd_fs_config | kbd_hs_config.

Inductive usbd_msg_type :=
| USBD_MSG_VBUS_READY
| USBD_MSG_VBUS_REMOVED
| USBD_MSG_CONFIGURATION
| USBD_MSG_OTHER (n : Z).

(** [struct usbd_msg] *)
Record usbd_msg := mk_usbd_msg { msg_type : usbd_msg_type; msg_status : Z }.

(** Calls to the USB, HID and GPIO collaborators during bring-up. *)
Inductive sys_call :=
| SYS_LOG (lvl : log_level) (fmt : string) (args : list log_arg)
| usbd_add_descriptor (d : usbd_desc)
| usbd_add_configuration (speed : usbd_speed) (cfg : usbd_config)
| usbd_register_all_classes (speed : usbd_speed) (cfg_idx : Z)
| usbd_device_set_code_triple (speed : usbd_speed) (base sub proto : Z)
| usbd_self_powered (status : bool)
| usbd_msg_register_cb
| usbd_init
| usbd_enable
| usbd_disable
| gpio_is_ready_dt (led : Z)
| gpio_pin_configure_dt_output_inactive (led : Z)
| device_is_ready
| hid_device_register
| hid_device_set_in_polling (period_us : Z)
| hid_device_set_out_polling (period_us : Z).

(** What the collaborators answer. *)
Record usb_stack := mk_usb_stack {
  usbd_add_descriptor_ret : usbd_desc -> Z;
  usbd_caps_speed : usbd_speed;
  usbd_add_configuration_ret : usbd_speed -> Z;
  usbd_register_all_classes_ret : usbd_speed -> Z;
  usbd_msg_register_cb_ret : Z;
  usbd_init_ret : Z;
  usbd_can_detect_vbus : bool;
  usbd_enable_ret : Z;
  usbd_disable_ret : Z;
  usbd_msg_type_string : usbd_msg_type -> string;
  gpio_is_ready_dt_ret : Z -> bool;
  gpio_pin_configure_dt_ret : Z -> Z;
  device_is_ready_ret : bool;
  hid_device_register_ret : Z;
  hid_device_set_in_polling_ret : Z;
  hid_device_set_out_polling_ret : Z }.

(** The Kconfig switches of the bring-up that [board] does not hold. *)
Record usbd_kconfig := mk_usbd_kconfig {
  USBD_SUPPORTS_HIGH_SPEED : bool;
  CONFIG_KEYBOARD_USBD_SELF_POWERED : bool;
  CONFIG_USBD_HID_SET_POLLING_PERIOD : bool }.

(** [static const uint8_t attributes] *)
Definition attributes (k : usbd_kconfig) (b : board) : Z :=
  u8 (Z.lor (if CONFIG_KEYBOARD_USBD_SELF_POWERED k
             then USB_SCD_SELF_POWERED else 0)
            (if CONFIG_KEYBOARD_USBD_REMOTE_WAKEUP b
             then USB_SCD_REMOTE_WAKEUP else 0)).

(** [err = call; if (err) { LOG_ERR(fmt, args); return NULL; }]: the call is
    made; a non-zero answer logs and leaves the function with [false] (the
    [NULL] result), zero goes on with [k]. *)
Definition attempt (c : sys_call) (err : Z) (fmt : string)
    (args : list log_arg) (k : list sys_call * bool) : list sys_call * bool :=
  if negb (err =? 0) then ([c; SYS_LOG ERR fmt args], false)
  else (c :: fst k, snd k).

(** [keyboard_usbd_init(msg_cb)]; [msg_cb] tells whether the callback
    pointer is non-[NULL], the result whether [&kbd_usbd] is returned. *)
Definition keyboard_usbd_init (k : usbd_kconfig) (b : board) (u : usb_stack)
    (msg_cb : bool) : list sys_call * bool :=
  let err_lang := usbd_add_descriptor_ret u kbd_lang in
  attempt (usbd_add_descriptor kbd_lang) err_lang
    "Failed to initialize language descriptor (%d)" [ArgU err_lang]
  (let err_mfr := usbd_add_descriptor_ret u kbd_mfr in
   attempt (usbd_add_descriptor kbd_mfr) err_mfr
     "Failed to initialize manufacturer descriptor (%d)" [ArgU err_mfr]
  (let err_product := usbd_add_descriptor_ret u kbd_product in
   attempt (usbd_add_descriptor kbd_product) err_product
     "Failed to initialize product descriptor (%d)" [ArgU err_product]
  (let full_speed :=
     attempt (usbd_add_configuration USBD_SPEED_FS kbd_fs_config)
       (usbd_add_configuration_ret u USBD_SPEED_FS)
       "Failed to add Full-Speed configuration" []
     (attempt (usbd_register_all_classes USBD_SPEED_FS 1)
        (usbd_register_all_classes_ret u USBD_SPEED_FS)
        "Failed to register FS classes" []
     (let rest :=
        let last :=
          attempt usbd_init (usbd_init_ret u)
            "Failed to initialize device support" [] ([], true) in
        if msg_cb then
          attempt usbd_msg_register_cb (usbd_msg_register_cb_ret u)
            "Failed to register message callback" [] last
        else last in
      (usbd_device_set_code_triple USBD_SPEED_FS 0 0 0
         :: usbd_self_powered
              (negb (Z.land (attributes k b) USB_SCD_SELF_POWERED =? 0))
         :: fst rest, snd rest))) in
   if USBD_SUPPORTS_HIGH_SPEED k &&
      match usbd_caps_speed u with USBD_SPEED_HS => true | _ => false end
   then
     attempt (usbd_add_configuration USBD_SPEED_HS kbd_hs_config)
       (usbd_add_configuration_ret u USBD_SPEED_HS)
       "Failed to add High-Speed configuration" []
     (attempt (usbd_register_all_classes USBD_SPEED_HS 1)
        (usbd_register_all_classes_ret u USBD_SPEED_HS)
        "Failed to register HS classes" []
        (usbd_device_set_code_triple USBD_SPEED_HS 0 0 0 :: fst full_speed,
         snd full_speed))
   else full_speed))).

(** [msg_cb(usbd_ctx, msg)] *)
Definition msg_cb (u : usb_stack) (msg : usbd_msg) : list sys_call :=
  [SYS_LOG INF "USBD message: %s" [ArgS (usbd_msg_type_string u (msg_type msg))]]
  ++ (match msg_type msg with
      | USBD_MSG_CONFIGURATION =>
          [SYS_LOG INF (String (Ascii.ascii_of_nat 9) "Configuration value %d")
             [ArgU (msg_status msg)]]
      | _ => []
      end)
  ++ (if usbd_can_detect_vbus u then
        (match msg_type msg with
         | USBD_MSG_VBUS_READY =>
             usbd_enable ::
             (if negb (usbd_enable_ret u =? 0)
              then [SYS_LOG ERR "Failed to enable device support" []] else [])
         | _ => []
         end)
        ++ (match msg_type msg with
            | USBD_MSG_VBUS_REMOVED =>
                usbd_disable ::
                (if negb (usbd_disable_ret u =? 0)
                 then [SYS_LOG ERR "Failed to disable device support" []]
                 else [])
            | _ => []
            end)
      else []).

(** The LED loop at the start of [main], from index [i] on: [Some e] when
    [main] returns [e] from inside the loop. *)
Fixpoint main_init_leds (u : usb_stack) (leds : list gpio_dt_spec) (i : Z)
  : list sys_call * option Z :=
  match leds with
  | [] => ([], None)
  | led :: leds' =>
      match port led with
      | None => main_init_leds u leds' (i + 1)
      | Some name =>
          if negb (gpio_is_ready_dt_ret u i) then
            ([gpio_is_ready_dt i;
              SYS_LOG ERR "LED device %s is not ready" [ArgS name]],
             Some (- EIO))
          else
            let ret := gpio_pin_configure_dt_ret u i in
            if negb (ret =? 0) then
              ([gpio_is_ready_dt i; gpio_pin_configure_dt_output_inactive i;
                SYS_LOG ERR "Failed to configure the LED pin, %d" [ArgU ret]],
               Some (- EIO))
            else
              let (tr, r) := main_init_leds u leds' (i + 1) in
              (gpio_is_ready_dt i :: gpio_pin_configure_dt_output_inactive i
                 :: tr, r)
      end
  end.

(** [main] up to its event loop: [Some e] when [main] returns [e], [None]
    when it enters the loop. *)
Definition main_init (k : usbd_kconfig) (b : board) (u : usb_stack)
  : list sys_call * option Z :=
  let (tr_leds, r_leds) := main_init_leds u (kb_leds b) 0 in
  match r_leds with
  | Some e => (tr_leds, Some e)
  | None =>
      if negb (device_is_ready_ret u) then
        (tr_leds ++ [device_is_ready;
                     SYS_LOG ERR "HID Device is not ready" []], Some (- EIO))
      else
        let ret := hid_device_register_ret u in
        if negb (ret =? 0) then
          (tr_leds ++ [device_is_ready; hid_device_register;
                       SYS_LOG ERR "Failed to register HID Device, %d"
                         [ArgU ret]], Some ret)
        else
          let tr_poll :=
            if CONFIG_USBD_HID_SET_POLLING_PERIOD k then
              let r_in := hid_device_set_in_polling_ret u in
              let r_out := hid_device_set_out_polling_ret u in
              hid_device_set_in_polling 1000 ::
              (if negb (r_in =? 0)
               then [SYS_LOG WRN "Failed to set IN report polling period, %d"
                       [ArgU r_in]] else [])
              ++ hid_device_set_out_polling 1000 ::
              (if negb (r_out =? 0) && negb (r_out =? - ENOTSUP)
               then [SYS_LOG WRN "Failed to set OUT report polling period, %d"
                       [ArgU r_out]] else [])
            else [] in
          let (tr_usbd, kbd_usbd) := keyboard_usbd_init k b u true in
          let tr := tr_leds ++ [device_is_ready; hid_device_register]
                      ++ tr_poll ++ tr_usbd in
          if negb kbd_usbd then
            (tr ++ [SYS_LOG ERR "Failed to initialize USB device" []],
             Some (- ENODEV))
          else if negb (usbd_can_detect_vbus u) then
            let ret := usbd_enable_ret u in
            if negb (ret =? 0) then
              (tr ++ [usbd_enable;
                      SYS_LOG ERR "Failed to enable device support" []],
               Some ret)
            else
              (tr ++ [usbd_enable;
                      SYS_LOG INF "88-key HID keyboard initialized" []], None)
          else
            (tr ++ [SYS_LOG INF "88-key HID keyboard initialized" []], None)
  end.

(** The calls of a trace that are not log messages. *)
Definition is_log (c : sys_call) : bool :=
  match c with SYS_LOG _ _ _ => true | _ => false end.

Definition error_logs (tr : list sys_call) : nat :=
  length (filter (fun c => match c with SYS_LOG ERR _ _ => true | _ => false end)
            tr).

Definition count_call (p : sys_call -> bool) (tr : list sys_call) : nat :=
  length (filter p tr).

Definition is_usbd_enable (c : sys_call) : bool :=
  match c with usbd_enable => true | _ => false end.

Definition is_usbd_disable (c : sys_call) : bool :=
  match c with usbd_disable => true | _ => false end.

Definition is_gpio_call (c : sys_call) : bool :=
  match c with
  | gpio_is_ready_dt _ | gpio_pin_configure_dt_output_inactive _ => true
  | _ => false
  end.

(** The calls [keyboard_usbd_init] may make: the set-up calls of the USB
    device stack, with the self-powered status of the build, and error
    logs. *)
Definition is_usbd_setup_call (k : usbd_kconfig) (c : sys_call) : bool :=
  match c with
  | SYS_LOG ERR _ _ => true
  | usbd_add_descriptor _ => true
  | usbd_add_configuration USBD_SPEED_FS kbd_fs_config => true
  | usbd_add_configuration USBD_SPEED_HS kbd_hs_config => true
  | usbd_register_all_classes _ 1 => true
  | usbd_device_set_code_triple _ 0 0 0 => true
  | usbd_self_powered st => Bool.eqb st (CONFIG_KEYBOARD_USBD_SELF_POWERED k)
  | usbd_msg_register_cb => true
  | usbd_init => true
  | _ => false
  end.

(** The trace ends with [usbd_init] when the result is [true] and with an
    error log when it is [false]. *)
Definition ends_with_init_or_error (tr : list sys_call) (r : bool) : bool :=
  match last tr usbd_enable with
  | usbd_init => r
  | SYS_LOG ERR _ _ => negb r
  | _ => false
  end.

(** The answers of the calls [keyboard_usbd_init] makes are all zero. *)
Definition usbd_setup_succeeds (k : usbd_kconfig) (u : usb_stack)
    (msg_cb : bool) : bool :=
  (usbd_add_descriptor_ret u kbd_lang =? 0)
  && (usbd_add_descriptor_ret u kbd_mfr =? 0)
  && (usbd_add_descriptor_ret u kbd_product =? 0)
  && (if USBD_SUPPORTS_HIGH_SPEED k &&
         match usbd_caps_speed u with USBD_SPEED_HS => true | _ => false end
      then (usbd_add_configuration_ret u USBD_SPEED_HS =? 0)
           && (usbd_register_all_classes_ret u USBD_SPEED_HS =? 0)
      else true)
  && (usbd_add_configuration_ret u USBD_SPEED_FS =? 0)
  && (usbd_register_all_classes_ret u USBD_SPEED_FS =? 0)
  && (if msg_cb then usbd_msg_register_cb_ret u =? 0 else true)
  && (usbd_init_ret u =? 0).

(** Every LED the board has is ready and takes its configuration. *)
Definition leds_come_up (b : board) (u : usb_stack) : bool :=
  forallb (fun i => negb (led_present b i)
                    || (gpio_is_ready_dt_ret u i
                        && (gpio_pin_configure_dt_ret u i =? 0)))
    [0; 1; 2].

(** The LED a GPIO call is about exists on the board. *)
Definition gpio_call_on_present_led (b : board) (c : sys_call) : bool :=
  match c with
  | gpio_is_ready_dt i | gpio_pin_configure_dt_output_inactive i =>
      led_present b i
  | _ => true
  end.

Definition is_vbus_ready (msg : usbd_msg) : bool :=
  match msg_type msg with USBD_MSG_VBUS_READY => true | _ => false end.

Definition is_vbus_removed (msg : usbd_msg) : bool :=
  match msg_type msg with USBD_MSG_VBUS_REMOVED => true | _ => false end.

(** What holds of the trace and result of [keyboard_usbd_init] at every
    point of its run. *)
Definition usbd_trace_ok (k : usbd_kconfig) (x : list sys_call * bool) : Prop :=
  fst x <> [] /\
  error_logs (fst x) = (if snd x then O else 1%nat) /\
  ends_with_init_or_error (fst x) (snd x) = true /\
  forallb (is_usbd_setup_call k) (fst x) = true.

(** What the device stack answers to a call of [keyboard_usbd_init]; the
    calls whose result the function does not look at count as zero. *)
Definition usbd_call_answer (u : usb_stack) (c : sys_call) : Z :=
  match c with
  | usbd_add_descriptor d => usbd_add_descriptor_ret u d
  | usbd_add_configuration speed _ => usbd_add_configuration_ret u speed
  | usbd_register_all_classes speed _ => usbd_register_all_classes_ret u speed
  | usbd_msg_register_cb => usbd_msg_register_cb_ret u
  | usbd_init => usbd_init_ret u
  | _ => 0
  end.

(** The error [keyboard_usbd_init] logs when the call [c] fails. *)
Definition usbd_failure_log (u : usb_stack) (c : sys_call) : sys_call :=
  match c with
  | usbd_add_descriptor kbd_lang =>
      SYS_LOG ERR "Failed to initialize language descriptor (%d)"
        [ArgU (usbd_add_descriptor_ret u kbd_lang)]
  | usbd_add_descriptor kbd_mfr =>
      SYS_LOG ERR "Failed to initialize manufacturer descriptor (%d)"
        [ArgU (usbd_add_descriptor_ret u kbd_mfr)]
  | usbd_add_descriptor kbd_product =>
      SYS_LOG ERR "Failed to initialize product descriptor (%d)"
        [ArgU (usbd_add_descriptor_ret u kbd_product)]
  | usbd_add_configuration USBD_SPEED_HS _ =>
      SYS_LOG ERR "Failed to add High-Speed configuration" []
  | usbd_add_configuration _ _ =>
      SYS_LOG ERR "Failed to add Full-Speed configuration" []
  | usbd_register_all_classes USBD_SPEED_HS _ =>
      SYS_LOG ERR "Failed to register HS classes" []
  | usbd_register_all_classes _ _ =>
      SYS_LOG ERR "Failed to register FS classes" []
  | usbd_msg_register_cb =>
      SYS_LOG ERR "Failed to register message callback" []
  | _ => SYS_LOG ERR "Failed to initialize device support" []
  end.

(** The calls [keyboard_usbd_init] makes when none fails, in order. *)
Definition planned_usbd_calls (k : usbd_kconfig) (u : usb_stack)
    (msg_cb : bool) : list sys_call :=
  [usbd_add_descriptor kbd_lang; usbd_add_descriptor kbd_mfr;
   usbd_add_descriptor kbd_product]
  ++ (if USBD_SUPPORTS_HIGH_SPEED k &&
         match usbd_caps_speed u with USBD_SPEED_HS => true | _ => false end
      then [usbd_add_configuration USBD_SPEED_HS kbd_hs_config;
            usbd_register_all_classes USBD_SPEED_HS 1;
            usbd_device_set_code_triple USBD_SPEED_HS 0 0 0]
      else [])
  ++ [usbd_add_configuration USBD_SPEED_FS kbd_fs_config;
      usbd_register_all_classes USBD_SPEED_FS 1;
      usbd_device_set_code_triple USBD_SPEED_FS 0 0 0;
      usbd_self_powered (CONFIG_KEYBOARD_USBD_SELF_POWERED k)]
  ++ (if msg_cb then [usbd_msg_register_cb] else [])
  ++ [usbd_init].

(** The calls [calls] made one after the other up to the first that does
    not answer zero, which is followed by its error log and nothing else;
    the result tells whether all of them answered zero. *)
Fixpoint until_first_failure (u : usb_stack) (calls : list sys_call)
  : list sys_call * bool :=
  match calls with
  | [] => ([], true)
  | c :: calls' =>
      if negb (usbd_call_answer u c =? 0)
      then ([c; usbd_failure_log u c], false)
      else
        let x := until_first_failure u calls' in
        (c :: fst x, snd x)
  end.

(** * Proofs *)

(** ** Arrays *)

Lemma in_bounds (i n : Z) : 0 <= i < n -> (0 <=? i) && (i <? n) = true.
Proof.
  intros [H0 H1]. apply andb_true_iff. split; [apply Z.leb_le | apply Z.ltb_lt]; assumption.
Qed.

Lemma array_get_mid (pre : list Z) (x : Z) (post : list Z) :
  array_get (pre ++ x :: post) (Z.of_nat (length pre)) = Some x.
Proof.
  unfold array_get.
  rewrite length_app, Nat2Z.id. cbn [length].
  rewrite in_bounds by lia.
  induction pre as [|p pre IH]; [reflexivity | exact IH].
Qed.

Lemma array_set_mid (pre : list Z) (x v : Z) (post : list Z) :
  array_set (pre ++ x :: post) (Z.of_nat (length pre)) v
  = Some (pre ++ v :: post).
Proof.
  unfold array_set.
  rewrite length_app, Nat2Z.id. cbn [length].
  rewrite in_bounds by lia.
  f_equal.
  induction pre as [|p pre IH]; [reflexivity | cbn; f_equal; exact IH].
Qed.

Lemma read_pressed_keys_mid (s : kb_state) (pre : list Z) (x : Z) (post : list Z) (i : Z) :
  pressed_keys s = pre ++ x :: post -> i = Z.of_nat (length pre) ->
  read_pressed_keys i s = Done x s [].
Proof.
  intros Hk ->. unfold read_pressed_keys, bind, gets, lift.
  rewrite Hk, array_get_mid. reflexivity.
Qed.

Lemma write_pressed_keys_mid (s : kb_state) (pre : list Z) (x v : Z) (post : list Z) (i : Z) :
  pressed_keys s = pre ++ x :: post -> i = Z.of_nat (length pre) ->
  write_pressed_keys i v s = Done tt (set_pressed_keys (pre ++ v :: post) s) [].
Proof.
  intros Hk ->. unfold write_pressed_keys, bind, gets, lift, modify.
  rewrite Hk, array_set_mid. reflexivity.
Qed.

Lemma write_report_mid (s : kb_state) (pre : list Z) (x v : Z) (post : list Z) (i : Z) :
  report s = pre ++ x :: post -> i = Z.of_nat (length pre) ->
  write_report i v s = Done tt (set_report (pre ++ v :: post) s) [].
Proof.
  intros Hk ->. unfold write_report, bind, gets, lift, modify.
  rewrite Hk, array_set_mid. reflexivity.
Qed.

(** ** The loops of the rollover array *)

Lemma shift_left_length x t : length (shift_left x t) = S (length t).
Proof. revert x; induction t; intros; cbn; auto. Qed.

Lemma shift_left_firstn x t : firstn (length t) (shift_left x t) = t.
Proof. revert x; induction t; intros; cbn; [|rewrite IHt]; auto. Qed.

Lemma shift_loop_spec (mid : list Z) : forall (pre : list Z) (x : Z) (post : list Z) (s : kb_state),
  pressed_keys s = pre ++ x :: mid ++ post ->
  for_range (length mid) (Z.of_nat (length pre)) shift_body s
  = Done tt (set_pressed_keys (pre ++ shift_left x mid ++ post) s) [].
Proof.
  induction mid as [|y mid IH]; intros pre x post s Hk.
  - cbn in Hk |- *. unfold ret. rewrite <- Hk. destruct s; reflexivity.
  - cbn [length for_range shift_left]. unfold bind at 1. unfold shift_body at 1.
    unfold bind at 1.
    rewrite (read_pressed_keys_mid s (pre ++ [x]) y (mid ++ post)).
    2:{ rewrite Hk, <- app_assoc. reflexivity. }
    2:{ rewrite length_app. cbn. lia. }
    rewrite (write_pressed_keys_mid s pre x y ((y :: mid) ++ post) _ Hk eq_refl).
    cbn [app].
    replace (Z.of_nat (length pre) + 1) with (Z.of_nat (length (pre ++ [y])))
      by (rewrite length_app; cbn; lia).
    rewrite (IH (pre ++ [y]) y post).
    2:{ cbn. rewrite <- app_assoc. reflexivity. }
    cbn. rewrite <- app_assoc. reflexivity.
Qed.

Lemma mem_cons k x t : mem k (x :: t) = (x =? k) || mem k t.
Proof. reflexivity. Qed.

Lemma mem_In k l : mem k l = true <-> In k l.
Proof.
  unfold mem. rewrite existsb_exists. split.
  - intros [x [Hx E]]. apply Z.eqb_eq in E. subst. exact Hx.
  - intros H. exists k. split; [exact H | apply Z.eqb_refl].
Qed.

Lemma mem_false_In k l : mem k l = false <-> ~ In k l.
Proof.
  rewrite <- mem_In. destruct (mem k l); split; intros; congruence.
Qed.

Lemma remove_shift_length k l : length (remove_shift k l) = length l.
Proof.
  induction l as [|x t IH]; cbn; [reflexivity|].
  destruct (x =? k); cbn; [apply shift_left_length | now rewrite IH].
Qed.

Lemma remove_shift_firstn k l :
  mem k l = true ->
  firstn (length l - 1) (remove_shift k l) = remove_first k l.
Proof.
  induction l as [|x t IH]; [discriminate|].
  rewrite mem_cons. cbn [remove_shift remove_first length].
  replace (S (length t) - 1)%nat with (length t) by lia.
  destruct (x =? k); cbn [orb].
  - intros _. apply shift_left_firstn.
  - intros Hm. specialize (IH Hm).
    destruct t as [|y t']; [discriminate|].
    replace (length (y :: t') - 1)%nat with (length t') in IH by (cbn; lia).
    cbn [length firstn]. f_equal. exact IH.
Qed.

Lemma remove_first_absent k l : mem k l = false -> remove_first k l = l.
Proof.
  induction l as [|x t IH]; [reflexivity|].
  rewrite mem_cons. cbn [remove_first].
  destruct (x =? k); cbn [orb]; [discriminate|]. intros H. now rewrite IH.
Qed.

Lemma add_scan_spec (hid_key : Z) (l : list Z) :
  forall (pre post : list Z) (s : kb_state),
  pressed_keys s = pre ++ l ++ post ->
  for_range_ret (length l) (Z.of_nat (length pre)) (fun i =>
    k <- read_pressed_keys i ;;
    if k =? hid_key then ret (Some true) else ret None) s
  = Done (if mem hid_key l then Some true else None) s [].
Proof.
  induction l as [|x t IH]; intros pre post s Hk; [reflexivity|].
  cbn [length for_range_ret]. rewrite mem_cons. unfold bind at 1. unfold bind at 1.
  rewrite (read_pressed_keys_mid s pre x (t ++ post) _ Hk eq_refl).
  destruct (x =? hid_key); [reflexivity|]. cbn [ret orb].
  replace (Z.of_nat (length pre) + 1) with (Z.of_nat (length (pre ++ [x])))
    by (rewrite length_app; cbn; lia).
  rewrite (IH (pre ++ [x]) post).
  2:{ rewrite Hk, <- app_assoc. reflexivity. }
  reflexivity.
Qed.

Lemma remove_scan_spec (hid_key : Z) (l : list Z) :
  forall (pre post : list Z) (s : kb_state),
  pressed_keys s = pre ++ l ++ post ->
  pressed_count s = Z.of_nat (length pre + length l) ->
  for_range_ret (length l) (Z.of_nat (length pre)) (fun i =>
    k <- read_pressed_keys i ;;
    if k =? hid_key then
      cnt <- gets pressed_count ;;
      for_range (Z.to_nat (cnt - 1 - i)) i (fun j =>
        k' <- read_pressed_keys (j + 1) ;;
        write_pressed_keys j k') ;;
      modify (set_pressed_count (u8 (cnt - 1))) ;;
      ret (Some tt)
    else ret None) s
  = if mem hid_key l
    then Done (Some tt)
           (set_pressed_count (u8 (pressed_count s - 1))
              (set_pressed_keys (pre ++ remove_shift hid_key l ++ post) s)) []
    else Done None s [].
Proof.
  induction l as [|x t IH]; intros pre post s Hk Hc; [reflexivity|].
  cbn [length for_range_ret remove_shift]. rewrite mem_cons.
  unfold bind at 1. unfold bind at 1.
  rewrite (read_pressed_keys_mid s pre x (t ++ post) _ Hk eq_refl).
  destruct (x =? hid_key).
  - cbn [orb]. unfold bind at 1. cbn [gets]. unfold bind at 1.
    replace (Z.to_nat (pressed_count s - 1 - Z.of_nat (length pre)))
      with (length t) by (rewrite Hc; cbn [length]; lia).
    change (fun j : Z => k' <- read_pressed_keys (j + 1) ;; write_pressed_keys j k')
      with shift_body.
    rewrite (shift_loop_spec t pre x post s Hk).
    reflexivity.
  - cbn [ret orb].
    replace (Z.of_nat (length pre) + 1) with (Z.of_nat (length (pre ++ [x])))
      by (rewrite length_app; cbn; lia).
    rewrite (IH (pre ++ [x]) post).
    2:{ rewrite Hk, <- app_assoc. reflexivity. }
    2:{ rewrite Hc, length_app. cbn [length]. f_equal. lia. }
    destruct (mem hid_key t); [|reflexivity].
    rewrite <- app_assoc. reflexivity.
Qed.

(** ** Well-formed states *)

Lemma rollover_set_length (s : kb_state) :
  kb_wf s -> Z.of_nat (length (rollover_set s)) = pressed_count s.
Proof.
  intros (Hk & _ & Hc). unfold rollover_set. rewrite length_firstn, Hk.
  unfold MAX_PRESSED_KEYS in *. lia.
Qed.

Lemma pressed_keys_split (s : kb_state) :
  pressed_keys s
  = rollover_set s ++ skipn (Z.to_nat (pressed_count s)) (pressed_keys s).
Proof. unfold rollover_set. symmetry. apply firstn_skipn. Qed.

Lemma u8_small (z : Z) : 0 <= z < 256 -> u8 z = z.
Proof. intros H. unfold u8. apply Z.mod_small. exact H. Qed.

(** ** [add_pressed_key] *)

Lemma add_pressed_key_run (hid_key : Z) (s : kb_state) :
  kb_wf s ->
  add_pressed_key hid_key s =
    if mem hid_key (rollover_set s) then Done true s []
    else if pressed_count s <? MAX_PRESSED_KEYS then
      Done true
        (set_pressed_count (pressed_count s + 1)
           (set_pressed_keys
              (rollover_set s ++ hid_key ::
                 skipn (S (Z.to_nat (pressed_count s))) (pressed_keys s)) s)) []
    else Done false s [LOG WRN "6KRO limit reached, key ignored" []].
Proof.
  intros Hwf. pose proof (rollover_set_length s Hwf) as HL.
  destruct Hwf as (Hk & Hr & Hc).
  unfold add_pressed_key. unfold bind at 1. cbn [gets]. unfold bind at 1.
  replace (Z.to_nat (pressed_count s - 0)) with (length (rollover_set s)) by lia.
  pose proof (add_scan_spec hid_key (rollover_set s) [] _ s (pressed_keys_split s)) as Hscan.
  cbn [length Z.of_nat] in Hscan. rewrite Hscan. clear Hscan.
  destruct (mem hid_key (rollover_set s)); [reflexivity|].
  unfold bind at 1. cbn [gets].
  destruct (pressed_count s <? MAX_PRESSED_KEYS) eqn:Hlt; [|reflexivity].
  apply Z.ltb_lt in Hlt.
  destruct (skipn (Z.to_nat (pressed_count s)) (pressed_keys s)) as [|x post] eqn:Hs.
  { apply (f_equal (@length Z)) in Hs. rewrite length_skipn, Hk in Hs.
    unfold MAX_PRESSED_KEYS in *. cbn in Hs. lia. }
  assert (Hpost : skipn (S (Z.to_nat (pressed_count s))) (pressed_keys s) = post).
  { change (S (Z.to_nat (pressed_count s))) with (1 + Z.to_nat (pressed_count s))%nat.
    rewrite <- skipn_skipn, Hs. reflexivity. }
  unfold bind at 1.
  rewrite (write_pressed_keys_mid s (rollover_set s) x hid_key post).
  2:{ rewrite <- Hs. apply pressed_keys_split. }
  2:{ lia. }
  rewrite Hpost. cbn. rewrite u8_small by (unfold MAX_PRESSED_KEYS in *; lia).
  reflexivity.
Qed.

(** ** [remove_pressed_key] *)

Lemma remove_pressed_key_run (hid_key : Z) (s : kb_state) :
  kb_wf s ->
  remove_pressed_key hid_key s =
    if mem hid_key (rollover_set s) then
      Done tt
        (set_pressed_count (pressed_count s - 1)
           (set_pressed_keys
              (remove_shift hid_key (rollover_set s)
                 ++ skipn (Z.to_nat (pressed_count s)) (pressed_keys s)) s)) []
    else Done tt s [].
Proof.
  intros Hwf. pose proof (rollover_set_length s Hwf) as HL.
  destruct Hwf as (Hk & Hr & Hc).
  unfold remove_pressed_key. unfold bind at 1. cbn [gets]. unfold bind at 1.
  replace (Z.to_nat (pressed_count s - 0)) with (length (rollover_set s)) by lia.
  pose proof (remove_scan_spec hid_key (rollover_set s) [] _ s (pressed_keys_split s)) as Hscan.
  cbn [length Z.of_nat app] in Hscan. rewrite Hscan by lia. clear Hscan.
  destruct (mem hid_key (rollover_set s)) eqn:Hm; [|reflexivity].
  assert (0 < pressed_count s).
  { destruct (rollover_set s); [discriminate | cbn [length] in HL; lia]. }
  cbn. rewrite u8_small by (unfold MAX_PRESSED_KEYS in *; lia).
  reflexivity.
Qed.

(** ** [build_hid_report] *)

Lemma build_loop_spec (l : list Z) :
  forall (kpre kpost rpre rmid rpost : list Z) (s : kb_state),
  pressed_keys s = kpre ++ l ++ kpost ->
  report s = rpre ++ rmid ++ rpost ->
  length rmid = length l ->
  Z.of_nat (length rpre) = KB_KEY_CODE1 + Z.of_nat (length kpre) ->
  for_range (length l) (Z.of_nat (length kpre)) (fun i =>
    k <- read_pressed_keys i ;;
    write_report (KB_KEY_CODE1 + i) k) s
  = Done tt (set_report (rpre ++ l ++ rpost) s) [].
Proof.
  induction l as [|x t IH]; intros kpre kpost rpre rmid rpost s Hk Hr Hm Hi.
  - destruct rmid; [|discriminate]. cbn in Hr |- *. unfold ret.
    rewrite <- Hr. destruct s; reflexivity.
  - destruct rmid as [|y rmid]; [discriminate|]. injection Hm as Hm.
    cbn [length for_range]. unfold bind at 1. unfold bind at 1.
    rewrite (read_pressed_keys_mid s kpre x (t ++ kpost) _ Hk eq_refl).
    rewrite (write_report_mid s rpre y x (rmid ++ rpost) _ Hr) by lia.
    replace (Z.of_nat (length kpre) + 1) with (Z.of_nat (length (kpre ++ [x])))
      by (rewrite length_app; cbn; lia).
    rewrite (IH (kpre ++ [x]) kpost (rpre ++ [x]) rmid rpost).
    + cbn. rewrite <- app_assoc. reflexivity.
    + cbn. rewrite Hk, <- app_assoc. reflexivity.
    + cbn. rewrite <- app_assoc. reflexivity.
    + exact Hm.
    + rewrite !length_app. cbn [length]. lia.
Qed.

Lemma memset_all (a : list Z) (v n : Z) :
  0 <= n -> length a = Z.to_nat n ->
  memset a v n = Some (repeat v (Z.to_nat n)).
Proof.
  intros Hn Hl. unfold memset.
  replace ((0 <=? n) && (n <=? Z.of_nat (length a))) with true.
  - rewrite <- Hl at 2. rewrite skipn_all, app_nil_r. reflexivity.
  - symmetry. apply andb_true_iff. split; apply Z.leb_le; lia.
Qed.

Lemma build_hid_report_run (s : kb_state) :
  kb_wf s ->
  build_hid_report s = Done tt (set_report (report_layout s) s) [].
Proof.
  intros Hwf. pose proof (rollover_set_length s Hwf) as HL.
  destruct Hwf as (Hk & Hr & Hc).
  unfold build_hid_report.
  unfold bind at 1. cbn [gets]. unfold bind at 1.
  rewrite (memset_all (report s) 0 KB_REPORT_COUNT) by (unfold KB_REPORT_COUNT; lia || exact Hr).
  cbn [lift]. unfold bind at 1. cbn [modify]. unfold bind at 1. cbn [gets].
  unfold bind at 1.
  set (s1 := set_report (repeat 0 (Z.to_nat KB_REPORT_COUNT)) s).
  rewrite (write_report_mid s1 [] 0 (modifier_state s1) (repeat 0 7))
    by reflexivity.
  unfold bind at 1.
  set (s2 := set_report ([] ++ modifier_state s1 :: repeat 0 7) s1).
  rewrite (write_report_mid s2 [modifier_state s1] 0 0 (repeat 0 6))
    by reflexivity.
  unfold bind at 1. cbn [gets].
  set (s3 := set_report ([modifier_state s1] ++ 0 :: repeat 0 6) s2).
  change (pressed_count s3) with (pressed_count s).
  replace (Z.to_nat (Z.min (pressed_count s) MAX_PRESSED_KEYS - 0))
    with (length (rollover_set s)) by lia.
  pose proof (build_loop_spec (rollover_set s) []
                (skipn (Z.to_nat (pressed_count s)) (pressed_keys s))
                [modifier_state s; 0]
                (repeat 0 (length (rollover_set s)))
                (repeat 0 (Z.to_nat MAX_PRESSED_KEYS - length (rollover_set s)))
                s3) as Hloop.
  cbn [length Z.of_nat app] in Hloop. rewrite Hloop; clear Hloop.
  - subst s3 s2 s1. unfold set_report, report_layout. cbn. reflexivity.
  - exact (pressed_keys_split s).
  - subst s3 s2 s1. cbn [report set_report modifier_state app]. do 2 f_equal.
    rewrite <- repeat_app. f_equal. unfold MAX_PRESSED_KEYS in *. lia.
  - apply repeat_length.
  - reflexivity.
Qed.

(** ** Translation *)

Lemma input_to_hid_run (input_code : N) (s : kb_state) :
  input_to_hid input_code s = Done (usage_code input_code) s [].
Proof.
  unfold input_to_hid, usage_code, INPUT_TO_HID_TABLE_SIZE.
  destruct (Z.of_N input_code <? Z.of_nat (length input_to_hid_key)) eqn:E.
  - apply Z.ltb_lt in E. unfold lift, array_get.
    rewrite in_bounds by lia.
    replace (Z.to_nat (Z.of_N input_code)) with (N.to_nat input_code) by lia.
    rewrite (nth_error_nth' _ 0) by lia. reflexivity.
  - apply Z.ltb_ge in E. rewrite nth_overflow by lia. reflexivity.
Qed.

(** ** One event *)

Lemma appended_wf k s :
  kb_wf s -> pressed_count s < MAX_PRESSED_KEYS -> kb_wf (appended k s).
Proof.
  intros Hwf Hlt. pose proof (rollover_set_length s Hwf) as HL.
  destruct Hwf as (Hk & Hr & Hc). unfold kb_wf, MAX_PRESSED_KEYS in *.
  repeat split; cbn [appended set_pressed_count set_pressed_keys pressed_keys
                     report pressed_count]; try lia; try assumption.
  rewrite length_app. cbn [length]. rewrite length_skipn, Hk. lia.
Qed.

Lemma appended_rollover k s :
  kb_wf s -> pressed_count s < MAX_PRESSED_KEYS ->
  rollover_set (appended k s) = rollover_set s ++ [k].
Proof.
  intros Hwf Hlt. pose proof (rollover_set_length s Hwf) as HL.
  unfold rollover_set at 1.
  cbn [appended set_pressed_count set_pressed_keys pressed_keys pressed_count].
  replace (Z.to_nat (pressed_count s + 1))
    with (length (rollover_set s) + 1)%nat by lia.
  rewrite firstn_app_2. reflexivity.
Qed.

Lemma compacted_wf k s :
  kb_wf s -> mem k (rollover_set s) = true -> kb_wf (compacted k s).
Proof.
  intros Hwf Hm. pose proof (rollover_set_length s Hwf) as HL.
  destruct Hwf as (Hk & Hr & Hc). unfold kb_wf, MAX_PRESSED_KEYS in *.
  assert (0 < pressed_count s).
  { destruct (rollover_set s); [discriminate | cbn [length] in HL; lia]. }
  repeat split; cbn [compacted set_pressed_count set_pressed_keys pressed_keys
                     report pressed_count]; try lia; try assumption.
  rewrite length_app, remove_shift_length, length_skipn, Hk. lia.
Qed.

Lemma compacted_rollover k s :
  kb_wf s -> mem k (rollover_set s) = true ->
  rollover_set (compacted k s) = remove_first k (rollover_set s).
Proof.
  intros Hwf Hm. pose proof (rollover_set_length s Hwf) as HL.
  unfold rollover_set at 1.
  cbn [compacted set_pressed_count set_pressed_keys pressed_keys pressed_count].
  replace (Z.to_nat (pressed_count s - 1))
    with (length (rollover_set s) - 1)%nat by lia.
  rewrite firstn_app, remove_shift_length.
  replace (length (rollover_set s) - 1 - length (rollover_set s))%nat
    with 0%nat by lia.
  cbn [firstn]. rewrite app_nil_r. apply remove_shift_firstn. exact Hm.
Qed.

Lemma process_key_event_modifier (input_code : N) (pressed : bool) (s : kb_state) :
  kb_wf s -> get_modifier_bit input_code <> 0 ->
  process_key_event input_code pressed s =
    Done tt
      (rebuilt
         (set_modifier_state
            (u8 (if pressed
                 then Z.lor (modifier_state s) (get_modifier_bit input_code)
                 else Z.land (modifier_state s)
                        (Z.lnot (get_modifier_bit input_code)))) s)) [].
Proof.
  intros Hwf Hb. unfold process_key_event.
  apply Z.eqb_neq in Hb. rewrite Hb. cbn [negb].
  unfold bind at 1. unfold bind at 1. cbn [gets].
  destruct pressed; cbn [modify]; rewrite build_hid_report_run by exact Hwf;
    reflexivity.
Qed.

Lemma process_key_event_press (input_code : N) (s : kb_state) :
  kb_wf s -> get_modifier_bit input_code = 0 -> usage_code input_code <> 0 ->
  process_key_event input_code true s =
    if mem (usage_code input_code) (rollover_set s) then Done tt (rebuilt s) []
    else if pressed_count s <? MAX_PRESSED_KEYS
         then Done tt (rebuilt (appended (usage_code input_code) s)) []
         else Done tt (rebuilt s) [LOG WRN "6KRO limit reached, key ignored" []].
Proof.
  intros Hwf Hb Hu. unfold process_key_event.
  rewrite Hb. cbn [Z.eqb negb].
  unfold bind at 1. unfold bind at 1. rewrite input_to_hid_run.
  apply Z.eqb_neq in Hu. rewrite Hu. cbn [negb].
  unfold bind at 1. rewrite add_pressed_key_run by exact Hwf.
  destruct (mem (usage_code input_code) (rollover_set s)).
  - cbn [ret]. rewrite build_hid_report_run by exact Hwf. reflexivity.
  - destruct (pressed_count s <? MAX_PRESSED_KEYS) eqn:Hlt.
    + cbn [ret]. apply Z.ltb_lt in Hlt.
      change (set_pressed_count _ _) with (appended (usage_code input_code) s).
      rewrite build_hid_report_run by (apply appended_wf; assumption).
      reflexivity.
    + cbn [ret]. rewrite build_hid_report_run by exact Hwf. reflexivity.
Qed.

Lemma process_key_event_release (input_code : N) (s : kb_state) :
  kb_wf s -> get_modifier_bit input_code = 0 -> usage_code input_code <> 0 ->
  process_key_event input_code false s =
    if mem (usage_code input_code) (rollover_set s)
    then Done tt (rebuilt (compacted (usage_code input_code) s)) []
    else Done tt (rebuilt s) [].
Proof.
  intros Hwf Hb Hu. unfold process_key_event.
  rewrite Hb. cbn [Z.eqb negb].
  unfold bind at 1. unfold bind at 1. rewrite input_to_hid_run.
  apply Z.eqb_neq in Hu. rewrite Hu. cbn [negb].
  rewrite remove_pressed_key_run by exact Hwf.
  destruct (mem (usage_code input_code) (rollover_set s)) eqn:Hm.
  - change (set_pressed_count _ _) with (compacted (usage_code input_code) s).
    rewrite build_hid_report_run by (apply compacted_wf; assumption).
    reflexivity.
  - rewrite build_hid_report_run by exact Hwf. reflexivity.
Qed.

Lemma process_key_event_unmapped (input_code : N) (pressed : bool) (s : kb_state) :
  kb_wf s -> get_modifier_bit input_code = 0 -> usage_code input_code = 0 ->
  process_key_event input_code pressed s =
    Done tt (rebuilt s)
      [LOG DBG "Unmapped input code: %u" [ArgU (Z.of_N input_code)]].
Proof.
  intros Hwf Hb Hu. unfold process_key_event.
  rewrite Hb. cbn [Z.eqb negb].
  unfold bind at 1. unfold bind at 1. rewrite input_to_hid_run.
  rewrite Hu. cbn [Z.eqb negb emit].
  rewrite build_hid_report_run by exact Hwf. reflexivity.
Qed.

(** ** The invariant *)

Lemma kb_wf_initial : kb_wf kb_initial.
Proof. repeat split; try reflexivity; cbn; unfold MAX_PRESSED_KEYS; lia. Qed.

Lemma kb_inv_initial : kb_inv kb_initial.
Proof.
  split; [exact kb_wf_initial|]. split; [constructor | reflexivity].
Qed.

Lemma report_layout_length (s : kb_state) :
  kb_wf s -> length (report_layout s) = Z.to_nat KB_REPORT_COUNT.
Proof.
  intros Hwf. pose proof (rollover_set_length s Hwf) as HL.
  destruct Hwf as (_ & _ & Hc). unfold report_layout.
  cbn [length]. rewrite length_app, repeat_length.
  unfold MAX_PRESSED_KEYS, KB_REPORT_COUNT in *. lia.
Qed.

Lemma rebuilt_inv (s : kb_state) :
  kb_wf s -> NoDup (rollover_set s) -> kb_inv (rebuilt s).
Proof.
  intros Hwf Hnd. pose proof (report_layout_length s Hwf) as Hlen.
  destruct Hwf as (Hk & Hr & Hc).
  repeat split; try assumption; apply Hc.
Qed.

Lemma rebuilt_id (s : kb_state) : report s = report_layout s -> rebuilt s = s.
Proof.
  intros H. unfold rebuilt. rewrite <- H. destruct s; reflexivity.
Qed.

Lemma NoDup_snoc (k : Z) (l : list Z) :
  NoDup l -> mem k l = false -> NoDup (l ++ [k]).
Proof.
  intros Hnd Hm. apply mem_false_In in Hm.
  induction Hnd as [|x t Hx Hnd IH]; cbn.
  - constructor; [intros [] | constructor].
  - constructor.
    + rewrite in_app_iff. intros [Hin | [E | []]]; [contradiction|].
      subst. apply Hm. left. reflexivity.
    + apply IH. intros Hin. apply Hm. right. exact Hin.
Qed.

Lemma remove_first_filter (k : Z) (l : list Z) :
  NoDup l -> remove_first k l = RolloverSet_remove k l.
Proof.
  unfold RolloverSet_remove.
  induction 1 as [|x t Hx Hnd IH]; cbn [remove_first filter]; [reflexivity|].
  destruct (x =? k) eqn:E; cbn [negb].
  - apply Z.eqb_eq in E. subst x. clear IH Hnd.
    induction t as [|y t IH]; [reflexivity|]. cbn [filter].
    destruct (y =? k) eqn:E; cbn [negb].
    + apply Z.eqb_eq in E. subst. exfalso. apply Hx. left. reflexivity.
    + f_equal. apply IH. intros Hin. apply Hx. right. exact Hin.
  - f_equal. exact IH.
Qed.

Lemma remove_first_incl (k : Z) (l : list Z) (x : Z) :
  In x (remove_first k l) -> In x l.
Proof.
  induction l as [|y t IH]; cbn [remove_first]; [tauto|].
  destruct (y =? k); cbn; tauto.
Qed.

Lemma NoDup_remove_first (k : Z) (l : list Z) :
  NoDup l -> NoDup (remove_first k l).
Proof.
  induction 1 as [|x t Hx Hnd IH]; cbn [remove_first]; [constructor|].
  destruct (x =? k); [exact Hnd|].
  constructor; [|exact IH]. intros Hin. apply Hx.
  apply (remove_first_incl k). exact Hin.
Qed.

(** One event keeps the invariant, follows the rollover set of the design
    document and leaves the host-controlled fields alone. *)
Lemma process_key_event_step (input_code : N) (pressed : bool) (s : kb_state) :
  kb_inv s ->
  exists s' tr,
    process_key_event input_code pressed s = Done tt s' tr /\
    kb_inv s' /\
    rollover_set s' = RolloverSet_step (rollover_set s) input_code pressed /\
    modifier_state s' = Modifier_step (modifier_state s) input_code pressed /\
    kb_ready s' = kb_ready s /\ kb_duration s' = kb_duration s.
Proof.
  intros (Hwf & Hnd & Hrep). pose proof (rollover_set_length s Hwf) as HL.
  unfold RolloverSet_step, Modifier_step, translate.
  destruct (get_modifier_bit input_code =? 0) eqn:Hb; cbn [negb].
  - apply Z.eqb_eq in Hb.
    destruct (usage_code input_code =? 0) eqn:Hu; cbn [negb].
    + apply Z.eqb_eq in Hu.
      rewrite process_key_event_unmapped by assumption.
      do 2 eexists. split; [reflexivity|].
      repeat split; try reflexivity; try apply rebuilt_inv; assumption.
    + apply Z.eqb_neq in Hu. destruct pressed.
      * rewrite process_key_event_press by assumption.
        unfold RolloverSet_insert.
        destruct (mem (usage_code input_code) (rollover_set s)) eqn:Hm.
        { do 2 eexists. split; [reflexivity|].
          repeat split; try reflexivity; try apply rebuilt_inv; assumption. }
        destruct (pressed_count s <? MAX_PRESSED_KEYS) eqn:Hlt.
        { apply Z.ltb_lt in Hlt.
          replace (length (rollover_set s) <? 6)%nat with true
            by (symmetry; apply Nat.ltb_lt; unfold MAX_PRESSED_KEYS in *; lia).
          do 2 eexists. split; [reflexivity|].
          pose proof (appended_rollover (usage_code input_code) s Hwf Hlt) as Hro.
          split; [|split; [exact Hro | repeat split; reflexivity]].
          apply rebuilt_inv; [apply appended_wf; assumption|].
          rewrite Hro. apply NoDup_snoc; assumption. }
        { apply Z.ltb_ge in Hlt.
          replace (length (rollover_set s) <? 6)%nat with false
            by (symmetry; apply Nat.ltb_ge; unfold MAX_PRESSED_KEYS in *; lia).
          do 2 eexists. split; [reflexivity|].
          repeat split; try reflexivity; try apply rebuilt_inv; assumption. }
      * rewrite process_key_event_release by assumption.
        rewrite <- remove_first_filter by exact Hnd.
        destruct (mem (usage_code input_code) (rollover_set s)) eqn:Hm.
        { do 2 eexists. split; [reflexivity|].
          pose proof (compacted_rollover (usage_code input_code) s Hwf Hm) as Hro.
          split; [|split; [exact Hro | repeat split; reflexivity]].
          apply rebuilt_inv; [apply compacted_wf; assumption|].
          rewrite Hro. apply NoDup_remove_first. exact Hnd. }
        { do 2 eexists. split; [reflexivity|].
          rewrite remove_first_absent by exact Hm.
          repeat split; try reflexivity; try apply rebuilt_inv; assumption. }
  - apply Z.eqb_neq in Hb.
    rewrite process_key_event_modifier by assumption.
    do 2 eexists. split; [reflexivity|].
    split; [|repeat split; try reflexivity; destruct pressed; reflexivity].
    apply rebuilt_inv; [exact Hwf | exact Hnd].
Qed.

Lemma process_key_events_inv (evs : list kb_event) :
  forall s : kb_state,
  kb_inv s ->
  exists s' tr,
    process_key_events evs s = Done tt s' tr /\
    kb_inv s' /\
    rollover_set s' = fold_left RolloverSet_fold evs (rollover_set s).
Proof.
  induction evs as [|e evs IH]; intros s Hinv.
  - exists s, []. repeat split; try reflexivity; apply Hinv.
  - destruct (process_key_event_step (code e) (negb (value e =? 0)) s Hinv)
      as (s1 & tr1 & Hrun1 & Hinv1 & Hro1 & _).
    destruct (IH s1 Hinv1) as (s2 & tr2 & Hrun2 & Hinv2 & Hro2).
    exists s2, (tr1 ++ tr2). split; [|split; [exact Hinv2|]].
    + cbn [process_key_events]. unfold bind. rewrite Hrun1, Hrun2. reflexivity.
    + cbn [fold_left]. rewrite Hro2, Hro1. reflexivity.
Qed.

Lemma state_after_inv (evs : list kb_event) :
  exists s tr,
    state_after evs = Done tt s tr /\ kb_inv s /\
    rollover_set s = fold_left RolloverSet_fold evs [].
Proof. exact (process_key_events_inv evs kb_initial kb_inv_initial). Qed.

(** ** The callbacks keep the invariant *)

Lemma kb_get_report_state (type id len : Z) (buf : list Z) (s : kb_state)
    (r : Z * list Z) (s' : kb_state) (tr : list effect) :
  kb_get_report type id len buf s = Done r s' tr -> s' = s.
Proof.
  unfold kb_get_report.
  destruct ((type =? HID_REPORT_TYPE_INPUT) && (KB_REPORT_COUNT <=? len)).
  - unfold bind, gets, lift, ret.
    destruct (memcpy buf (report s) KB_REPORT_COUNT); [|discriminate].
    intros H. injection H as _ <- _. reflexivity.
  - intros H. injection H as _ <- _. reflexivity.
Qed.

Lemma kb_set_report_state (b : board) (type id len : Z) (buf : list Z)
    (s : kb_state) (r : Z) (s' : kb_state) (tr : list effect) :
  kb_set_report b type id len buf s = Done r s' tr -> s' = s.
Proof.
  unfold kb_set_report.
  destruct (type =? HID_REPORT_TYPE_OUTPUT); cbn [negb].
  - destruct b as [[p0 ? ?] [p1 ? ?] [p2 ? ?] ?].
    destruct buf as [|b0 rest], p0, p1, p2; cbn;
      intros H; try discriminate; injection H as _ <- _; reflexivity.
  - intros H. injection H as _ <- _. reflexivity.
Qed.

Lemma kb_output_report_state (b : board) (len : Z) (buf : list Z)
    (s s' : kb_state) (tr : list effect) :
  kb_output_report b len buf s = Done tt s' tr -> s' = s.
Proof.
  unfold kb_output_report. unfold bind at 1. cbn [emit]. unfold bind at 1.
  destruct (kb_set_report b HID_REPORT_TYPE_OUTPUT 0 len buf s)
    as [r s1 t1|] eqn:E; [|discriminate].
  apply kb_set_report_state in E. subst s1.
  intros H. injection H as <- _. reflexivity.
Qed.

Lemma reachable_inv (s : kb_state) : reachable s -> kb_inv s.
Proof.
  induction 1 as [ | s c p s' tr _ IH Hrun | s n r s' tr _ IH Hrun
                   | s ty id len buf r s' tr _ IH Hrun
                   | s b ty id len buf r s' tr _ IH Hrun
                   | s id d s' tr _ IH Hrun | s id r s' tr _ IH Hrun
                   | s proto s' tr _ IH Hrun | s b len buf s' tr _ IH Hrun ].
  - exact kb_inv_initial.
  - destruct (process_key_event_step c p s IH) as (s1 & tr1 & Hrun1 & Hinv1 & _).
    rewrite Hrun in Hrun1. injection Hrun1 as <- _. exact Hinv1.
  - injection Hrun as <- _. exact IH.
  - apply kb_get_report_state in Hrun. subst s'. exact IH.
  - apply kb_set_report_state in Hrun. subst s'. exact IH.
  - injection Hrun as <- _. exact IH.
  - injection Hrun as _ <- _. exact IH.
  - injection Hrun as <- _. exact IH.
  - apply kb_output_report_state in Hrun. subst s'. exact IH.
Qed.

Lemma state_after_reachable (evs : list kb_event) :
  forall s0 s tr,
  reachable s0 -> process_key_events evs s0 = Done tt s tr -> reachable s.
Proof.
  induction evs as [|e evs IH]; intros s0 s tr Hre Hrun.
  - injection Hrun as <- _. exact Hre.
  - cbn [process_key_events] in Hrun. unfold bind in Hrun.
    destruct (process_key_event (code e) (negb (value e =? 0)) s0)
      as [[] s1 t1|] eqn:E1; [|discriminate].
    destruct (process_key_events evs s1) as [[] s2 t2|] eqn:E2; [|discriminate].
    injection Hrun as <- _.
    apply (IH s1 s2 t2); [|exact E2].
    exact (reach_key_event s0 _ _ s1 t1 Hre E1).
Qed.

(** ** The scenarios of the design document *)

Example scenario_press_A :
  exists s tr, state_after [press INPUT_KEY_A] = Done tt s tr /\
               report s = [0; 0; 4; 0; 0; 0; 0; 0].
Proof. eexists _, _. split; [vm_compute; reflexivity | reflexivity]. Qed.

Example scenario_shift_A :
  exists s tr,
    state_after [press INPUT_KEY_LEFTSHIFT; press INPUT_KEY_A] = Done tt s tr /\
    report s = [2; 0; 4; 0; 0; 0; 0; 0].
Proof. eexists _, _. split; [vm_compute; reflexivity | reflexivity]. Qed.

Example scenario_seventh_key :
  exists s,
    state_after (map press [INPUT_KEY_A; INPUT_KEY_B; INPUT_KEY_C; INPUT_KEY_D;
                            INPUT_KEY_E; INPUT_KEY_F; INPUT_KEY_G])
    = Done tt s [LOG WRN "6KRO limit reached, key ignored" []] /\
    report s = [0; 0; 4; 5; 6; 7; 8; 9].
Proof. eexists. split; [vm_compute; reflexivity | reflexivity]. Qed.

Example scenario_release_third :
  exists s tr,
    state_after (map press [INPUT_KEY_A; INPUT_KEY_B; INPUT_KEY_C; INPUT_KEY_D;
                            INPUT_KEY_E; INPUT_KEY_F]
                 ++ [release INPUT_KEY_C]) = Done tt s tr /\
    report s = [0; 0; 4; 5; 7; 8; 9; 0] /\
    pressed_keys s = [4; 5; 7; 8; 9; 9].
Proof.
  eexists _, _. split; [vm_compute; reflexivity | split; reflexivity].
Qed.

(** * The properties *)

(** C1. Whatever key events are folded into the initial state, the fold
    succeeds, the count stays within the six places of the array, and the
    tracked codes (the first [pressed_count] places of [pressed_keys]) are
    at most six and pairwise distinct.  The same holds in every reachable
    state, the callbacks of the transport included. *)
Theorem rollover_set_bounded_nodup :
  (forall evs : list kb_event,
   exists s tr,
     state_after evs = Done tt s tr /\
     0 <= pressed_count s <= MAX_PRESSED_KEYS /\
     Z.of_nat (length (rollover_set s)) = pressed_count s /\
     (length (rollover_set s) <= 6)%nat /\
     NoDup (rollover_set s)) /\
  (forall s : kb_state,
   reachable s ->
   0 <= pressed_count s <= MAX_PRESSED_KEYS /\
   Z.of_nat (length (rollover_set s)) = pressed_count s /\
   (length (rollover_set s) <= 6)%nat /\
   NoDup (rollover_set s)).
Proof.
  assert (Hinv : forall s, kb_inv s ->
            0 <= pressed_count s <= MAX_PRESSED_KEYS /\
            Z.of_nat (length (rollover_set s)) = pressed_count s /\
            (length (rollover_set s) <= 6)%nat /\
            NoDup (rollover_set s)).
  { intros s (Hwf & Hnd & _).
    pose proof (rollover_set_length s Hwf) as HL.
    destruct Hwf as (_ & _ & Hc).
    repeat split; try assumption; try apply Hc.
    unfold MAX_PRESSED_KEYS in Hc. lia. }
  split.
  - intros evs.
    destruct (state_after_inv evs) as (s & tr & Hrun & Hs & _).
    exists s, tr. split; [exact Hrun | exact (Hinv s Hs)].
  - intros s Hre. exact (Hinv s (reachable_inv s Hre)).
Qed.

Lemma rollover_set_bounded_nodup_witness :
  exists s tr,
    state_after [press INPUT_KEY_A; press INPUT_KEY_A; press INPUT_KEY_B]
    = Done tt s tr /\
    (length (rollover_set s) <= 6)%nat /\ NoDup (rollover_set s).
Proof.
  destruct rollover_set_bounded_nodup as (Hevs & _).
  destruct (Hevs [press INPUT_KEY_A; press INPUT_KEY_A; press INPUT_KEY_B])
    as (s & tr & Hrun & _ & _ & Hlen & Hnd).
  exists s, tr. split; [exact Hrun|]. split; [exact Hlen | exact Hnd].
Defined.

(** C2. After the fold of an event in a reachable state the report buffer
    is eight bytes: the modifier mask, a zero, the tracked codes in order,
    and zeros up to the sixth slot; the tracked codes are those before the
    event changed as the rollover set of the design document says, an
    insertion appending and a removal keeping the order of the codes that
    stay.  So after any sequence of key events the tracked codes are the
    fold of that rollover set over the sequence. *)
Theorem report_layout_after_fold :
  (forall (s : kb_state) (input_code : N) (pressed : bool),
   reachable s ->
   exists s' tr,
     process_key_event input_code pressed s = Done tt s' tr /\
     length (report s') = 8%nat /\
     report s' = modifier_state s' :: 0 :: rollover_set s'
                   ++ repeat 0 (6 - length (rollover_set s')) /\
     rollover_set s' = RolloverSet_step (rollover_set s) input_code pressed) /\
  (forall evs : list kb_event,
   exists s tr,
     state_after evs = Done tt s tr /\
     length (report s) = 8%nat /\
     report s = modifier_state s :: 0 :: rollover_set s
                  ++ repeat 0 (6 - length (rollover_set s)) /\
     rollover_set s = fold_left RolloverSet_fold evs []).
Proof.
  split.
  - intros s c p Hre.
    destruct (process_key_event_step c p s (reachable_inv s Hre))
      as (s' & tr & Hrun & (Hwf & _ & Hrep) & Hro & _).
    exists s', tr. repeat split; try assumption. apply Hwf.
  - intros evs.
    destruct (state_after_inv evs) as (s & tr & Hrun & (Hwf & Hnd & Hrep) & Hro).
    exists s, tr. repeat split; try assumption. apply Hwf.
Qed.

Lemma report_layout_after_fold_witness :
  exists s' tr,
    process_key_event INPUT_KEY_A true kb_initial = Done tt s' tr /\
    report s' = modifier_state s' :: 0 :: rollover_set s'
                  ++ repeat 0 (6 - length (rollover_set s')) /\
    rollover_set s' = RolloverSet_step (rollover_set kb_initial) INPUT_KEY_A true.
Proof.
  destruct report_layout_after_fold as (Hstep & _).
  destruct (Hstep kb_initial INPUT_KEY_A true reach_initial)
    as (s' & tr & Hrun & _ & Hrep & Hro).
  exists s', tr. split; [exact Hrun|]. split; [exact Hrep | exact Hro].
Defined.

(** ** Bits of the modifier mask *)

Lemma land_pow2_eqb (x n : Z) :
  0 <= n -> (Z.land x (2 ^ n) =? 0) = negb (Z.testbit x n).
Proof.
  intros Hn. destruct (Z.testbit x n) eqn:T; cbn [negb].
  - apply Z.eqb_neq. intros E.
    apply (f_equal (fun z => Z.testbit z n)) in E.
    rewrite Z.land_spec, T, Z.pow2_bits_true, Z.bits_0 in E by exact Hn.
    discriminate.
  - apply Z.eqb_eq. apply Z.bits_inj'. intros m Hm.
    rewrite Z.land_spec, Z.bits_0, Z.pow2_bits_eqb by exact Hn.
    destruct (Z.eqb_spec n m) as [->|_]; [rewrite T|]; auto using andb_false_r.
Qed.

Lemma u8_testbit (z n : Z) : 0 <= n < 8 -> Z.testbit (u8 z) n = Z.testbit z n.
Proof.
  intros Hn. unfold u8. change 256 with (2 ^ 8).
  apply Z.mod_pow2_bits_low. lia.
Qed.

Lemma get_modifier_bit_pow2 (input_code : N) :
  get_modifier_bit input_code <> 0 ->
  exists n, 0 <= n < 8 /\ get_modifier_bit input_code = 2 ^ n.
Proof.
  unfold get_modifier_bit.
  repeat match goal with
         | |- context [if ?b then _ else _] => destruct b
         end; intros H; try congruence;
    [exists 0 | exists 1 | exists 2 | exists 3
     | exists 4 | exists 5 | exists 6 | exists 7];
    (split; [lia | reflexivity]).
Qed.

Lemma filter_absent (k : Z) (l : list Z) :
  mem k l = false -> RolloverSet_remove k l = l.
Proof.
  unfold RolloverSet_remove. induction l as [|x t IH]; [reflexivity|].
  rewrite mem_cons. cbn [filter]. destruct (x =? k); cbn [orb negb];
    [discriminate|]. intros H. f_equal. exact (IH H).
Qed.

Lemma translate_usage (input_code : N) :
  get_modifier_bit input_code = 0 -> usage_code input_code <> 0 ->
  translate input_code = UsageCode (usage_code input_code).
Proof.
  intros Hb Hu. unfold translate. rewrite Hb. cbn [Z.eqb negb].
  apply Z.eqb_neq in Hu. rewrite Hu. reflexivity.
Qed.

Lemma translate_modifier (input_code : N) :
  get_modifier_bit input_code <> 0 ->
  translate input_code = Modifier (get_modifier_bit input_code).
Proof.
  intros Hb. unfold translate. apply Z.eqb_neq in Hb. rewrite Hb. reflexivity.
Qed.

Lemma process_two_events (c1 c2 : N) (p1 p2 : bool) (s : kb_state) :
  kb_inv s ->
  exists s1 tr1 s2 tr2,
    process_key_event c1 p1 s = Done tt s1 tr1 /\
    process_key_event c2 p2 s1 = Done tt s2 tr2 /\
    kb_inv s2 /\
    rollover_set s2
    = RolloverSet_step (RolloverSet_step (rollover_set s) c1 p1) c2 p2 /\
    modifier_state s2
    = Modifier_step (Modifier_step (modifier_state s) c1 p1) c2 p2.
Proof.
  intros Hinv.
  destruct (process_key_event_step c1 p1 s Hinv)
    as (s1 & tr1 & Hrun1 & Hinv1 & Hro1 & Hmod1 & _).
  destruct (process_key_event_step c2 p2 s1 Hinv1)
    as (s2 & tr2 & Hrun2 & Hinv2 & Hro2 & Hmod2 & _).
  exists s1, tr1, s2, tr2. rewrite <- Hro1, <- Hmod1. auto.
Qed.

(** C3, as amended. In a reachable state, folding a press of a key with a
    usage code and then its release leaves the rollover set equal to the
    prior one without that code; so when the code was not tracked before
    the pair, the rollover set and the report are exactly as they were. *)
Theorem press_release_roundtrip (s : kb_state) (c : N) :
  reachable s ->
  get_modifier_bit c = 0 -> usage_code c <> 0 ->
  exists s1 tr1 s2 tr2,
    process_key_event c true s = Done tt s1 tr1 /\
    process_key_event c false s1 = Done tt s2 tr2 /\
    rollover_set s2 = RolloverSet_remove (usage_code c) (rollover_set s) /\
    (mem (usage_code c) (rollover_set s) = false ->
     rollover_set s2 = rollover_set s /\ report s2 = report s).
Proof.
  intros Hre Hb Hu. pose proof (reachable_inv s Hre) as Hinv.
  destruct (process_two_events c c true false s Hinv)
    as (s1 & tr1 & s2 & tr2 & H1 & H2 & Hinv2 & Hro & Hmod).
  exists s1, tr1, s2, tr2. split; [exact H1|]. split; [exact H2|].
  unfold RolloverSet_step, Modifier_step in *.
  rewrite (translate_usage c Hb Hu) in *.
  assert (Hgen : rollover_set s2
                 = RolloverSet_remove (usage_code c) (rollover_set s)).
  { rewrite Hro. unfold RolloverSet_insert.
    destruct (mem (usage_code c) (rollover_set s)) eqn:Hm; [reflexivity|].
    fold (RolloverSet_insert (usage_code c) (rollover_set s)).
    destruct (length (rollover_set s) <? 6)%nat; [|reflexivity].
    unfold RolloverSet_remove. rewrite filter_app. cbn [filter].
    rewrite Z.eqb_refl. cbn [negb]. apply app_nil_r. }
  split; [exact Hgen|]. intros Hm.
  rewrite filter_absent in Hgen by exact Hm.
  split; [exact Hgen|].
  destruct Hinv as (_ & _ & Hrep). destruct Hinv2 as (_ & _ & Hrep2).
  rewrite Hrep, Hrep2. unfold report_layout. rewrite Hgen, Hmod. reflexivity.
Qed.

Lemma press_release_roundtrip_witness :
  exists s tr,
    state_after [press INPUT_KEY_B] = Done tt s tr /\
    mem (usage_code INPUT_KEY_A) (rollover_set s) = false /\
    exists s1 tr1 s2 tr2,
      process_key_event INPUT_KEY_A true s = Done tt s1 tr1 /\
      process_key_event INPUT_KEY_A false s1 = Done tt s2 tr2 /\
      rollover_set s2 = rollover_set s /\
      report s2 = report s.
Proof.
  eexists _, _. split; [vm_compute; reflexivity|]. split; [reflexivity|].
  destruct (press_release_roundtrip
              (mk_kb_state [0; 0; 5; 0; 0; 0; 0; 0] 0 false [5; 0; 0; 0; 0; 0] 1 0)
              INPUT_KEY_A)
    as (s1 & tr1 & s2 & tr2 & H1 & H2 & _ & H3).
  - apply (reach_key_event kb_initial INPUT_KEY_B true _ []);
      [apply reach_initial | vm_compute; reflexivity].
  - reflexivity.
  - discriminate.
  - exists s1, tr1, s2, tr2. split; [exact H1|]. split; [exact H2|].
    apply H3. reflexivity.
Defined.

(** C3, counterexample. With A already tracked, a press of A followed by
    its release empties the rollover set instead of restoring it. *)
Lemma press_release_tracked_counterexample :
  exists s tr s1 tr1 s2 tr2,
    state_after [press INPUT_KEY_A] = Done tt s tr /\
    process_key_event INPUT_KEY_A true s = Done tt s1 tr1 /\
    process_key_event INPUT_KEY_A false s1 = Done tt s2 tr2 /\
    rollover_set s = [HID_KEY_A] /\
    rollover_set s2 = [] /\
    rollover_set s2 <> rollover_set s.
Proof.
  do 6 eexists.
  split; [vm_compute; reflexivity|].
  split; [vm_compute; reflexivity|].
  split; [vm_compute; reflexivity|].
  split; [reflexivity|]. split; [reflexivity|]. discriminate.
Qed.

Lemma modifier_held_testbit (s : kb_state) (input_code : N) (n : Z) :
  0 <= n -> get_modifier_bit input_code = 2 ^ n ->
  modifier_held s input_code = Z.testbit (modifier_state s) n.
Proof.
  intros Hn E. unfold modifier_held. rewrite E, land_pow2_eqb by exact Hn.
  apply negb_involutive.
Qed.

Lemma press_release_mask_testbit (m n k : Z) :
  0 <= n < 8 -> 0 <= k < 8 ->
  Z.testbit (u8 (Z.land (u8 (Z.lor m (2 ^ n))) (Z.lnot (2 ^ n)))) k
  = Z.testbit m k && negb (n =? k).
Proof.
  intros Hn Hk.
  rewrite u8_testbit, Z.land_spec, u8_testbit, Z.lor_spec, Z.lnot_spec,
    Z.pow2_bits_eqb by lia.
  destruct (Z.testbit m k), (n =? k); reflexivity.
Qed.

(** C4, as amended. In a reachable state, a press of a modifier followed by
    its release leaves that modifier's bit clear, whatever it was before, and every other
    modifier's bit as it was; so the bit has its prior value exactly when
    the modifier was not held before the pair. *)
Theorem modifier_press_release (s : kb_state) (c : N) :
  reachable s -> get_modifier_bit c <> 0 ->
  exists s1 tr1 s2 tr2,
    process_key_event c true s = Done tt s1 tr1 /\
    process_key_event c false s1 = Done tt s2 tr2 /\
    modifier_held s2 c = false /\
    (forall c', get_modifier_bit c' <> 0 ->
                get_modifier_bit c' <> get_modifier_bit c ->
                modifier_held s2 c' = modifier_held s c') /\
    (modifier_held s2 c = modifier_held s c <-> modifier_held s c = false).
Proof.
  intros Hre Hb. pose proof (reachable_inv s Hre) as Hinv.
  destruct (process_two_events c c true false s Hinv)
    as (s1 & tr1 & s2 & tr2 & H1 & H2 & _ & _ & Hmod).
  exists s1, tr1, s2, tr2. split; [exact H1|]. split; [exact H2|].
  unfold Modifier_step in Hmod. rewrite (translate_modifier c Hb) in Hmod.
  destruct (get_modifier_bit_pow2 c Hb) as (n & Hn & En).
  rewrite En in Hmod.
  assert (Hclear : modifier_held s2 c = false).
  { rewrite (modifier_held_testbit s2 c n) by (lia || exact En).
    rewrite Hmod, press_release_mask_testbit by lia.
    rewrite Z.eqb_refl. apply andb_false_r. }
  split; [exact Hclear|]. split.
  - intros c' Hb' Hne.
    destruct (get_modifier_bit_pow2 c' Hb') as (n' & Hn' & En').
    rewrite (modifier_held_testbit s2 c' n'), (modifier_held_testbit s c' n')
      by (lia || exact En').
    rewrite Hmod, press_release_mask_testbit by lia.
    destruct (Z.eqb_spec n n') as [->|_]; [|apply andb_true_r].
    exfalso. apply Hne. rewrite En, En'. reflexivity.
  - rewrite Hclear. split; intros H; symmetry; exact H.
Qed.

Lemma modifier_press_release_witness :
  exists s1 tr1 s2 tr2,
    process_key_event INPUT_KEY_LEFTSHIFT true kb_initial = Done tt s1 tr1 /\
    process_key_event INPUT_KEY_LEFTSHIFT false s1 = Done tt s2 tr2 /\
    modifier_held s2 INPUT_KEY_LEFTSHIFT = false /\
    (forall c', get_modifier_bit c' <> 0 ->
                get_modifier_bit c' <> get_modifier_bit INPUT_KEY_LEFTSHIFT ->
                modifier_held s2 c' = modifier_held kb_initial c') /\
    (modifier_held s2 INPUT_KEY_LEFTSHIFT
     = modifier_held kb_initial INPUT_KEY_LEFTSHIFT
     <-> modifier_held kb_initial INPUT_KEY_LEFTSHIFT = false).
Proof.
  apply (modifier_press_release kb_initial INPUT_KEY_LEFTSHIFT).
  - apply reach_initial.
  - discriminate.
Defined.

(** C4, counterexample. With left shift held, a press of left shift
    followed by its release clears the bit that was set before the pair. *)
Lemma modifier_held_counterexample :
  exists s tr s1 tr1 s2 tr2,
    state_after [press INPUT_KEY_LEFTSHIFT] = Done tt s tr /\
    process_key_event INPUT_KEY_LEFTSHIFT true s = Done tt s1 tr1 /\
    process_key_event INPUT_KEY_LEFTSHIFT false s1 = Done tt s2 tr2 /\
    Z.testbit (modifier_state s) 1 = true /\
    Z.testbit (modifier_state s2) 1 = false /\
    modifier_held s INPUT_KEY_LEFTSHIFT = true /\
    modifier_held s2 INPUT_KEY_LEFTSHIFT = false.
Proof.
  do 6 eexists.
  split; [vm_compute; reflexivity|].
  split; [vm_compute; reflexivity|].
  split; [vm_compute; reflexivity|].
  repeat split.
Qed.

(** C5, as amended. One iteration of the consumer loop folds the event and
    rebuilds the report whatever the transport's state.  When the interface
    is not ready nothing is sent.  When it is ready, remote wakeup is
    configured and the device is suspended, no report is submitted in that
    iteration, and a wakeup is requested exactly when the event is a press.
    In every other case the rebuilt report is submitted. *)
Theorem main_loop_body_actions (b : board) (env : usb_env) (e : kb_event)
    (s : kb_state) :
  reachable s ->
  exists s' tr0 act,
    process_key_event (code e) (negb (value e =? 0)) s = Done tt s' tr0 /\
    main_loop_body b env e s = Done tt s' (tr0 ++ act) /\
    report s' = report_layout s' /\
    (kb_ready s = false -> submitted act = [] /\ wakeups act = O) /\
    (kb_ready s = true ->
     CONFIG_KEYBOARD_USBD_REMOTE_WAKEUP b && usbd_is_suspended env = true ->
     submitted act = [] /\
     wakeups act = if value e =? 0 then O else 1%nat) /\
    (kb_ready s = true ->
     CONFIG_KEYBOARD_USBD_REMOTE_WAKEUP b && usbd_is_suspended env = false ->
     submitted act = [report s'] /\ wakeups act = O).
Proof.
  intros Hre. pose proof (reachable_inv s Hre) as Hinv.
  destruct (process_key_event_step (code e) (negb (value e =? 0)) s Hinv)
    as (s' & tr0 & Hrun & (_ & _ & Hrep) & _ & _ & Hready & _).
  exists s', tr0.
  unfold main_loop_body. unfold bind at 1. rewrite Hrun.
  unfold bind at 1. cbn [gets]. rewrite Hready.
  destruct (kb_ready s); cbn [negb].
  - destruct (CONFIG_KEYBOARD_USBD_REMOTE_WAKEUP b && usbd_is_suspended env).
    + destruct (value e =? 0); cbn [negb].
      * eexists. split; [reflexivity|]. split; [reflexivity|].
        split; [exact Hrep|]. repeat split; discriminate || reflexivity.
      * destruct (usbd_wakeup_request_ret env =? 0);
          (eexists; split; [reflexivity|]; split; [reflexivity|];
           split; [exact Hrep|]; repeat split; discriminate || reflexivity).
    + destruct (hid_device_submit_report_ret env =? 0);
        (eexists; split; [reflexivity|]; split; [reflexivity|];
         split; [exact Hrep|]; repeat split; discriminate || reflexivity).
  - eexists. split; [reflexivity|]. split; [reflexivity|].
    split; [exact Hrep|]. repeat split; discriminate || reflexivity.
Qed.

Lemma main_loop_body_actions_witness :
  (exists s' tr0 act,
     process_key_event INPUT_KEY_A true (set_kb_ready true kb_initial)
     = Done tt s' tr0 /\
     main_loop_body
       (mk_board (mk_gpio_dt_spec None 0 0) (mk_gpio_dt_spec None 0 0)
          (mk_gpio_dt_spec None 0 0) true)
       (mk_usb_env true 0 0) (press INPUT_KEY_A) (set_kb_ready true kb_initial)
     = Done tt s' (tr0 ++ act) /\
     report s' = report_layout s' /\
     submitted act = [] /\ wakeups act = 1%nat) /\
  (exists s' tr0 act,
     process_key_event INPUT_KEY_A true (set_kb_ready true kb_initial)
     = Done tt s' tr0 /\
     main_loop_body
       (mk_board (mk_gpio_dt_spec None 0 0) (mk_gpio_dt_spec None 0 0)
          (mk_gpio_dt_spec None 0 0) true)
       (mk_usb_env false 0 0) (press INPUT_KEY_A) (set_kb_ready true kb_initial)
     = Done tt s' (tr0 ++ act) /\
     report s' = report_layout s' /\
     submitted act = [report s'] /\ wakeups act = O) /\
  (exists s' tr0 act,
     process_key_event INPUT_KEY_A true kb_initial = Done tt s' tr0 /\
     main_loop_body
       (mk_board (mk_gpio_dt_spec None 0 0) (mk_gpio_dt_spec None 0 0)
          (mk_gpio_dt_spec None 0 0) true)
       (mk_usb_env true 0 0) (press INPUT_KEY_A) kb_initial
     = Done tt s' (tr0 ++ act) /\
     report s' = report_layout s' /\
     submitted act = [] /\ wakeups act = O).
Proof.
  assert (Hready : reachable (set_kb_ready true kb_initial)).
  { apply (reach_iface_ready kb_initial "hid" true _
             [LOG INF "HID device %s interface is %s" [ArgS "hid"; ArgS "ready"]]
             reach_initial).
    reflexivity. }
  split; [|split].
  - destruct (main_loop_body_actions
                (mk_board (mk_gpio_dt_spec None 0 0) (mk_gpio_dt_spec None 0 0)
                   (mk_gpio_dt_spec None 0 0) true)
                (mk_usb_env true 0 0) (press INPUT_KEY_A)
                (set_kb_ready true kb_initial) Hready)
      as (s' & tr0 & act & H1 & H2 & H3 & _ & H5 & _).
    exists s', tr0, act. split; [exact H1|]. split; [exact H2|].
    split; [exact H3|]. apply H5; reflexivity.
  - destruct (main_loop_body_actions
                (mk_board (mk_gpio_dt_spec None 0 0) (mk_gpio_dt_spec None 0 0)
                   (mk_gpio_dt_spec None 0 0) true)
                (mk_usb_env false 0 0) (press INPUT_KEY_A)
                (set_kb_ready true kb_initial) Hready)
      as (s' & tr0 & act & H1 & H2 & H3 & _ & _ & H6).
    exists s', tr0, act. split; [exact H1|]. split; [exact H2|].
    split; [exact H3|]. apply H6; reflexivity.
  - destruct (main_loop_body_actions
                (mk_board (mk_gpio_dt_spec None 0 0) (mk_gpio_dt_spec None 0 0)
                   (mk_gpio_dt_spec None 0 0) true)
                (mk_usb_env true 0 0) (press INPUT_KEY_A) kb_initial
                reach_initial)
      as (s' & tr0 & act & H1 & H2 & H3 & H4 & _).
    exists s', tr0, act. split; [exact H1|]. split; [exact H2|].
    split; [exact H3|]. apply H4. reflexivity.
Defined.

(** C5, counterexample. The interface is ready, remote wakeup is configured
    and the device is suspended: the release of A rebuilds the report, and
    the iteration neither requests a wakeup nor submits the report. *)
Lemma suspended_release_counterexample :
  exists s tr s' tr',
    (kb_iface_ready "hid_dev_0" true ;; process_key_event INPUT_KEY_A true)
      kb_initial
    = Done tt s tr /\
    kb_ready s = true /\
    main_loop_body (mk_board (mk_gpio_dt_spec None 0 0) (mk_gpio_dt_spec None 0 0)
                      (mk_gpio_dt_spec None 0 0) true)
      (mk_usb_env true 0 0) (release INPUT_KEY_A) s
    = Done tt s' tr' /\
    report s = [0; 0; HID_KEY_A; 0; 0; 0; 0; 0] /\
    report s' = [0; 0; 0; 0; 0; 0; 0; 0] /\
    submitted tr' = [] /\ wakeups tr' = O.
Proof.
  do 4 eexists.
  split; [vm_compute; reflexivity|].
  split; [reflexivity|].
  split; [vm_compute; reflexivity|].
  repeat split.
Qed.

(** C6. In a reachable state the report buffer holds the layout of the
    current state, as the last rebuild left it.  A request for the input
    report is answered with its eight bytes, copied to the front of the
    caller's buffer, exactly when the requested length is at least eight; a
    shorter request is logged and answered with zero, the caller's buffer
    untouched.  The keyboard state is the same after either answer. *)
Theorem kb_get_report_input (s : kb_state) (id len : Z) (buf : list Z) :
  reachable s -> 0 <= len -> length buf = Z.to_nat len ->
  report s = report_layout s /\
  (KB_REPORT_COUNT <= len ->
   kb_get_report HID_REPORT_TYPE_INPUT id len buf s
   = Done (KB_REPORT_COUNT, report s ++ skipn 8 buf) s []) /\
  (len < KB_REPORT_COUNT ->
   kb_get_report HID_REPORT_TYPE_INPUT id len buf s
   = Done (0, buf) s
       [LOG WRN "Get Report not implemented, Type %u ID %u"
          [ArgU HID_REPORT_TYPE_INPUT; ArgU id]]) /\
  ((exists buf',
      kb_get_report HID_REPORT_TYPE_INPUT id len buf s
      = Done (KB_REPORT_COUNT, buf') s [] /\
      firstn 8 buf' = report s)
   <-> KB_REPORT_COUNT <= len).
Proof.
  intros Hre Hlen Hbuf.
  destruct (reachable_inv s Hre) as ((_ & Hr & _) & _ & Hrep).
  split; [exact Hrep|]. clear Hrep.
  unfold KB_REPORT_COUNT in *.
  assert (Hge : 8 <= len ->
                kb_get_report HID_REPORT_TYPE_INPUT id len buf s
                = Done (8, report s ++ skipn 8 buf) s []).
  { intros H. unfold kb_get_report. cbn [Z.eqb HID_REPORT_TYPE_INPUT Pos.eqb].
    unfold KB_REPORT_COUNT. rewrite (proj2 (Z.leb_le 8 len) H). cbn [andb].
    unfold bind at 1. cbn [gets]. unfold bind at 1. unfold memcpy.
    replace ((0 <=? 8) && (8 <=? Z.of_nat (length buf))
             && (8 <=? Z.of_nat (length (report s)))) with true.
    - cbn [lift ret]. rewrite <- Hr at 1. rewrite firstn_all. reflexivity.
    - symmetry. rewrite !andb_true_iff. repeat split; apply Z.leb_le; lia. }
  assert (Hlt : len < 8 ->
                kb_get_report HID_REPORT_TYPE_INPUT id len buf s
                = Done (0, buf) s
                    [LOG WRN "Get Report not implemented, Type %u ID %u"
                       [ArgU HID_REPORT_TYPE_INPUT; ArgU id]]).
  { intros H. unfold kb_get_report. cbn [Z.eqb HID_REPORT_TYPE_INPUT Pos.eqb].
    unfold KB_REPORT_COUNT. rewrite (proj2 (Z.leb_gt 8 len) H). reflexivity. }
  split; [exact Hge|]. split; [exact Hlt|]. split.
  - intros (buf' & Hrun & _). destruct (Z.le_gt_cases 8 len) as [H|H]; [exact H|].
    rewrite Hlt in Hrun by lia. discriminate.
  - intros H. eexists. split; [apply Hge; exact H|].
    rewrite firstn_app, firstn_all2 by lia.
    replace (8 - length (report s))%nat with 0%nat by lia.
    cbn [firstn]. apply app_nil_r.
Qed.

Lemma kb_get_report_input_witness :
  kb_get_report HID_REPORT_TYPE_INPUT 0 8 [9; 9; 9; 9; 9; 9; 9; 9] kb_initial
  = Done (KB_REPORT_COUNT, report kb_initial ++ skipn 8 [9; 9; 9; 9; 9; 9; 9; 9])
      kb_initial [].
Proof.
  destruct (kb_get_report_input kb_initial 0 8 [9; 9; 9; 9; 9; 9; 9; 9])
    as (_ & Hge & _).
  - apply reach_initial.
  - lia.
  - reflexivity.
  - apply Hge. unfold KB_REPORT_COUNT. lia.
Defined.

(** C7, as amended. [kb_set_protocol] stores nothing: it leaves every field
    of the keyboard state, the report buffer included, as it was, and only
    logs which protocol the host asked for, Boot Protocol for zero and
    Report Protocol otherwise. *)
Theorem kb_set_protocol_informational (proto : Z) (s : kb_state) :
  exists tr,
    kb_set_protocol proto s = Done tt s tr /\
    tr = [LOG INF "Protocol changed to %s"
            [ArgS (if proto =? 0 then "Boot Protocol" else "Report Protocol")]] /\
    submitted tr = [] /\
    forall type id len buf,
      (kb_set_protocol proto ;; kb_get_report type id len buf) s
      = (emit (LOG INF "Protocol changed to %s"
                 [ArgS (if proto =? 0 then "Boot Protocol" else "Report Protocol")]) ;;
         kb_get_report type id len buf) s.
Proof.
  eexists. split; [reflexivity|]. split; [reflexivity|].
  split; reflexivity.
Qed.

(** C7, counterexample. Boot (0) and report (1) protocol requests leave the
    same state behind, so no function of the state returns the mode that
    was last set. *)
Lemma kb_set_protocol_counterexample :
  kb_set_protocol 0 kb_initial
  = Done tt kb_initial [LOG INF "Protocol changed to %s" [ArgS "Boot Protocol"]] /\
  kb_set_protocol 1 kb_initial
  = Done tt kb_initial [LOG INF "Protocol changed to %s" [ArgS "Report Protocol"]] /\
  ~ exists protocol_mode : kb_state -> Z,
      forall m s s' tr,
        kb_set_protocol m s = Done tt s' tr -> protocol_mode s' = m.
Proof.
  split; [reflexivity|]. split; [reflexivity|].
  intros (protocol_mode & H).
  pose proof (H 0 kb_initial _ _ eq_refl) as H0.
  pose proof (H 1 kb_initial _ _ eq_refl) as H1.
  rewrite H0 in H1. discriminate.
Qed.

(** ** Translation *)

Lemma table_size : INPUT_TO_HID_TABLE_SIZE = 128.
Proof. reflexivity. Qed.

Lemma get_modifier_bit_out_of_range (input_code : N) :
  INPUT_TO_HID_TABLE_SIZE <= Z.of_N input_code ->
  get_modifier_bit input_code = 0.
Proof.
  rewrite table_size. intros H. unfold get_modifier_bit.
  repeat match goal with
         | |- context [(input_code =? ?c)%N] =>
             destruct (N.eqb_spec input_code c) as [E|_];
             [exfalso; rewrite E in H; cbv in H; apply H; reflexivity|]
         end.
  reflexivity.
Qed.

Lemma usage_code_out_of_range (input_code : N) :
  INPUT_TO_HID_TABLE_SIZE <= Z.of_N input_code -> usage_code input_code = 0.
Proof.
  unfold INPUT_TO_HID_TABLE_SIZE, usage_code. intros H.
  apply nth_overflow. lia.
Qed.

(** C8. The translation never indexes the table outside its bounds: for
    every identifier [input_to_hid] returns the table entry, and zero for
    an identifier at or beyond the table's size, which is classified as
    unmapped.  Folding an unmapped identifier, pressed or released, leaves
    a reachable keyboard state as it was. *)
Theorem key_translation_total (input_code : N) :
  (forall s, input_to_hid input_code s = Done (usage_code input_code) s []) /\
  (INPUT_TO_HID_TABLE_SIZE <= Z.of_N input_code ->
   usage_code input_code = 0 /\ translate input_code = Unmapped) /\
  (translate input_code = Unmapped ->
   forall (s : kb_state) (pressed : bool),
     reachable s ->
     process_key_event input_code pressed s
     = Done tt s [LOG DBG "Unmapped input code: %u" [ArgU (Z.of_N input_code)]]).
Proof.
  split; [intros s; apply input_to_hid_run|]. split.
  - intros H. split; [exact (usage_code_out_of_range input_code H)|].
    unfold translate.
    rewrite (get_modifier_bit_out_of_range input_code H),
      (usage_code_out_of_range input_code H).
    reflexivity.
  - unfold translate. intros Hcls s pressed Hre.
    destruct (reachable_inv s Hre) as (Hwf & _ & Hrep).
    destruct (get_modifier_bit input_code =? 0) eqn:Hb; [|discriminate].
    destruct (usage_code input_code =? 0) eqn:Hu; [|discriminate].
    apply Z.eqb_eq in Hb, Hu.
    rewrite process_key_event_unmapped by assumption.
    rewrite (rebuilt_id s Hrep). reflexivity.
Qed.

Lemma key_translation_total_witness :
  (usage_code 200 = 0 /\ translate 200 = Unmapped) /\
  process_key_event 200 true kb_initial
  = Done tt kb_initial [LOG DBG "Unmapped input code: %u" [ArgU 200]].
Proof.
  destruct (key_translation_total 200) as (_ & Hout & Hfold).
  split.
  - apply Hout. rewrite table_size. cbn. lia.
  - apply Hfold.
    + reflexivity.
    + apply reach_initial.
Defined.

(** ** LED output *)




Lemma kb_set_report_output (b : board) (id len b0 : Z) (rest : list Z)
    (s : kb_state) :
  kb_set_report b HID_REPORT_TYPE_OUTPUT id len (b0 :: rest) s
  = Done 0 s (led_writes b b0).
Proof.
  destruct b as [[p0 ? ?] [p1 ? ?] [p2 ? ?] ?].
  destruct p0, p1, p2; reflexivity.
Qed.


(** C10, as amended. The handler of an output report never looks at [len]:
    the result is the same for every [len], and no test on [len] stands
    before the read of byte 0.  Byte 0 is read once for each LED line the
    board has and not at all on a board without LED lines.  So for a
    zero-length report the read is out of bounds exactly when some LED
    line exists: it is reached on a board with the three LEDs, whatever
    [len] is passed, and a board without LEDs gets through. *)
Theorem kb_output_report_unguarded (b : board) (s : kb_state) :
  (forall id len len' buf,
     kb_set_report b HID_REPORT_TYPE_OUTPUT id len buf s
     = kb_set_report b HID_REPORT_TYPE_OUTPUT id len' buf s) /\
  (forall id len,
     kb_set_report b HID_REPORT_TYPE_OUTPUT id len [] s
     = (if existsb has_port (kb_leds b) then OutOfBounds else Done 0 s [])) /\
  (forall len,
     kb_output_report b len [] s
     = (if existsb has_port (kb_leds b) then OutOfBounds
        else Done tt s [LOG_HEXDUMP DBG [] "o.r."])) /\
  (forall len b0 rest,
     kb_output_report b len (b0 :: rest) s
     = Done tt s (LOG_HEXDUMP DBG (firstn (Z.to_nat len) (b0 :: rest)) "o.r."
                    :: led_writes b b0)) /\
  (exists b' : board,
     kb_leds b' = [mk_gpio_dt_spec (Some "gpio0"%string) 13 0;
                   mk_gpio_dt_spec (Some "gpio0"%string) 14 0;
                   mk_gpio_dt_spec (Some "gpio0"%string) 15 0] /\
     forall len, kb_output_report b' len [] s = OutOfBounds) /\
  (exists b' : board,
     existsb has_port (kb_leds b') = false /\
     forall len buf,
       kb_output_report b' len buf s
       = Done tt s [LOG_HEXDUMP DBG (firstn (Z.to_nat len) buf) "o.r."]).
Proof.
  split; [reflexivity|].
  split.
  { intros id len. destruct b as [[p0 ? ?] [p1 ? ?] [p2 ? ?] ?].
    destruct p0, p1, p2; reflexivity. }
  split.
  { intros len. unfold kb_output_report. rewrite firstn_nil.
    destruct b as [[p0 ? ?] [p1 ? ?] [p2 ? ?] ?].
    destruct p0, p1, p2; reflexivity. }
  split.
  { intros len b0 rest. unfold kb_output_report. unfold bind at 1.
    cbn [emit]. unfold bind at 1.
    rewrite (kb_set_report_output b 0 len b0 rest s). cbn [ret app].
    rewrite app_nil_r. reflexivity. }
  split.
  - exists (mk_board (mk_gpio_dt_spec (Some "gpio0"%string) 13 0)
              (mk_gpio_dt_spec (Some "gpio0"%string) 14 0)
              (mk_gpio_dt_spec (Some "gpio0"%string) 15 0) true).
    split; [reflexivity|]. intros len. unfold kb_output_report.
    rewrite firstn_nil. reflexivity.
  - exists (mk_board (mk_gpio_dt_spec None 0 0) (mk_gpio_dt_spec None 0 0)
              (mk_gpio_dt_spec None 0 0) true).
    split; [reflexivity|]. intros len buf. reflexivity.
Qed.

(** C10, counterexample. On a board without LED lines an output report is
    handled without byte 0 being read: the zero-length report, for which
    that read would be out of bounds, goes through, and the outcome is the
    same whatever the buffer holds. *)
Lemma kb_output_report_no_leds_counterexample :
  kb_output_report
    (mk_board (mk_gpio_dt_spec None 0 0) (mk_gpio_dt_spec None 0 0)
       (mk_gpio_dt_spec None 0 0) true) 0 [] kb_initial
  = Done tt kb_initial [LOG_HEXDUMP DBG [] "o.r."] /\
  kb_set_report
    (mk_board (mk_gpio_dt_spec None 0 0) (mk_gpio_dt_spec None 0 0)
       (mk_gpio_dt_spec None 0 0) true) HID_REPORT_TYPE_OUTPUT 0 0 []
    kb_initial
  = Done 0 kb_initial [] /\
  (forall len buf,
     kb_set_report
       (mk_board (mk_gpio_dt_spec None 0 0) (mk_gpio_dt_spec None 0 0)
          (mk_gpio_dt_spec None 0 0) true) HID_REPORT_TYPE_OUTPUT 0 len buf
       kb_initial
     = Done 0 kb_initial []).
Proof. repeat split. Qed.

(** On a board with the three LEDs, a zero-length output report makes the
    handler read outside the buffer. *)
Example kb_output_report_zero_length :
  kb_output_report
    (mk_board (mk_gpio_dt_spec (Some "gpio0"%string) 13 0)
       (mk_gpio_dt_spec (Some "gpio0"%string) 14 0)
       (mk_gpio_dt_spec (Some "gpio0"%string) 15 0) true)
    0 [] kb_initial
  = OutOfBounds.
Proof. reflexivity. Qed.

(** * Further properties of the code *)

(** ** The rollover array, function by function *)

Lemma mem_app (k : Z) (l1 l2 : list Z) :
  mem k (l1 ++ l2) = mem k l1 || mem k l2.
Proof. unfold mem. apply existsb_app. Qed.

Lemma mem_RolloverSet_remove (k : Z) (l : list Z) :
  mem k (RolloverSet_remove k l) = false.
Proof.
  unfold RolloverSet_remove. induction l as [|x t IH]; [reflexivity|].
  cbn [filter]. destruct (x =? k) eqn:E; cbn [negb]; [exact IH|].
  rewrite mem_cons, E, IH. reflexivity.
Qed.

(** X1. [add_pressed_key] returns [true] exactly when the key is tracked
    once it is done.  It returns [false] only for an absent key with all
    six places taken, and then it leaves the state as it was and logs the
    6KRO warning; in every other case it logs nothing. *)
Theorem add_pressed_key_result (s : kb_state) (hid_key : Z) :
  reachable s ->
  exists r s' tr,
    add_pressed_key hid_key s = Done r s' tr /\
    r = mem hid_key (rollover_set s') /\
    (r = false <->
     mem hid_key (rollover_set s) = false /\
     pressed_count s = MAX_PRESSED_KEYS) /\
    (r = false ->
     s' = s /\ tr = [LOG WRN "6KRO limit reached, key ignored" []]) /\
    (r = true -> tr = []) /\
    kb_wf s'.
Proof.
  intros Hre. destruct (reachable_inv s Hre) as (Hwf & Hnd & Hrep).
  rewrite add_pressed_key_run by exact Hwf.
  destruct (mem hid_key (rollover_set s)) eqn:Hm.
  - exists true, s, []. split; [reflexivity|]. split; [symmetry; exact Hm|].
    repeat split; try discriminate; try reflexivity; try apply Hwf.
    intros [H _]. discriminate.
  - destruct (pressed_count s <? MAX_PRESSED_KEYS) eqn:Hlt.
    + apply Z.ltb_lt in Hlt.
      exists true, (appended hid_key s), []. split; [reflexivity|].
      split.
      { rewrite appended_rollover, mem_app, mem_cons, Z.eqb_refl by assumption.
        rewrite orb_true_r. reflexivity. }
      split; [split; [discriminate | intros [_ H]; lia]|].
      split; [discriminate|]. split; [reflexivity|].
      apply appended_wf; assumption.
    + apply Z.ltb_ge in Hlt.
      exists false, s, [LOG WRN "6KRO limit reached, key ignored" []].
      split; [reflexivity|]. split; [symmetry; exact Hm|].
      split; [split; [intros _; split; [reflexivity | destruct Hwf as (_ & _ & Hc); lia] | reflexivity]|].
      split; [intros _; split; reflexivity|]. split; [discriminate | exact Hwf].
Qed.

Lemma add_pressed_key_result_witness :
  exists r s' tr,
    add_pressed_key HID_KEY_A kb_initial = Done r s' tr /\
    r = mem HID_KEY_A (rollover_set s').
Proof.
  destruct (add_pressed_key_result kb_initial HID_KEY_A reach_initial)
    as (r & s' & tr & Hrun & Hr & _).
  exists r, s', tr. split; [exact Hrun | exact Hr].
Defined.

(** X2. [add_pressed_key] is idempotent: a second call with the same key
    returns what the first returned and leaves the state the first call
    left; a key that is tracked never takes a second place. *)
Theorem add_pressed_key_idempotent (s : kb_state) (hid_key : Z) :
  reachable s ->
  exists r s1 tr1 tr2,
    add_pressed_key hid_key s = Done r s1 tr1 /\
    add_pressed_key hid_key s1 = Done r s1 tr2 /\
    (r = true -> tr2 = []).
Proof.
  intros Hre. destruct (reachable_inv s Hre) as (Hwf & Hnd & Hrep).
  rewrite add_pressed_key_run by exact Hwf.
  destruct (mem hid_key (rollover_set s)) eqn:Hm.
  - exists true, s, [], []. rewrite add_pressed_key_run, Hm by exact Hwf. auto.
  - destruct (pressed_count s <? MAX_PRESSED_KEYS) eqn:Hlt.
    + apply Z.ltb_lt in Hlt. exists true, (appended hid_key s), [], [].
      rewrite add_pressed_key_run by (apply appended_wf; assumption).
      rewrite appended_rollover, mem_app, mem_cons, Z.eqb_refl by assumption.
      rewrite orb_true_r. auto.
    + exists false, s, [LOG WRN "6KRO limit reached, key ignored" []],
        [LOG WRN "6KRO limit reached, key ignored" []].
      rewrite add_pressed_key_run, Hm, Hlt by exact Hwf.
      repeat split. discriminate.
Qed.

Lemma add_pressed_key_idempotent_witness :
  exists r s1 tr1 tr2,
    add_pressed_key HID_KEY_A kb_initial = Done r s1 tr1 /\
    add_pressed_key HID_KEY_A s1 = Done r s1 tr2 /\
    (r = true -> tr2 = []).
Proof. exact (add_pressed_key_idempotent kb_initial HID_KEY_A reach_initial). Defined.

(** X3. [remove_pressed_key] never fails and never logs.  Afterwards the
    key is not tracked, the other tracked codes are there in their order,
    and the count has gone down by one exactly when the key was tracked;
    removing a key that is not tracked leaves the state untouched. *)
Theorem remove_pressed_key_result (s : kb_state) (hid_key : Z) :
  reachable s ->
  exists s',
    remove_pressed_key hid_key s = Done tt s' [] /\
    rollover_set s' = RolloverSet_remove hid_key (rollover_set s) /\
    mem hid_key (rollover_set s') = false /\
    pressed_count s'
    = pressed_count s - (if mem hid_key (rollover_set s) then 1 else 0) /\
    (mem hid_key (rollover_set s) = false -> s' = s) /\
    kb_wf s'.
Proof.
  intros Hre. destruct (reachable_inv s Hre) as (Hwf & Hnd & Hrep).
  rewrite remove_pressed_key_run by exact Hwf.
  destruct (mem hid_key (rollover_set s)) eqn:Hm.
  - exists (compacted hid_key s). split; [reflexivity|].
    assert (Hro : rollover_set (compacted hid_key s)
                  = RolloverSet_remove hid_key (rollover_set s)).
    { rewrite compacted_rollover by assumption.
      apply remove_first_filter. exact Hnd. }
    split; [exact Hro|]. split; [rewrite Hro; apply mem_RolloverSet_remove|].
    split; [reflexivity|]. split; [discriminate|].
    apply compacted_wf; assumption.
  - exists s. split; [reflexivity|].
    rewrite filter_absent by exact Hm.
    repeat split; try assumption; try apply Hwf. lia.
Qed.

Lemma remove_pressed_key_result_witness :
  exists s s',
    process_key_events
      (map press [INPUT_KEY_A; INPUT_KEY_B; INPUT_KEY_C]) kb_initial
    = Done tt s [] /\
    remove_pressed_key HID_KEY_B s = Done tt s' [] /\
    rollover_set s = [HID_KEY_A; HID_KEY_B; HID_KEY_C] /\
    rollover_set s' = [HID_KEY_A; HID_KEY_C] /\
    mem HID_KEY_B (rollover_set s') = false /\
    pressed_count s' = 2.
Proof.
  assert (Hrun : process_key_events
                   (map press [INPUT_KEY_A; INPUT_KEY_B; INPUT_KEY_C]) kb_initial
                 = Done tt (mk_kb_state [0; 0; 4; 5; 6; 0; 0; 0] 0 false
                              [4; 5; 6; 0; 0; 0] 3 0) [])
    by (vm_compute; reflexivity).
  destruct (remove_pressed_key_result
              (mk_kb_state [0; 0; 4; 5; 6; 0; 0; 0] 0 false [4; 5; 6; 0; 0; 0] 3 0)
              HID_KEY_B) as (s' & H1 & H2 & H3 & H4 & _).
  - exact (state_after_reachable
             (map press [INPUT_KEY_A; INPUT_KEY_B; INPUT_KEY_C])
             kb_initial _ [] reach_initial Hrun).
  - eexists _, s'. split; [exact Hrun|]. split; [exact H1|].
    split; [reflexivity|]. split; [exact H2|]. split; [exact H3 | exact H4].
Defined.

(** X4. Removing a tracked key always makes room: whatever key is added
    next is accepted, even when all six places were taken before. *)
Theorem remove_then_add_accepted (s : kb_state) (k k' : Z) :
  reachable s -> mem k (rollover_set s) = true ->
  exists s1 s2,
    remove_pressed_key k s = Done tt s1 [] /\
    add_pressed_key k' s1 = Done true s2 [] /\
    mem k' (rollover_set s2) = true.
Proof.
  intros Hre Hm. destruct (reachable_inv s Hre) as (Hwf & Hnd & Hrep).
  pose proof (compacted_wf k s Hwf Hm) as Hwf1.
  exists (compacted k s).
  rewrite remove_pressed_key_run, Hm by exact Hwf.
  rewrite add_pressed_key_run by exact Hwf1.
  destruct (mem k' (rollover_set (compacted k s))) eqn:Hm'.
  - exists (compacted k s). auto.
  - assert (Hlt : pressed_count (compacted k s) < MAX_PRESSED_KEYS).
    { cbn. destruct Hwf as (_ & _ & Hc). lia. }
    rewrite (proj2 (Z.ltb_lt _ _) Hlt).
    exists (appended k' (compacted k s)). split; [reflexivity|].
    split; [reflexivity|].
    rewrite appended_rollover, mem_app, mem_cons, Z.eqb_refl by assumption.
    apply orb_true_r.
Qed.

Lemma remove_then_add_accepted_witness :
  exists s s1 s2,
    process_key_events
      (map press [INPUT_KEY_A; INPUT_KEY_B; INPUT_KEY_C; INPUT_KEY_D;
                  INPUT_KEY_E; INPUT_KEY_F]) kb_initial = Done tt s [] /\
    pressed_count s = MAX_PRESSED_KEYS /\
    remove_pressed_key HID_KEY_C s = Done tt s1 [] /\
    add_pressed_key HID_KEY_G s1 = Done true s2 [] /\
    mem HID_KEY_G (rollover_set s2) = true.
Proof.
  assert (Hrun : process_key_events
                   (map press [INPUT_KEY_A; INPUT_KEY_B; INPUT_KEY_C;
                               INPUT_KEY_D; INPUT_KEY_E; INPUT_KEY_F]) kb_initial
                 = Done tt (mk_kb_state [0; 0; 4; 5; 6; 7; 8; 9] 0 false
                              [4; 5; 6; 7; 8; 9] 6 0) [])
    by (vm_compute; reflexivity).
  destruct (remove_then_add_accepted
              (mk_kb_state [0; 0; 4; 5; 6; 7; 8; 9] 0 false [4; 5; 6; 7; 8; 9] 6 0)
              HID_KEY_C HID_KEY_G) as (s1 & s2 & H1 & H2 & H3).
  - exact (state_after_reachable
             (map press [INPUT_KEY_A; INPUT_KEY_B; INPUT_KEY_C; INPUT_KEY_D;
                         INPUT_KEY_E; INPUT_KEY_F])
             kb_initial _ [] reach_initial Hrun).
  - vm_compute; reflexivity.
  - eexists _, s1, s2. split; [exact Hrun|]. split; [reflexivity|].
    split; [exact H1|]. split; [exact H2 | exact H3].
Defined.

(** ** Events at the edges *)

(** X5. With all six places taken, the press of a further key is dropped:
    the state, report included, stays exactly as it was and the 6KRO
    warning is logged.  The release of a key that is not tracked, such as
    the one that follows a dropped press, changes nothing and logs
    nothing. *)
Theorem untracked_key_events_ignored (s : kb_state) (c : N) :
  reachable s ->
  get_modifier_bit c = 0 -> usage_code c <> 0 ->
  mem (usage_code c) (rollover_set s) = false ->
  (pressed_count s = MAX_PRESSED_KEYS ->
   process_key_event c true s
   = Done tt s [LOG WRN "6KRO limit reached, key ignored" []]) /\
  process_key_event c false s = Done tt s [].
Proof.
  intros Hre Hb Hu Hm. destruct (reachable_inv s Hre) as (Hwf & Hnd & Hrep).
  split.
  - intros Hfull. rewrite process_key_event_press, Hm by assumption.
    rewrite (proj2 (Z.ltb_ge _ _)) by lia.
    rewrite (rebuilt_id s Hrep). reflexivity.
  - rewrite process_key_event_release, Hm by assumption.
    rewrite (rebuilt_id s Hrep). reflexivity.
Qed.

Lemma untracked_key_events_ignored_witness :
  exists s,
    process_key_events
      (map press [INPUT_KEY_A; INPUT_KEY_B; INPUT_KEY_C; INPUT_KEY_D;
                  INPUT_KEY_E; INPUT_KEY_F]) kb_initial = Done tt s [] /\
    process_key_event INPUT_KEY_G true s
    = Done tt s [LOG WRN "6KRO limit reached, key ignored" []] /\
    process_key_event INPUT_KEY_G false s = Done tt s [].
Proof.
  assert (Hrun : process_key_events
                   (map press [INPUT_KEY_A; INPUT_KEY_B; INPUT_KEY_C;
                               INPUT_KEY_D; INPUT_KEY_E; INPUT_KEY_F]) kb_initial
                 = Done tt (mk_kb_state [0; 0; 4; 5; 6; 7; 8; 9] 0 false
                              [4; 5; 6; 7; 8; 9] 6 0) [])
    by (vm_compute; reflexivity).
  destruct (untracked_key_events_ignored
              (mk_kb_state [0; 0; 4; 5; 6; 7; 8; 9] 0 false [4; 5; 6; 7; 8; 9] 6 0)
              INPUT_KEY_G) as (Hpress & Hrelease).
  - exact (state_after_reachable
             (map press [INPUT_KEY_A; INPUT_KEY_B; INPUT_KEY_C; INPUT_KEY_D;
                         INPUT_KEY_E; INPUT_KEY_F])
             kb_initial _ [] reach_initial Hrun).
  - reflexivity.
  - discriminate.
  - vm_compute; reflexivity.
  - eexists. split; [exact Hrun|].
    split; [apply Hpress; reflexivity | exact Hrelease].
Defined.

(** ** The report builder on its own *)

(** X6. [build_hid_report] never fails on arrays of the declared sizes and
    writes a report that depends on the modifier mask and the tracked
    codes only: neither the bytes the report held before nor the places of
    [pressed_keys] beyond the count show in it.  Building twice is
    building once. *)
Theorem build_hid_report_depends_on_tracked (s1 s2 : kb_state) :
  kb_wf s1 -> kb_wf s2 ->
  modifier_state s1 = modifier_state s2 ->
  rollover_set s1 = rollover_set s2 ->
  exists s1' s2',
    build_hid_report s1 = Done tt s1' [] /\
    build_hid_report s2 = Done tt s2' [] /\
    report s1' = report s2' /\
    pressed_keys s1' = pressed_keys s1 /\
    pressed_count s1' = pressed_count s1 /\
    build_hid_report s1' = Done tt s1' [].
Proof.
  intros Hwf1 Hwf2 Hmod Hro.
  exists (rebuilt s1), (rebuilt s2).
  rewrite !build_hid_report_run by assumption.
  split; [reflexivity|]. split; [reflexivity|].
  split; [cbn; unfold report_layout; rewrite Hmod, Hro; reflexivity|].
  split; [reflexivity|]. split; [reflexivity|].
  rewrite build_hid_report_run.
  - reflexivity.
  - pose proof (report_layout_length s1 Hwf1) as Hlen.
    destruct Hwf1 as (Hk & _ & Hc). repeat split; try assumption; apply Hc.
Qed.

Lemma build_hid_report_depends_on_tracked_witness :
  exists s1' s2',
    build_hid_report
      (mk_kb_state [1; 2; 3; 4; 5; 6; 7; 8] 0 false [4; 9; 9; 9; 9; 9] 1 2)
    = Done tt s1' [] /\
    build_hid_report
      (mk_kb_state [0; 0; 0; 0; 0; 0; 0; 0] 0 false [4; 0; 0; 0; 0; 0] 1 2)
    = Done tt s2' [] /\
    report s1' = report s2'.
Proof.
  destruct (build_hid_report_depends_on_tracked
              (mk_kb_state [1; 2; 3; 4; 5; 6; 7; 8] 0 false [4; 9; 9; 9; 9; 9] 1 2)
              (mk_kb_state [0; 0; 0; 0; 0; 0; 0; 0] 0 false [4; 0; 0; 0; 0; 0] 1 2))
    as (s1' & s2' & H1 & H2 & H3 & _).
  - repeat split; try reflexivity; cbn; unfold MAX_PRESSED_KEYS; lia.
  - repeat split; try reflexivity; cbn; unfold MAX_PRESSED_KEYS; lia.
  - reflexivity.
  - reflexivity.
  - exists s1', s2'. split; [exact H1|]. split; [exact H2 | exact H3].
Defined.

(** ** The translation table *)

(** Every input code below the table's size, for checks by enumeration. *)
Lemma forallb_codes (P : N -> bool) :
  forallb P (map N.of_nat (seq 0 128)) = true ->
  forall c : N, (c < 128)%N -> P c = true.
Proof.
  intros H c Hc. rewrite forallb_forall in H. apply H.
  apply in_map_iff. exists (N.to_nat c). split; [lia|].
  apply in_seq. lia.
Qed.

Lemma usage_code_large (c : N) : (128 <= c)%N -> usage_code c = 0.
Proof.
  intros H. apply usage_code_out_of_range. rewrite table_size. lia.
Qed.

Lemma usage_code_range (c : N) :
  usage_code c = 0 \/ 4 <= usage_code c <= 101.
Proof.
  destruct (N.lt_ge_cases c 128) as [Hc|Hc].
  - pose proof (forallb_codes
                  (fun c => (usage_code c =? 0)
                            || ((4 <=? usage_code c) && (usage_code c <=? 101)))
                  eq_refl c Hc) as H.
    cbv beta in H. apply orb_true_iff in H. destruct H as [H|H].
    + left. apply Z.eqb_eq. exact H.
    + right. apply andb_true_iff in H. destruct H as [H1 H2].
      apply Z.leb_le in H1, H2. lia.
  - left. apply usage_code_large. exact Hc.
Qed.

(** X7. The table gives every key its own usage code: two input codes with
    the same non-zero entry are the same code.  Every non-zero entry lies
    between 4 and 101, so the table never yields the reserved error codes
    1 to 3 nor a value beyond a byte. *)
Theorem usage_code_injective (c1 c2 : N) :
  (usage_code c1 = 0 \/ 4 <= usage_code c1 <= 101) /\
  (usage_code c1 <> 0 -> usage_code c1 = usage_code c2 -> c1 = c2).
Proof.
  split; [apply usage_code_range|]. intros Hnz Heq.
  destruct (N.lt_ge_cases c1 128) as [H1|H1];
    [|rewrite usage_code_large in Hnz by exact H1; contradiction].
  destruct (N.lt_ge_cases c2 128) as [H2|H2];
    [|rewrite (usage_code_large c2 H2) in Heq; contradiction].
  pose proof (forallb_codes
                (fun a => forallb
                   (fun b => (usage_code a =? 0)
                             || negb (usage_code a =? usage_code b)
                             || (a =? b)%N)
                   (map N.of_nat (seq 0 128)))
                ltac:(vm_compute; reflexivity) c1 H1) as H.
  cbv beta in H.
  pose proof (forallb_codes _ H c2 H2) as H'. cbv beta in H'.
  apply orb_true_iff in H'. destruct H' as [H'|H'].
  - apply orb_true_iff in H'. destruct H' as [H'|H'].
    + apply Z.eqb_eq in H'. contradiction.
    + apply negb_true_iff, Z.eqb_neq in H'. contradiction.
  - apply N.eqb_eq. exact H'.
Qed.

Lemma usage_code_injective_witness :
  4 <= usage_code INPUT_KEY_A <= 101 /\ INPUT_KEY_A = 30%N.
Proof.
  destruct (usage_code_injective INPUT_KEY_A 30) as (Hrange & Hinj).
  split.
  - destruct Hrange as [H|H]; [discriminate H | exact H].
  - apply Hinj; [discriminate | reflexivity].
Defined.

(** X8. The eight modifier codes are kept out of the table and apart from
    each other: a code with a modifier bit has a zero table entry, its bit
    is a single bit of the byte, and two codes with the same bit are the
    same code. *)
Theorem modifier_codes_distinct (c1 c2 : N) :
  get_modifier_bit c1 <> 0 ->
  usage_code c1 = 0 /\
  (exists n, 0 <= n < 8 /\ get_modifier_bit c1 = 2 ^ n) /\
  (get_modifier_bit c1 = get_modifier_bit c2 -> c1 = c2).
Proof.
  intros Hb. split; [|split; [exact (get_modifier_bit_pow2 c1 Hb)|]].
  - revert Hb. unfold get_modifier_bit.
    repeat match goal with
           | |- context [(c1 =? ?c)%N] =>
               destruct (N.eqb_spec c1 c) as [->|_]; [intros _; reflexivity|]
           end.
    intros H. contradiction.
  - revert Hb. unfold get_modifier_bit.
    repeat match goal with
           | |- context [(c1 =? ?c)%N] =>
               destruct (N.eqb_spec c1 c) as [->|_]
           end;
    try (intros H; contradiction);
    intros _;
    repeat match goal with
           | |- context [(c2 =? ?c)%N] =>
               destruct (N.eqb_spec c2 c) as [->|_]
           end;
    intros H; try reflexivity; discriminate H.
Qed.

Lemma modifier_codes_distinct_witness :
  usage_code INPUT_KEY_LEFTSHIFT = 0 /\
  (exists n, 0 <= n < 8 /\ get_modifier_bit INPUT_KEY_LEFTSHIFT = 2 ^ n) /\
  (get_modifier_bit INPUT_KEY_LEFTSHIFT = get_modifier_bit INPUT_KEY_RIGHTSHIFT ->
   INPUT_KEY_LEFTSHIFT = INPUT_KEY_RIGHTSHIFT).
Proof.
  apply (modifier_codes_distinct INPUT_KEY_LEFTSHIFT INPUT_KEY_RIGHTSHIFT).
  discriminate.
Defined.

(** ** Values in reachable states *)

Lemma Forall_RolloverSet_step (P : Z -> Prop) (l : list Z) (c : N) (p : bool) :
  (usage_code c <> 0 -> P (usage_code c)) ->
  Forall P l -> Forall P (RolloverSet_step l c p).
Proof.
  intros Hc Hl. unfold RolloverSet_step, translate.
  destruct (negb (get_modifier_bit c =? 0)); [exact Hl|].
  destruct (usage_code c =? 0) eqn:E; cbn [negb]; [exact Hl|].
  apply Z.eqb_neq in E. destruct p.
  - unfold RolloverSet_insert. destruct (mem (usage_code c) l); [exact Hl|].
    destruct (length l <? 6)%nat; [|exact Hl].
    apply Forall_app. split; [exact Hl|]. constructor; [exact (Hc E) | constructor].
  - unfold RolloverSet_remove. rewrite Forall_forall in *.
    intros x Hx. apply filter_In in Hx. apply Hl. apply Hx.
Qed.

Lemma Modifier_step_byte (m : Z) (c : N) (p : bool) :
  0 <= m < 256 -> 0 <= Modifier_step m c p < 256.
Proof.
  intros Hm. unfold Modifier_step. destruct (translate c); try exact Hm.
  unfold u8. apply Z.mod_pos_bound. lia.
Qed.

Lemma reachable_ranges (s : kb_state) :
  reachable s ->
  0 <= modifier_state s < 256 /\
  Forall (fun k => 4 <= k <= 101) (rollover_set s).
Proof.
  induction 1 as [ | s c p s' tr Hre IH Hrun | s n r s' tr _ IH Hrun
                   | s ty id len buf r s' tr _ IH Hrun
                   | s b ty id len buf r s' tr _ IH Hrun
                   | s id d s' tr _ IH Hrun | s id r s' tr _ IH Hrun
                   | s proto s' tr _ IH Hrun | s b len buf s' tr _ IH Hrun ].
  - split; [cbn; lia | constructor].
  - destruct (process_key_event_step c p s (reachable_inv s Hre))
      as (s1 & tr1 & Hrun1 & _ & Hro & Hmod & _).
    rewrite Hrun in Hrun1. injection Hrun1 as <- _.
    rewrite Hro, Hmod. destruct IH as (IHm & IHr). split.
    + apply Modifier_step_byte. exact IHm.
    + apply Forall_RolloverSet_step; [|exact IHr].
      intros Hnz. destruct (usage_code_range c) as [H|H]; [contradiction | exact H].
  - injection Hrun as <- _. exact IH.
  - apply kb_get_report_state in Hrun. subst s'. exact IH.
  - apply kb_set_report_state in Hrun. subst s'. exact IH.
  - injection Hrun as <- _. exact IH.
  - injection Hrun as _ <- _. exact IH.
  - injection Hrun as <- _. exact IH.
  - apply kb_output_report_state in Hrun. subst s'. exact IH.
Qed.

(** X9. In every reachable state each byte of the report is a byte: the
    modifier mask is below 256, the reserved byte is zero, and each of the
    six key slots is zero or a usage code between 4 and 101, never one of
    the error codes 1 to 3. *)
Theorem report_bytes_in_range (s : kb_state) :
  reachable s ->
  0 <= modifier_state s < 256 /\
  Forall (fun k => 4 <= k <= 101) (rollover_set s) /\
  Forall (fun x => 0 <= x < 256) (report s) /\
  Forall (fun x => x = 0 \/ 4 <= x <= 101) (skipn 2 (report s)).
Proof.
  intros Hre. destruct (reachable_ranges s Hre) as (Hm & Hr).
  destruct (reachable_inv s Hre) as (_ & _ & Hrep).
  split; [exact Hm|]. split; [exact Hr|].
  rewrite Hrep. unfold report_layout. cbn [skipn]. split.
  - constructor; [exact Hm|]. constructor; [lia|].
    apply Forall_app. split.
    + rewrite Forall_forall in *. intros x Hx. specialize (Hr x Hx). lia.
    + apply Forall_forall. intros x Hx. apply repeat_spec in Hx. lia.
  - apply Forall_app. split.
    + rewrite Forall_forall in *. intros x Hx. right. exact (Hr x Hx).
    + apply Forall_forall. intros x Hx. apply repeat_spec in Hx. left. exact Hx.
Qed.

Lemma report_bytes_in_range_witness :
  exists s,
    process_key_events
      [press INPUT_KEY_LEFTSHIFT; press INPUT_KEY_A; press INPUT_KEY_COMPOSE]
      kb_initial = Done tt s [] /\
    report s = [2; 0; 4; 101; 0; 0; 0; 0] /\
    0 <= modifier_state s < 256 /\
    Forall (fun k => 4 <= k <= 101) (rollover_set s) /\
    Forall (fun x => 0 <= x < 256) (report s) /\
    Forall (fun x => x = 0 \/ 4 <= x <= 101) (skipn 2 (report s)).
Proof.
  assert (Hrun : process_key_events
                   [press INPUT_KEY_LEFTSHIFT; press INPUT_KEY_A;
                    press INPUT_KEY_COMPOSE] kb_initial
                 = Done tt (mk_kb_state [2; 0; 4; 101; 0; 0; 0; 0] 0 false
                              [4; 101; 0; 0; 0; 0] 2 2) [])
    by (vm_compute; reflexivity).
  eexists. split; [exact Hrun|]. split; [reflexivity|].
  apply (report_bytes_in_range
           (mk_kb_state [2; 0; 4; 101; 0; 0; 0; 0] 0 false [4; 101; 0; 0; 0; 0] 2 2)).
  exact (state_after_reachable
           [press INPUT_KEY_LEFTSHIFT; press INPUT_KEY_A; press INPUT_KEY_COMPOSE]
           kb_initial _ [] reach_initial Hrun).
Defined.

(** ** Modifiers and keys do not interfere *)

Ltac unfold_states :=
  unfold rebuilt, appended, compacted, set_modifier_state, set_report,
    set_pressed_keys, set_pressed_count, report_layout, rollover_set;
  cbn [report kb_duration kb_ready pressed_keys pressed_count modifier_state].

(** X10. A modifier event and a key event commute: folded in either order
    from a reachable state they end in the same state, with the same
    trace.  The modifier never touches the tracked codes and a key never
    touches the mask. *)
Theorem modifier_and_key_events_commute (s : kb_state) (cm ck : N)
    (pm pk : bool) :
  reachable s ->
  get_modifier_bit cm <> 0 -> get_modifier_bit ck = 0 ->
  exists s' tr,
    (process_key_event cm pm ;; process_key_event ck pk) s = Done tt s' tr /\
    (process_key_event ck pk ;; process_key_event cm pm) s = Done tt s' tr /\
    rollover_set s' = RolloverSet_step (rollover_set s) ck pk /\
    modifier_state s' = Modifier_step (modifier_state s) cm pm.
Proof.
  intros Hre Hm Hk. pose proof (reachable_inv s Hre) as Hinv.
  destruct Hinv as (Hwf & Hnd & Hrep).
  set (m' := u8 (if pm then Z.lor (modifier_state s) (get_modifier_bit cm)
                 else Z.land (modifier_state s) (Z.lnot (get_modifier_bit cm)))).
  assert (HwfM : kb_wf (rebuilt (set_modifier_state m' s)))
    by (apply (rebuilt_inv (set_modifier_state m' s)); assumption).
  assert (HwfR : kb_wf (rebuilt s)) by (apply rebuilt_inv; assumption).
  assert (Hmod : Modifier_step (modifier_state s) cm pm = m').
  { unfold Modifier_step. rewrite (translate_modifier cm Hm). reflexivity. }
  rewrite Hmod. unfold RolloverSet_step, translate. rewrite Hk. cbn [Z.eqb negb].
  unfold bind.
  rewrite (process_key_event_modifier cm pm s Hwf Hm). fold m'.
  destruct (usage_code ck =? 0) eqn:Hu; cbn [negb].
  - apply Z.eqb_eq in Hu.
    rewrite (process_key_event_unmapped ck pk _ HwfM Hk Hu).
    rewrite (process_key_event_unmapped ck pk s Hwf Hk Hu).
    rewrite (process_key_event_modifier cm pm _ HwfR Hm).
    do 2 eexists. split; [reflexivity|]. split; [|split; reflexivity].
    unfold_states. reflexivity.
  - apply Z.eqb_neq in Hu. destruct pk.
    + rewrite (process_key_event_press ck _ HwfM Hk Hu).
      rewrite (process_key_event_press ck s Hwf Hk Hu).
      change (rollover_set (rebuilt (set_modifier_state m' s)))
        with (rollover_set s).
      change (pressed_count (rebuilt (set_modifier_state m' s)))
        with (pressed_count s).
      unfold RolloverSet_insert.
      pose proof (rollover_set_length s Hwf) as HL.
      destruct (mem (usage_code ck) (rollover_set s)) eqn:Hmem.
      * rewrite (process_key_event_modifier cm pm _ HwfR Hm).
        do 2 eexists. split; [reflexivity|]. split; [|split; reflexivity].
        unfold_states. reflexivity.
      * destruct (pressed_count s <? MAX_PRESSED_KEYS) eqn:Hlt.
        { apply Z.ltb_lt in Hlt.
          replace (length (rollover_set s) <? 6)%nat with true
            by (symmetry; apply Nat.ltb_lt; unfold MAX_PRESSED_KEYS in *; lia).
          rewrite (process_key_event_modifier cm pm
                     (rebuilt (appended (usage_code ck) s))).
          2:{ apply rebuilt_inv.
              - apply appended_wf; assumption.
              - rewrite appended_rollover by assumption.
                apply NoDup_snoc; assumption. }
          2:{ exact Hm. }
          do 2 eexists. split; [reflexivity|].
          split; [unfold_states; reflexivity|].
          split; [|reflexivity].
          change (rollover_set (rebuilt (appended (usage_code ck)
                                           (rebuilt (set_modifier_state m' s)))))
            with (rollover_set (appended (usage_code ck) s)).
          apply appended_rollover; assumption. }
        { apply Z.ltb_ge in Hlt.
          replace (length (rollover_set s) <? 6)%nat with false
            by (symmetry; apply Nat.ltb_ge; unfold MAX_PRESSED_KEYS in *; lia).
          rewrite (process_key_event_modifier cm pm _ HwfR Hm).
          do 2 eexists. split; [reflexivity|]. split; [|split; reflexivity].
          unfold_states. reflexivity. }
    + rewrite (process_key_event_release ck _ HwfM Hk Hu).
      rewrite (process_key_event_release ck s Hwf Hk Hu).
      change (rollover_set (rebuilt (set_modifier_state m' s)))
        with (rollover_set s).
      rewrite <- remove_first_filter by exact Hnd.
      destruct (mem (usage_code ck) (rollover_set s)) eqn:Hmem.
      * rewrite (process_key_event_modifier cm pm
                   (rebuilt (compacted (usage_code ck) s))).
        2:{ apply rebuilt_inv.
            - apply compacted_wf; assumption.
            - rewrite compacted_rollover by assumption.
              apply NoDup_remove_first. exact Hnd. }
        2:{ exact Hm. }
        do 2 eexists. split; [reflexivity|].
        split; [unfold_states; reflexivity|].
        split; [|reflexivity].
        change (rollover_set (rebuilt (compacted (usage_code ck)
                                         (rebuilt (set_modifier_state m' s)))))
          with (rollover_set (compacted (usage_code ck) s)).
        apply compacted_rollover; assumption.
      * rewrite (process_key_event_modifier cm pm _ HwfR Hm).
        do 2 eexists. split; [reflexivity|].
        split; [unfold_states; reflexivity|].
        split; [|reflexivity].
        rewrite remove_first_absent by exact Hmem. reflexivity.
Qed.

Lemma modifier_and_key_events_commute_witness :
  exists s' tr,
    (process_key_event INPUT_KEY_LEFTSHIFT true ;;
     process_key_event INPUT_KEY_A true) kb_initial = Done tt s' tr /\
    (process_key_event INPUT_KEY_A true ;;
     process_key_event INPUT_KEY_LEFTSHIFT true) kb_initial = Done tt s' tr.
Proof.
  destruct (modifier_and_key_events_commute kb_initial INPUT_KEY_LEFTSHIFT
              INPUT_KEY_A true true reach_initial)
    as (s' & tr & H1 & H2 & _).
  - discriminate.
  - reflexivity.
  - exists s', tr. split; [exact H1 | exact H2].
Defined.

(** ** Idle rate *)

Lemma process_key_events_frame (evs : list kb_event) :
  forall s : kb_state,
  kb_inv s ->
  exists s' tr,
    process_key_events evs s = Done tt s' tr /\
    kb_inv s' /\
    kb_ready s' = kb_ready s /\ kb_duration s' = kb_duration s.
Proof.
  induction evs as [|e evs IH]; intros s Hinv.
  - exists s, []. repeat split; try reflexivity; apply Hinv.
  - destruct (process_key_event_step (code e) (negb (value e =? 0)) s Hinv)
      as (s1 & tr1 & Hrun1 & Hinv1 & _ & _ & Hrdy1 & Hdur1).
    destruct (IH s1 Hinv1) as (s2 & tr2 & Hrun2 & Hinv2 & Hrdy2 & Hdur2).
    exists s2, (tr1 ++ tr2). split; [|split; [exact Hinv2|]].
    + cbn [process_key_events]. unfold bind. rewrite Hrun1, Hrun2. reflexivity.
    + split; congruence.
Qed.

(** X11. The idle rate set by the host is stored as it is and read back by
    [kb_get_idle], whatever report id either call names and whatever key
    events are folded in between; setting it changes neither the report
    nor the tracked codes. *)
Theorem idle_rate_round_trip (s : kb_state) (id id' duration : Z)
    (evs : list kb_event) :
  reachable s ->
  exists s1 tr1 s2 tr2 tr3,
    kb_set_idle id duration s = Done tt s1 tr1 /\
    process_key_events evs s1 = Done tt s2 tr2 /\
    kb_get_idle id' s2 = Done duration s2 tr3 /\
    report s1 = report s /\
    pressed_keys s1 = pressed_keys s /\
    pressed_count s1 = pressed_count s /\
    modifier_state s1 = modifier_state s.
Proof.
  intros Hre. pose proof (reachable_inv s Hre) as Hinv.
  assert (Hinv1 : kb_inv (set_kb_duration duration s)) by exact Hinv.
  destruct (process_key_events_frame evs _ Hinv1)
    as (s2 & tr2 & Hrun2 & _ & _ & Hdur).
  exists (set_kb_duration duration s). eexists. exists s2, tr2. eexists.
  split; [reflexivity|]. split; [exact Hrun2|].
  split; [|repeat split; reflexivity].
  unfold kb_get_idle, bind, gets, emit, ret. rewrite Hdur. reflexivity.
Qed.

Lemma idle_rate_round_trip_witness :
  exists s1 tr1 s2 tr2 tr3,
    kb_set_idle 0 125 kb_initial = Done tt s1 tr1 /\
    process_key_events [press INPUT_KEY_A; release INPUT_KEY_A] s1
    = Done tt s2 tr2 /\
    kb_get_idle 0 s2 = Done 125 s2 tr3.
Proof.
  destruct (idle_rate_round_trip kb_initial 0 0 125
              [press INPUT_KEY_A; release INPUT_KEY_A] reach_initial)
    as (s1 & tr1 & s2 & tr2 & tr3 & H1 & H2 & H3 & _).
  exists s1, tr1, s2, tr2, tr3. split; [exact H1|]. split; [exact H2 | exact H3].
Defined.

(** ** The consumer loop over several events *)

Lemma submitted_app (t1 t2 : list effect) :
  submitted (t1 ++ t2) = submitted t1 ++ submitted t2.
Proof.
  induction t1 as [|e t1 IH]; [reflexivity|].
  destruct e; cbn [app submitted]; rewrite IH; reflexivity.
Qed.

Lemma wakeups_app (t1 t2 : list effect) :
  wakeups (t1 ++ t2) = (wakeups t1 + wakeups t2)%nat.
Proof.
  induction t1 as [|e t1 IH]; [reflexivity|].
  destruct e; cbn [app wakeups]; rewrite IH; reflexivity.
Qed.

(** Folding an event talks to nobody but the log. *)
Lemma process_key_event_quiet (c : N) (p : bool) (s s' : kb_state)
    (tr : list effect) :
  kb_wf s -> process_key_event c p s = Done tt s' tr ->
  submitted tr = [] /\ wakeups tr = O.
Proof.
  intros Hwf.
  destruct (get_modifier_bit c =? 0) eqn:Hb.
  - apply Z.eqb_eq in Hb. destruct (usage_code c =? 0) eqn:Hu.
    + apply Z.eqb_eq in Hu. rewrite process_key_event_unmapped by assumption.
      intros H. injection H as _ <-. split; reflexivity.
    + apply Z.eqb_neq in Hu. destruct p.
      * rewrite process_key_event_press by assumption.
        destruct (mem (usage_code c) (rollover_set s));
          [|destruct (pressed_count s <? MAX_PRESSED_KEYS)];
          intros H; injection H as _ <-; split; reflexivity.
      * rewrite process_key_event_release by assumption.
        destruct (mem (usage_code c) (rollover_set s));
          intros H; injection H as _ <-; split; reflexivity.
  - apply Z.eqb_neq in Hb. rewrite process_key_event_modifier by assumption.
    intros H. injection H as _ <-. split; reflexivity.
Qed.

(** One turn of the loop: the state is the one the fold leaves, and what
    is sent depends on readiness, the Kconfig switch and suspension. *)
Lemma main_loop_body_turn (b : board) (env : usb_env) (e : kb_event)
    (s : kb_state) :
  kb_inv s ->
  exists s' tr tr0,
    main_loop_body b env e s = Done tt s' tr /\
    process_key_event (code e) (negb (value e =? 0)) s = Done tt s' tr0 /\
    kb_inv s' /\ kb_ready s' = kb_ready s /\
    submitted tr
    = (if kb_ready s &&
          negb (CONFIG_KEYBOARD_USBD_REMOTE_WAKEUP b && usbd_is_suspended env)
       then [report s'] else []) /\
    wakeups tr
    = (if kb_ready s && CONFIG_KEYBOARD_USBD_REMOTE_WAKEUP b
          && usbd_is_suspended env && negb (value e =? 0)
       then 1%nat else O).
Proof.
  intros Hinv.
  destruct (process_key_event_step (code e) (negb (value e =? 0)) s Hinv)
    as (s' & tr0 & Hrun & Hinv' & _ & _ & Hready & _).
  destruct (process_key_event_quiet _ _ s s' tr0 (proj1 Hinv) Hrun)
    as (Hsub0 & Hwk0).
  exists s'.
  unfold main_loop_body. unfold bind at 1. rewrite Hrun.
  unfold bind at 1. cbn [gets]. rewrite Hready.
  destruct (kb_ready s); cbn [negb andb].
  - destruct (CONFIG_KEYBOARD_USBD_REMOTE_WAKEUP b); cbn [andb];
      [destruct (usbd_is_suspended env); cbn [andb negb]|].
    + destruct (value e =? 0); cbn [negb];
        [|destruct (usbd_wakeup_request_ret env =? 0)];
        (eexists _, tr0; split; [reflexivity|]; split; [reflexivity|];
         split; [exact Hinv'|]; split; [reflexivity|];
         rewrite submitted_app, wakeups_app, Hsub0, Hwk0; split; reflexivity).
    + destruct (hid_device_submit_report_ret env =? 0);
        (eexists _, tr0; split; [reflexivity|]; split; [reflexivity|];
         split; [exact Hinv'|]; split; [reflexivity|];
         rewrite submitted_app, wakeups_app, Hsub0, Hwk0; split; reflexivity).
    + destruct (hid_device_submit_report_ret env =? 0);
        (eexists _, tr0; split; [reflexivity|]; split; [reflexivity|];
         split; [exact Hinv'|]; split; [reflexivity|];
         rewrite submitted_app, wakeups_app, Hsub0, Hwk0; split; reflexivity).
  - eexists _, tr0. split; [reflexivity|]. split; [reflexivity|].
    split; [exact Hinv'|]. split; [reflexivity|].
    rewrite submitted_app, wakeups_app, Hsub0, Hwk0. split; reflexivity.
Qed.

Lemma main_loop_run_spec (b : board) (steps : list (usb_env * kb_event)) :
  forall s : kb_state,
  kb_inv s ->
  exists s' tr tr0,
    main_loop_run b steps s = Done tt s' tr /\
    process_key_events (map snd steps) s = Done tt s' tr0 /\
    kb_inv s' /\ kb_ready s' = kb_ready s /\
    Forall (fun r => length r = 8%nat) (submitted tr) /\
    (length (submitted tr) <= length steps)%nat /\
    (wakeups tr
     <= length (filter (fun st => negb (Z.eqb (value (snd st)) 0)) steps))%nat /\
    (kb_ready s = false -> submitted tr = [] /\ wakeups tr = O) /\
    (CONFIG_KEYBOARD_USBD_REMOTE_WAKEUP b = false -> wakeups tr = O) /\
    (kb_ready s = true ->
     forallb (fun st => negb (CONFIG_KEYBOARD_USBD_REMOTE_WAKEUP b
                              && usbd_is_suspended (fst st))) steps = true ->
     length (submitted tr) = length steps /\
     wakeups tr = O /\
     (steps <> [] -> last (submitted tr) [] = report s')).
Proof.
  induction steps as [|[env e] steps IH]; intros s Hinv.
  - exists s, [], [].
    split; [reflexivity|]. split; [reflexivity|]. split; [exact Hinv|].
    split; [reflexivity|]. split; [constructor|]. split; [cbn; lia|].
    split; [cbn; lia|]. split; [intros _; split; reflexivity|].
    split; [reflexivity|]. intros _ _.
    split; [reflexivity|]. split; [reflexivity|]. intros H. contradiction.
  - destruct (main_loop_body_turn b env e s Hinv)
      as (s1 & tr1 & tr01 & Hrun1 & Hpk1 & Hinv1 & Hrdy1 & Hsub1 & Hwk1).
    destruct (IH s1 Hinv1)
      as (s2 & tr2 & tr02 & Hrun2 & Hpk2 & Hinv2 & Hrdy2 & Hlen8 & Hle & Hwle
          & Hnot & Hcfg & Hrdy).
    exists s2, (tr1 ++ tr2), (tr01 ++ tr02).
    split; [cbn [main_loop_run]; unfold bind; rewrite Hrun1, Hrun2; reflexivity|].
    split; [cbn [map snd process_key_events]; unfold bind;
            rewrite Hpk1, Hpk2; reflexivity|].
    split; [exact Hinv2|]. split; [congruence|].
    rewrite submitted_app, wakeups_app, Hsub1, Hwk1.
    assert (Hrep8 : length (report s1) = 8%nat) by apply Hinv1.
    split.
    { apply Forall_app. split; [|exact Hlen8].
      destruct (kb_ready s && _); constructor; [exact Hrep8 | constructor]. }
    split.
    { rewrite length_app. cbn [length].
      destruct (kb_ready s && _); cbn [length]; lia. }
    split.
    { cbn [filter snd]. destruct (negb (value e =? 0)); cbn [length];
        rewrite ?andb_false_r; cbn [length];
        destruct (kb_ready s && _ && _ && _); lia. }
    split.
    { intros Hf. rewrite Hf in *. cbn [andb app Nat.add].
      apply Hnot. congruence. }
    split.
    { intros Hf. rewrite Hf. rewrite andb_false_r. cbn [andb Nat.add].
      exact (Hcfg Hf). }
    intros Ht Hall. cbn [forallb fst] in Hall.
    apply andb_true_iff in Hall. destruct Hall as [Hns Hall].
    apply negb_true_iff in Hns.
    rewrite Ht. cbn [andb]. rewrite Hns. cbn [andb negb app length Nat.add].
    destruct (Hrdy (eq_trans Hrdy1 Ht) Hall) as (Hlen & Hwk & Hlast).
    split; [rewrite Hlen; reflexivity|]. split; [exact Hwk|].
    intros _. destruct steps as [|st steps'].
    + cbn in Hrun2. injection Hrun2 as <- <-. reflexivity.
    + assert (Hne : submitted tr2 <> []).
      { intros E. rewrite E in Hlen. discriminate. }
      destruct (submitted tr2) as [|r rs]; [contradiction|].
      change (last (report s1 :: r :: rs) []) with (last (r :: rs) []).
      apply Hlast. discriminate.
Qed.

(** X12. While the interface is not ready the loop sends nothing: after
    [kb_iface_ready] with [false], which itself submits no report, any
    number of turns submit no report and request no wakeup, yet the state
    follows the events as if the transport were there. *)
Theorem not_ready_sends_nothing (s : kb_state) (dev_name : string)
    (b : board) (steps : list (usb_env * kb_event)) :
  reachable s ->
  exists s1 tr1 s2 tr2 tr0,
    kb_iface_ready dev_name false s = Done tt s1 tr1 /\
    submitted tr1 = [] /\ report s1 = report s /\
    main_loop_run b steps s1 = Done tt s2 tr2 /\
    submitted tr2 = [] /\ wakeups tr2 = O /\
    process_key_events (map snd steps) s1 = Done tt s2 tr0 /\
    report s2 = report_layout s2.
Proof.
  intros Hre. pose proof (reachable_inv s Hre) as Hinv.
  assert (Hinv1 : kb_inv (set_kb_ready false s)) by exact Hinv.
  destruct (main_loop_run_spec b steps _ Hinv1)
    as (s2 & tr2 & tr0 & Hrun & Hpk & Hinv2 & _ & _ & _ & _ & Hnot & _).
  destruct (Hnot eq_refl) as (Hsub & Hwk).
  exists (set_kb_ready false s). eexists. exists s2, tr2, tr0.
  split; [reflexivity|]. split; [reflexivity|]. split; [reflexivity|].
  split; [exact Hrun|]. split; [exact Hsub|]. split; [exact Hwk|].
  split; [exact Hpk | apply Hinv2].
Qed.

Lemma not_ready_sends_nothing_witness :
  exists s1 tr1 s2 tr2,
    kb_iface_ready "hid" false kb_initial = Done tt s1 tr1 /\
    main_loop_run
      (mk_board (mk_gpio_dt_spec None 0 0) (mk_gpio_dt_spec None 0 0)
         (mk_gpio_dt_spec None 0 0) true)
      [(mk_usb_env false 0 0, press INPUT_KEY_A)] s1 = Done tt s2 tr2 /\
    submitted tr2 = [] /\ wakeups tr2 = O.
Proof.
  destruct (not_ready_sends_nothing kb_initial "hid"
              (mk_board (mk_gpio_dt_spec None 0 0) (mk_gpio_dt_spec None 0 0)
                 (mk_gpio_dt_spec None 0 0) true)
              [(mk_usb_env false 0 0, press INPUT_KEY_A)] reach_initial)
    as (s1 & tr1 & s2 & tr2 & tr0 & H1 & _ & _ & H2 & H3 & H4 & _).
  exists s1, tr1, s2, tr2. split; [exact H1|]. split; [exact H2|].
  split; [exact H3 | exact H4].
Defined.

(** X13. The keyboard state after the loop has run does not depend on the
    transport: it is the state the fold of the same events gives, whatever
    the board, readiness, suspension and the answers of the USB stack.  The
    loop submits at most one report for each event, each eight bytes long,
    requests at most one wakeup for each press, and none at all when remote
    wakeup is not configured. *)
Theorem main_loop_state_independent_of_transport (s : kb_state) (b : board)
    (steps : list (usb_env * kb_event)) :
  reachable s ->
  exists s' tr tr0,
    main_loop_run b steps s = Done tt s' tr /\
    process_key_events (map snd steps) s = Done tt s' tr0 /\
    (length (submitted tr) <= length steps)%nat /\
    Forall (fun r => length r = 8%nat) (submitted tr) /\
    (wakeups tr
     <= length (filter (fun st => negb (Z.eqb (value (snd st)) 0)) steps))%nat /\
    (CONFIG_KEYBOARD_USBD_REMOTE_WAKEUP b = false -> wakeups tr = O).
Proof.
  intros Hre.
  destruct (main_loop_run_spec b steps s (reachable_inv s Hre))
    as (s' & tr & tr0 & Hrun & Hpk & _ & _ & H8 & Hle & Hwk & _ & Hcfg & _).
  exists s', tr, tr0. repeat split; assumption.
Qed.

Lemma main_loop_state_independent_of_transport_witness :
  exists s' tr tr0,
    main_loop_run
      (mk_board (mk_gpio_dt_spec None 0 0) (mk_gpio_dt_spec None 0 0)
         (mk_gpio_dt_spec None 0 0) false)
      [(mk_usb_env true 0 0, press INPUT_KEY_A)] kb_initial = Done tt s' tr /\
    process_key_events [press INPUT_KEY_A] kb_initial = Done tt s' tr0 /\
    wakeups tr = O.
Proof.
  destruct (main_loop_state_independent_of_transport kb_initial
              (mk_board (mk_gpio_dt_spec None 0 0) (mk_gpio_dt_spec None 0 0)
                 (mk_gpio_dt_spec None 0 0) false)
              [(mk_usb_env true 0 0, press INPUT_KEY_A)] reach_initial)
    as (s' & tr & tr0 & H1 & H2 & _ & _ & _ & H3).
  exists s', tr, tr0. split; [exact H1|]. split; [exact H2|].
  apply H3. reflexivity.
Defined.

(** X14. With the interface ready and no turn finding the device suspended
    with remote wakeup configured, the loop submits exactly one report for
    each event, requests no wakeup, and the last report it submits is the
    report of the final state: the host has seen the current state. *)
Theorem ready_loop_reports_every_event (s : kb_state) (b : board)
    (steps : list (usb_env * kb_event)) :
  reachable s -> kb_ready s = true ->
  forallb (fun st => negb (CONFIG_KEYBOARD_USBD_REMOTE_WAKEUP b
                           && usbd_is_suspended (fst st))) steps = true ->
  exists s' tr,
    main_loop_run b steps s = Done tt s' tr /\
    length (submitted tr) = length steps /\
    wakeups tr = O /\
    (steps <> [] -> last (submitted tr) [] = report s') /\
    report s' = report_layout s'.
Proof.
  intros Hre Hrdy Hall.
  destruct (main_loop_run_spec b steps s (reachable_inv s Hre))
    as (s' & tr & tr0 & Hrun & _ & Hinv' & _ & _ & _ & _ & _ & _ & Hready).
  destruct (Hready Hrdy Hall) as (Hlen & Hwk & Hlast).
  exists s', tr. repeat split; try assumption. apply Hinv'.
Qed.

Lemma ready_loop_reports_every_event_witness :
  exists s' tr,
    main_loop_run
      (mk_board (mk_gpio_dt_spec None 0 0) (mk_gpio_dt_spec None 0 0)
         (mk_gpio_dt_spec None 0 0) true)
      [(mk_usb_env false 0 0, press INPUT_KEY_A);
       (mk_usb_env false 0 0, release INPUT_KEY_A)]
      (set_kb_ready true kb_initial) = Done tt s' tr /\
    length (submitted tr) = 2%nat /\
    last (submitted tr) [] = report s'.
Proof.
  destruct (ready_loop_reports_every_event (set_kb_ready true kb_initial)
              (mk_board (mk_gpio_dt_spec None 0 0) (mk_gpio_dt_spec None 0 0)
                 (mk_gpio_dt_spec None 0 0) true)
              [(mk_usb_env false 0 0, press INPUT_KEY_A);
               (mk_usb_env false 0 0, release INPUT_KEY_A)])
    as (s' & tr & H1 & H2 & _ & H3 & _).
  - apply (reach_iface_ready kb_initial "hid" true _
             [LOG INF "HID device %s interface is %s" [ArgS "hid"; ArgS "ready"]]
             reach_initial).
    reflexivity.
  - reflexivity.
  - reflexivity.
  - exists s', tr. split; [exact H1|]. split; [exact H2|].
    apply H3. discriminate.
Defined.

(** ** The producer and the queue *)

(** X15. The queue keeps the oldest events and drops the newest: after
    [input_cb] has been called on a run of input events, the queue holds
    the first sixteen of what was pending followed by the key events of
    the run, in the order they came, each with its code and value; the
    events that are not key events are passed over, and every key event
    that found the queue full is dropped with exactly one error logged. *)
Theorem input_cb_all_fifo (evts : list input_event) :
  forall q : list kb_event,
  (length q <= kb_msgq_max_msgs)%nat ->
  fst (input_cb_all evts q)
  = firstn kb_msgq_max_msgs
      (q ++ map kb_event_of (filter is_key_event evts)) /\
  (length (fst (input_cb_all evts q)) <= kb_msgq_max_msgs)%nat /\
  length (snd (input_cb_all evts q))
  = (length (q ++ map kb_event_of (filter is_key_event evts))
     - kb_msgq_max_msgs)%nat /\
  Forall (fun e => e = LOG ERR "Failed to put new input event" [])
    (snd (input_cb_all evts q)).
Proof.
  unfold kb_msgq_max_msgs.
  induction evts as [|evt evts IH]; intros q Hq.
  - cbn [input_cb_all filter map fst snd]. rewrite app_nil_r.
    rewrite firstn_all2 by exact Hq.
    repeat split; try assumption; [cbn; lia | constructor].
  - cbn [input_cb_all filter]. unfold input_cb.
    change (evt_type evt =? INPUT_EV_KEY) with (is_key_event evt).
    change (mk_kb_event (evt_code evt) (evt_value evt)) with (kb_event_of evt).
    destruct (is_key_event evt); cbn [negb].
    + unfold k_msgq_put, kb_msgq_max_msgs.
      destruct (length q <? 16)%nat eqn:Hlt.
      * apply Nat.ltb_lt in Hlt.
        destruct (IH (q ++ [kb_event_of evt]))
          as (Hq' & Hlen & Hlog & Hall).
        { rewrite length_app. cbn [length]. lia. }
        destruct (input_cb_all evts (q ++ [kb_event_of evt])) as [q2 t2].
        cbn [fst snd app map] in *.
        rewrite <- app_assoc in Hq', Hlog. cbn [app] in Hq', Hlog.
        repeat split; assumption.
      * apply Nat.ltb_ge in Hlt.
        destruct (IH q Hq) as (Hq' & Hlen & Hlog & Hall).
        destruct (input_cb_all evts q) as [q2 t2].
        cbn [fst snd app map length] in *.
        rewrite firstn_app in Hq' |- *.
        replace (16 - length q)%nat with 0%nat in * by lia.
        cbn [firstn] in Hq' |- *.
        rewrite length_app in Hlog |- *. cbn [length].
        split; [exact Hq'|]. split; [exact Hlen|].
        split; [lia|]. constructor; [reflexivity | exact Hall].
    + destruct (IH q Hq) as (Hq' & Hlen & Hlog & Hall).
      destruct (input_cb_all evts q) as [q2 t2].
      cbn [fst snd app] in *. repeat split; assumption.
Qed.

Lemma input_cb_all_fifo_witness :
  fst (input_cb_all [mk_input_event 1 30 1; mk_input_event 2 0 5;
                     mk_input_event 1 30 0] [])
  = [press INPUT_KEY_A; release INPUT_KEY_A].
Proof.
  destruct (input_cb_all_fifo [mk_input_event 1 30 1; mk_input_event 2 0 5;
                               mk_input_event 1 30 0] []) as (H & _).
  - cbn. lia.
  - exact H.
Defined.

(** ** USB device bring-up *)

Lemma attempt_snd (c : sys_call) (err : Z) (fmt : string)
    (args : list log_arg) (x : list sys_call * bool) :
  snd (attempt c err fmt args x) = (err =? 0) && snd x.
Proof. unfold attempt. destruct (err =? 0); reflexivity. Qed.

Lemma usbd_trace_ok_cons (k : usbd_kconfig) (c : sys_call)
    (x : list sys_call * bool) :
  is_usbd_setup_call k c = true -> is_log c = false ->
  usbd_trace_ok k x -> usbd_trace_ok k (c :: fst x, snd x).
Proof.
  intros Hc Hlog (Hne & Herr & Hend & Hall). unfold usbd_trace_ok.
  cbn [fst snd]. split; [discriminate|]. split; [|split].
  - rewrite <- Herr. unfold error_logs. cbn [filter].
    destruct c; try discriminate Hlog; reflexivity.
  - unfold ends_with_init_or_error in *.
    destruct (fst x) as [|c' tr']; [contradiction | exact Hend].
  - cbn [forallb]. rewrite Hc, Hall. reflexivity.
Qed.

Lemma usbd_trace_ok_attempt (k : usbd_kconfig) (c : sys_call) (err : Z)
    (fmt : string) (args : list log_arg) (x : list sys_call * bool) :
  is_usbd_setup_call k c = true -> is_log c = false ->
  usbd_trace_ok k x -> usbd_trace_ok k (attempt c err fmt args x).
Proof.
  intros Hc Hlog Hx. unfold attempt. destruct (err =? 0); cbn [negb].
  - apply usbd_trace_ok_cons; assumption.
  - unfold usbd_trace_ok, error_logs, ends_with_init_or_error.
    cbn [fst snd filter last forallb length negb]. rewrite Hc.
    destruct c; try discriminate Hlog; repeat split; discriminate.
Qed.

Lemma usbd_trace_ok_init (k : usbd_kconfig) (err : Z) (fmt : string)
    (args : list log_arg) :
  usbd_trace_ok k (attempt usbd_init err fmt args ([], true)).
Proof.
  unfold attempt, usbd_trace_ok. destruct (err =? 0); cbn; repeat split;
    discriminate.
Qed.

Lemma self_powered_status (k : usbd_kconfig) (b : board) :
  negb (Z.land (attributes k b) USB_SCD_SELF_POWERED =? 0)
  = CONFIG_KEYBOARD_USBD_SELF_POWERED k.
Proof.
  unfold attributes.
  destruct (CONFIG_KEYBOARD_USBD_SELF_POWERED k),
    (CONFIG_KEYBOARD_USBD_REMOTE_WAKEUP b); reflexivity.
Qed.

Lemma keyboard_usbd_init_ok (k : usbd_kconfig) (b : board) (u : usb_stack)
    (cb : bool) :
  usbd_trace_ok k (keyboard_usbd_init k b u cb).
Proof.
  unfold keyboard_usbd_init. rewrite self_powered_status.
  repeat (apply usbd_trace_ok_attempt; [reflexivity | reflexivity |]).
  assert (Hrest : usbd_trace_ok k
            (if cb
             then attempt usbd_msg_register_cb (usbd_msg_register_cb_ret u)
                    "Failed to register message callback" []
                    (attempt usbd_init (usbd_init_ret u)
                       "Failed to initialize device support" [] ([], true))
             else attempt usbd_init (usbd_init_ret u)
                    "Failed to initialize device support" [] ([], true))).
  { destruct cb; [apply usbd_trace_ok_attempt; [reflexivity | reflexivity |]|];
      apply usbd_trace_ok_init. }
  set (rest := if cb then _ else _) in *.
  assert (Hfs : usbd_trace_ok k
            (attempt (usbd_add_configuration USBD_SPEED_FS kbd_fs_config)
               (usbd_add_configuration_ret u USBD_SPEED_FS)
               "Failed to add Full-Speed configuration" []
               (attempt (usbd_register_all_classes USBD_SPEED_FS 1)
                  (usbd_register_all_classes_ret u USBD_SPEED_FS)
                  "Failed to register FS classes" []
                  (usbd_device_set_code_triple USBD_SPEED_FS 0 0 0
                     :: usbd_self_powered (CONFIG_KEYBOARD_USBD_SELF_POWERED k)
                     :: fst rest, snd rest)))).
  { do 2 (apply usbd_trace_ok_attempt; [reflexivity | reflexivity |]).
    apply (usbd_trace_ok_cons k _
             (usbd_self_powered (CONFIG_KEYBOARD_USBD_SELF_POWERED k) :: fst rest,
              snd rest)); [reflexivity | reflexivity |].
    apply (usbd_trace_ok_cons k _ rest);
      [apply Bool.eqb_reflx | reflexivity | exact Hrest]. }
  set (full_speed := attempt (usbd_add_configuration USBD_SPEED_FS kbd_fs_config)
                       _ _ _ _) in *.
  destruct (USBD_SUPPORTS_HIGH_SPEED k &&
            match usbd_caps_speed u with USBD_SPEED_HS => true | _ => false end);
    [|exact Hfs].
  do 2 (apply usbd_trace_ok_attempt; [reflexivity | reflexivity |]).
  apply (usbd_trace_ok_cons k _ full_speed); [reflexivity | reflexivity | exact Hfs].
Qed.

Lemma keyboard_usbd_init_snd (k : usbd_kconfig) (b : board) (u : usb_stack)
    (cb : bool) :
  snd (keyboard_usbd_init k b u cb) = usbd_setup_succeeds k u cb.
Proof.
  unfold keyboard_usbd_init, usbd_setup_succeeds.
  rewrite !attempt_snd.
  destruct (USBD_SUPPORTS_HIGH_SPEED k &&
            match usbd_caps_speed u with USBD_SPEED_HS => true | _ => false end),
    cb; rewrite ?attempt_snd; cbn [snd]; rewrite ?attempt_snd; cbn [snd];
    rewrite ?andb_true_r, ?andb_assoc; reflexivity.
Qed.

Lemma keyboard_usbd_init_until_first_failure (k : usbd_kconfig) (b : board)
    (u : usb_stack) (cb : bool) :
  keyboard_usbd_init k b u cb
  = until_first_failure u (planned_usbd_calls k u cb).
Proof.
  unfold keyboard_usbd_init, planned_usbd_calls, attempt.
  rewrite self_powered_status.
  destruct (USBD_SUPPORTS_HIGH_SPEED k &&
            match usbd_caps_speed u with USBD_SPEED_HS => true | _ => false end),
    cb; reflexivity.
Qed.

Lemma planned_usbd_calls_no_log (k : usbd_kconfig) (u : usb_stack) (cb : bool) :
  forallb (fun c => negb (is_log c)) (planned_usbd_calls k u cb) = true.
Proof.
  unfold planned_usbd_calls.
  destruct (USBD_SUPPORTS_HIGH_SPEED k &&
            match usbd_caps_speed u with USBD_SPEED_HS => true | _ => false end),
    cb; reflexivity.
Qed.

Lemma usbd_failure_log_is_log (u : usb_stack) (c : sys_call) :
  is_log (usbd_failure_log u c) = true.
Proof.
  destruct c; try reflexivity.
  - destruct d; reflexivity.
  - destruct speed; reflexivity.
  - destruct speed; reflexivity.
Qed.

(** Once a call has failed, only its error log follows. *)
Lemma until_first_failure_stops (u : usb_stack) (calls : list sys_call) :
  forall (pre : list sys_call) (c : sys_call) (post : list sys_call),
  fst (until_first_failure u calls) = pre ++ c :: post ->
  is_log c = false -> usbd_call_answer u c <> 0 ->
  post = [usbd_failure_log u c].
Proof.
  induction calls as [|c0 calls IH]; intros pre c post Htr Hlog Hans.
  - destruct pre; discriminate Htr.
  - cbn [until_first_failure] in Htr.
    destruct (usbd_call_answer u c0 =? 0) eqn:E; cbn [negb fst] in Htr.
    + destruct pre as [|c1 pre].
      * injection Htr as <- _. apply Z.eqb_eq in E. contradiction.
      * injection Htr as _ Htr. exact (IH pre c post Htr Hlog Hans).
    + destruct pre as [|c1 [|c2 pre]].
      * injection Htr as <- <-. reflexivity.
      * injection Htr as _ <- _.
        rewrite usbd_failure_log_is_log in Hlog. discriminate.
      * injection Htr as _ _ Htr. destruct pre; discriminate Htr.
Qed.

(** A call that is followed by another call has answered zero. *)
Lemma until_first_failure_goes_on (u : usb_stack) (calls : list sys_call) :
  forall (pre : list sys_call) (c c' : sys_call) (post : list sys_call),
  fst (until_first_failure u calls) = pre ++ c :: c' :: post ->
  is_log c' = false ->
  usbd_call_answer u c = 0.
Proof.
  induction calls as [|c0 calls IH]; intros pre c c' post Htr Hlog.
  - destruct pre; discriminate Htr.
  - cbn [until_first_failure] in Htr.
    destruct (usbd_call_answer u c0 =? 0) eqn:E; cbn [negb fst] in Htr.
    + destruct pre as [|c1 pre].
      * injection Htr as <- _. apply Z.eqb_eq. exact E.
      * injection Htr as _ Htr. exact (IH pre c c' post Htr Hlog).
    + destruct pre as [|c1 [|c2 pre]].
      * injection Htr as _ <- _.
        rewrite usbd_failure_log_is_log in Hlog. discriminate.
      * injection Htr as _ _ Htr. discriminate Htr.
      * injection Htr as _ _ Htr. destruct pre; discriminate Htr.
Qed.

(** X16. [keyboard_usbd_init] returns the context exactly when every call
    it makes answers zero.  It makes the calls of its plan one after the
    other and stops at the first that fails: a call that does not answer
    zero is followed by its error log and by nothing else, and a call that
    is followed by another call has answered zero.  So a failure logs
    exactly one error, which is the last thing the function does, and
    returns [NULL]; on success it logs no error and [usbd_init] is its
    last call.  Whatever happens it makes only set-up calls of the device
    stack, and reports the self-powered status of the build. *)
Theorem keyboard_usbd_init_result (k : usbd_kconfig) (b : board)
    (u : usb_stack) (cb : bool) :
  snd (keyboard_usbd_init k b u cb) = usbd_setup_succeeds k u cb /\
  error_logs (fst (keyboard_usbd_init k b u cb))
  = (if snd (keyboard_usbd_init k b u cb) then O else 1%nat) /\
  ends_with_init_or_error (fst (keyboard_usbd_init k b u cb))
    (snd (keyboard_usbd_init k b u cb)) = true /\
  forallb (is_usbd_setup_call k) (fst (keyboard_usbd_init k b u cb)) = true /\
  keyboard_usbd_init k b u cb
  = until_first_failure u (planned_usbd_calls k u cb) /\
  (forall pre c post,
     fst (keyboard_usbd_init k b u cb) = pre ++ c :: post ->
     is_log c = false -> usbd_call_answer u c <> 0 ->
     post = [usbd_failure_log u c]) /\
  (forall pre c c' post,
     fst (keyboard_usbd_init k b u cb) = pre ++ c :: c' :: post ->
     is_log c' = false ->
     usbd_call_answer u c = 0) /\
  (snd (keyboard_usbd_init k b u cb) = true ->
   fst (keyboard_usbd_init k b u cb) = planned_usbd_calls k u cb).
Proof.
  split; [apply keyboard_usbd_init_snd|].
  destruct (keyboard_usbd_init_ok k b u cb) as (_ & Herr & Hend & Hall).
  split; [exact Herr|]. split; [exact Hend|]. split; [exact Hall|].
  pose proof (keyboard_usbd_init_until_first_failure k b u cb) as Heq.
  split; [exact Heq|]. rewrite Heq. split; [|split].
  - apply until_first_failure_stops.
  - apply until_first_failure_goes_on.
  - generalize (planned_usbd_calls k u cb). intros calls.
    induction calls as [|c0 calls IH]; [reflexivity|].
    cbn [until_first_failure].
    destruct (usbd_call_answer u c0 =? 0); cbn [negb fst snd];
      [|discriminate].
    intros H. rewrite (IH H). reflexivity.
Qed.

Lemma keyboard_usbd_init_result_witness :
  keyboard_usbd_init (mk_usbd_kconfig true false false)
    (mk_board (mk_gpio_dt_spec None 0 0) (mk_gpio_dt_spec None 0 0)
       (mk_gpio_dt_spec None 0 0) true)
    (mk_usb_stack (fun _ => 0) USBD_SPEED_HS
       (fun sp => match sp with USBD_SPEED_FS => -12 | _ => 0 end)
       (fun _ => 0) 0 0 false 0 0 (fun _ => "msg"%string) (fun _ => true)
       (fun _ => 0) true 0 0 0) true
  = ([usbd_add_descriptor kbd_lang; usbd_add_descriptor kbd_mfr;
      usbd_add_descriptor kbd_product;
      usbd_add_configuration USBD_SPEED_HS kbd_hs_config;
      usbd_register_all_classes USBD_SPEED_HS 1;
      usbd_device_set_code_triple USBD_SPEED_HS 0 0 0;
      usbd_add_configuration USBD_SPEED_FS kbd_fs_config;
      SYS_LOG ERR "Failed to add Full-Speed configuration" []], false) /\
  [SYS_LOG ERR "Failed to add Full-Speed configuration" []]
  = [usbd_failure_log
       (mk_usb_stack (fun _ => 0) USBD_SPEED_HS
          (fun sp => match sp with USBD_SPEED_FS => -12 | _ => 0 end)
          (fun _ => 0) 0 0 false 0 0 (fun _ => "msg"%string) (fun _ => true)
          (fun _ => 0) true 0 0 0)
       (usbd_add_configuration USBD_SPEED_FS kbd_fs_config)].
Proof.
  destruct (keyboard_usbd_init_result (mk_usbd_kconfig true false false)
              (mk_board (mk_gpio_dt_spec None 0 0) (mk_gpio_dt_spec None 0 0)
                 (mk_gpio_dt_spec None 0 0) true)
              (mk_usb_stack (fun _ => 0) USBD_SPEED_HS
                 (fun sp => match sp with USBD_SPEED_FS => -12 | _ => 0 end)
                 (fun _ => 0) 0 0 false 0 0 (fun _ => "msg"%string)
                 (fun _ => true) (fun _ => 0) true 0 0 0) true)
    as (_ & _ & _ & _ & Heq & Hstop & _).
  split; [exact Heq|].
  apply (Hstop
           [usbd_add_descriptor kbd_lang; usbd_add_descriptor kbd_mfr;
            usbd_add_descriptor kbd_product;
            usbd_add_configuration USBD_SPEED_HS kbd_hs_config;
            usbd_register_all_classes USBD_SPEED_HS 1;
            usbd_device_set_code_triple USBD_SPEED_HS 0 0 0]
           (usbd_add_configuration USBD_SPEED_FS kbd_fs_config)
           [SYS_LOG ERR "Failed to add Full-Speed configuration" []]).
  - reflexivity.
  - reflexivity.
  - discriminate.
Defined.

Lemma attributes_value (k : usbd_kconfig) (b : board) :
  attributes k b
  = Z.lor (if CONFIG_KEYBOARD_USBD_SELF_POWERED k then 2 ^ 6 else 0)
          (if CONFIG_KEYBOARD_USBD_REMOTE_WAKEUP b then 2 ^ 5 else 0).
Proof.
  unfold attributes.
  destruct (CONFIG_KEYBOARD_USBD_SELF_POWERED k),
    (CONFIG_KEYBOARD_USBD_REMOTE_WAKEUP b); reflexivity.
Qed.

Lemma attributes_testbit (k : usbd_kconfig) (b : board) (n : Z) :
  Z.testbit (attributes k b) n
  = (CONFIG_KEYBOARD_USBD_SELF_POWERED k && (n =? 6))
    || (CONFIG_KEYBOARD_USBD_REMOTE_WAKEUP b && (n =? 5)).
Proof.
  destruct (Z.ltb_spec n 0) as [Hneg|Hpos].
  - rewrite Z.testbit_neg_r by exact Hneg.
    rewrite (proj2 (Z.eqb_neq n 6)), (proj2 (Z.eqb_neq n 5)) by lia.
    rewrite !andb_false_r. reflexivity.
  - rewrite attributes_value, Z.lor_spec.
    destruct (CONFIG_KEYBOARD_USBD_SELF_POWERED k),
      (CONFIG_KEYBOARD_USBD_REMOTE_WAKEUP b);
      rewrite ?Z.pow2_bits_eqb, ?Z.bits_0 by lia; cbn [andb orb];
      rewrite ?(Z.eqb_sym 6 n), ?(Z.eqb_sym 5 n), ?orb_false_r; reflexivity.
Qed.

(** X17. The configuration attributes carry the self-powered flag in bit 6
    and the remote-wakeup flag in bit 5 and nothing else, and the two
    source files agree on remote wakeup: when the attributes do not
    advertise it, the consumer loop never requests a wakeup, whatever the
    events and however often the device is suspended. *)
Theorem remote_wakeup_only_if_advertised (k : usbd_kconfig) (b : board)
    (s : kb_state) (steps : list (usb_env * kb_event)) :
  (forall n, Z.testbit (attributes k b) n
             = (CONFIG_KEYBOARD_USBD_SELF_POWERED k && (n =? 6))
               || (CONFIG_KEYBOARD_USBD_REMOTE_WAKEUP b && (n =? 5))) /\
  (reachable s -> Z.testbit (attributes k b) 5 = false ->
   exists s' tr, main_loop_run b steps s = Done tt s' tr /\ wakeups tr = O).
Proof.
  split; [intros n; apply attributes_testbit|].
  intros Hre Hbit. rewrite attributes_testbit in Hbit.
  cbn [Z.eqb Pos.eqb andb] in Hbit. rewrite andb_false_r, andb_true_r in Hbit.
  cbn [orb] in Hbit.
  destruct (main_loop_run_spec b steps s (reachable_inv s Hre))
    as (s' & tr & _ & Hrun & _ & _ & _ & _ & _ & _ & _ & Hcfg & _).
  exists s', tr. split; [exact Hrun | exact (Hcfg Hbit)].
Qed.

Lemma remote_wakeup_only_if_advertised_witness :
  exists s' tr,
    main_loop_run
      (mk_board (mk_gpio_dt_spec None 0 0) (mk_gpio_dt_spec None 0 0)
         (mk_gpio_dt_spec None 0 0) false)
      [(mk_usb_env true 0 0, press INPUT_KEY_A)] (set_kb_ready true kb_initial)
    = Done tt s' tr /\ wakeups tr = O.
Proof.
  destruct (remote_wakeup_only_if_advertised
              (mk_usbd_kconfig false true false)
              (mk_board (mk_gpio_dt_spec None 0 0) (mk_gpio_dt_spec None 0 0)
                 (mk_gpio_dt_spec None 0 0) false)
              (set_kb_ready true kb_initial)
              [(mk_usb_env true 0 0, press INPUT_KEY_A)]) as (_ & H).
  apply H.
  - apply (reach_iface_ready kb_initial "hid" true _
             [LOG INF "HID device %s interface is %s" [ArgS "hid"; ArgS "ready"]]
             reach_initial).
    reflexivity.
  - reflexivity.
Defined.

(** ** The start of [main] *)

Lemma count_call_app (p : sys_call -> bool) (t1 t2 : list sys_call) :
  count_call p (t1 ++ t2) = (count_call p t1 + count_call p t2)%nat.
Proof. unfold count_call. rewrite filter_app, length_app. reflexivity. Qed.

Lemma count_call_none (p q : sys_call -> bool) (tr : list sys_call) :
  (forall c, q c = true -> p c = false) ->
  forallb q tr = true -> count_call p tr = O.
Proof.
  intros Hpq. unfold count_call. induction tr as [|c tr IH]; [reflexivity|].
  cbn [forallb filter]. intros H. apply andb_true_iff in H. destruct H as [Hc Htr].
  rewrite (Hpq c Hc). exact (IH Htr).
Qed.

Lemma forallb_weaken (p q : sys_call -> bool) (tr : list sys_call) :
  (forall c, q c = true -> p c = true) ->
  forallb q tr = true -> forallb p tr = true.
Proof.
  intros Hpq H. rewrite forallb_forall in *. intros c Hc. apply Hpq, H, Hc.
Qed.

Lemma usbd_setup_call_not_enable (k : usbd_kconfig) (c : sys_call) :
  is_usbd_setup_call k c = true -> is_usbd_enable c = false.
Proof. destruct c; try reflexivity. discriminate. Qed.

Lemma usbd_setup_call_not_disable (k : usbd_kconfig) (c : sys_call) :
  is_usbd_setup_call k c = true -> is_usbd_disable c = false.
Proof. destruct c; try reflexivity. discriminate. Qed.

Lemma usbd_setup_call_not_gpio (k : usbd_kconfig) (b : board) (c : sys_call) :
  is_usbd_setup_call k c = true -> gpio_call_on_present_led b c = true.
Proof. destruct c; try reflexivity; discriminate. Qed.

Lemma main_init_leds_facts (b : board) (u : usb_stack) :
  snd (main_init_leds u (kb_leds b) 0)
  = (if leds_come_up b u then None else Some (- EIO)) /\
  forallb (gpio_call_on_present_led b) (fst (main_init_leds u (kb_leds b) 0))
  = true /\
  count_call is_usbd_enable (fst (main_init_leds u (kb_leds b) 0)) = O /\
  count_call is_usbd_disable (fst (main_init_leds u (kb_leds b) 0)) = O.
Proof.
  destruct b as [[p0 ? ?] [p1 ? ?] [p2 ? ?] ?].
  unfold leds_come_up, led_present, kb_leds, has_port, gpio_call_on_present_led,
    count_call.
  cbn [main_init_leds port led0 led1 led2 forallb Z.to_nat Pos.to_nat
       Pos.iter_op Nat.add nth_error Z.add Pos.add].
  destruct p0, p1, p2; cbn [negb orb andb];
    repeat (match goal with
            | |- context [gpio_is_ready_dt_ret u ?i] =>
                destruct (gpio_is_ready_dt_ret u i)
            | |- context [gpio_pin_configure_dt_ret u ?i =? 0] =>
                destruct (gpio_pin_configure_dt_ret u i =? 0)
            end; cbn [negb andb orb]);
    repeat split; reflexivity.
Qed.

Lemma main_init_facts (k : usbd_kconfig) (b : board) (u : usb_stack) :
  snd (main_init k b u)
  = (if negb (leds_come_up b u) then Some (- EIO)
     else if negb (device_is_ready_ret u) then Some (- EIO)
     else if negb (hid_device_register_ret u =? 0)
          then Some (hid_device_register_ret u)
     else if negb (usbd_setup_succeeds k u true) then Some (- ENODEV)
     else if usbd_can_detect_vbus u then None
     else if negb (usbd_enable_ret u =? 0) then Some (usbd_enable_ret u)
     else None) /\
  forallb (gpio_call_on_present_led b) (fst (main_init k b u)) = true /\
  count_call is_usbd_enable (fst (main_init k b u))
  = (if leds_come_up b u && device_is_ready_ret u
        && (hid_device_register_ret u =? 0) && usbd_setup_succeeds k u true
        && negb (usbd_can_detect_vbus u)
     then 1%nat else O) /\
  count_call is_usbd_disable (fst (main_init k b u)) = O.
Proof.
  destruct (main_init_leds_facts b u) as (Hl1 & Hl2 & Hl3 & Hl4).
  destruct (keyboard_usbd_init_ok k b u true) as (_ & _ & _ & Hu).
  pose proof (keyboard_usbd_init_snd k b u true) as Hs.
  pose proof (forallb_weaken _ _ _ (usbd_setup_call_not_gpio k b) Hu) as Hu2.
  pose proof (count_call_none _ _ _ (usbd_setup_call_not_enable k) Hu) as Hu3.
  pose proof (count_call_none _ _ _ (usbd_setup_call_not_disable k) Hu) as Hu4.
  unfold main_init.
  destruct (main_init_leds u (kb_leds b) 0) as [tr_leds r_leds].
  destruct (keyboard_usbd_init k b u true) as [tr_usbd ok].
  cbn [fst snd] in *. subst r_leds ok.
  destruct (leds_come_up b u); cbn [negb andb];
    [|repeat split; assumption].
  destruct (device_is_ready_ret u); cbn [negb andb fst snd].
  2:{ rewrite forallb_app, !count_call_app, Hl2, Hl3, Hl4. repeat split. }
  destruct (hid_device_register_ret u =? 0); cbn [negb andb fst snd].
  2:{ rewrite forallb_app, !count_call_app, Hl2, Hl3, Hl4. repeat split. }
  assert (Hpoll : forall tr_poll : list sys_call,
            tr_poll
            = (if CONFIG_USBD_HID_SET_POLLING_PERIOD k
               then
                 hid_device_set_in_polling 1000
                 :: (if negb (hid_device_set_in_polling_ret u =? 0)
                     then [SYS_LOG WRN "Failed to set IN report polling period, %d"
                             [ArgU (hid_device_set_in_polling_ret u)]]
                     else [])
                 ++ hid_device_set_out_polling 1000
                 :: (if negb (hid_device_set_out_polling_ret u =? 0)
                        && negb (hid_device_set_out_polling_ret u =? - ENOTSUP)
                     then [SYS_LOG WRN "Failed to set OUT report polling period, %d"
                             [ArgU (hid_device_set_out_polling_ret u)]]
                     else [])
               else []) ->
            forallb (gpio_call_on_present_led b) tr_poll = true /\
            count_call is_usbd_enable tr_poll = O /\
            count_call is_usbd_disable tr_poll = O).
  { intros tr_poll ->.
    destruct (CONFIG_USBD_HID_SET_POLLING_PERIOD k),
      (hid_device_set_in_polling_ret u =? 0),
      (hid_device_set_out_polling_ret u =? 0),
      (hid_device_set_out_polling_ret u =? - ENOTSUP); repeat split. }
  destruct (Hpoll _ eq_refl) as (Hp2 & Hp3 & Hp4). clear Hpoll.
  set (tr_poll := if CONFIG_USBD_HID_SET_POLLING_PERIOD k then _ else _) in *.
  destruct (usbd_setup_succeeds k u true); cbn [negb andb fst snd].
  2:{ rewrite !forallb_app, !count_call_app, Hl2, Hl3, Hl4, Hp2, Hp3, Hp4,
        Hu2, Hu3, Hu4. repeat split. }
  destruct (usbd_can_detect_vbus u); cbn [negb andb fst snd].
  { rewrite !forallb_app, !count_call_app, Hl2, Hl3, Hl4, Hp2, Hp3, Hp4,
      Hu2, Hu3, Hu4. repeat split. }
  destruct (usbd_enable_ret u =? 0); cbn [negb fst snd];
    rewrite !forallb_app, !count_call_app, Hl2, Hl3, Hl4, Hp2, Hp3, Hp4,
      Hu2, Hu3, Hu4; repeat split.
Qed.

(** X18. [main] reaches its event loop exactly when every LED the board has
    comes up, the HID device is ready and registers, [keyboard_usbd_init]
    succeeds and, without VBUS detection, the device can be enabled; the
    answers to the two polling-period calls play no part.  Otherwise it
    returns [-EIO], the registration error, [-ENODEV] or the enable error,
    never zero.  It touches no LED that the board lacks. *)
Theorem main_init_result (k : usbd_kconfig) (b : board) (u : usb_stack) :
  snd (main_init k b u)
  = (if negb (leds_come_up b u) then Some (- EIO)
     else if negb (device_is_ready_ret u) then Some (- EIO)
     else if negb (hid_device_register_ret u =? 0)
          then Some (hid_device_register_ret u)
     else if negb (usbd_setup_succeeds k u true) then Some (- ENODEV)
     else if usbd_can_detect_vbus u then None
     else if negb (usbd_enable_ret u =? 0) then Some (usbd_enable_ret u)
     else None) /\
  snd (main_init k b u) <> Some 0 /\
  forallb (gpio_call_on_present_led b) (fst (main_init k b u)) = true.
Proof.
  destruct (main_init_facts k b u) as (Hres & Hgpio & _).
  split; [exact Hres|]. split; [|exact Hgpio].
  rewrite Hres.
  destruct (leds_come_up b u); cbn [negb]; [|discriminate].
  destruct (device_is_ready_ret u); cbn [negb]; [|discriminate].
  destruct (hid_device_register_ret u =? 0) eqn:Er; cbn [negb].
  2:{ apply Z.eqb_neq in Er. congruence. }
  destruct (usbd_setup_succeeds k u true); cbn [negb]; [|discriminate].
  destruct (usbd_can_detect_vbus u); [discriminate|].
  destruct (usbd_enable_ret u =? 0) eqn:Ee; cbn [negb]; [discriminate|].
  apply Z.eqb_neq in Ee. congruence.
Qed.

Lemma main_init_result_witness :
  snd (main_init (mk_usbd_kconfig false false true)
         (mk_board (mk_gpio_dt_spec (Some "gpio0"%string) 13 0)
            (mk_gpio_dt_spec None 0 0) (mk_gpio_dt_spec None 0 0) false)
         (mk_usb_stack (fun _ => 0) USBD_SPEED_FS (fun _ => 0) (fun _ => 0)
            0 0 true 0 0 (fun _ => "msg"%string) (fun _ => false)
            (fun _ => 0) true 0 (-5) (-5)))
  = Some (- EIO).
Proof.
  destruct (main_init_result (mk_usbd_kconfig false false true)
              (mk_board (mk_gpio_dt_spec (Some "gpio0"%string) 13 0)
                 (mk_gpio_dt_spec None 0 0) (mk_gpio_dt_spec None 0 0) false)
              (mk_usb_stack (fun _ => 0) USBD_SPEED_FS (fun _ => 0) (fun _ => 0)
                 0 0 true 0 0 (fun _ => "msg"%string) (fun _ => false)
                 (fun _ => 0) true 0 (-5) (-5))) as (H & _).
  exact H.
Defined.

Lemma msg_cb_counts (u : usb_stack) (msg : usbd_msg) :
  count_call is_usbd_enable (msg_cb u msg)
  = (if usbd_can_detect_vbus u && is_vbus_ready msg then 1%nat else O) /\
  count_call is_usbd_disable (msg_cb u msg)
  = (if usbd_can_detect_vbus u && is_vbus_removed msg then 1%nat else O).
Proof.
  unfold msg_cb, is_vbus_ready, is_vbus_removed, count_call.
  destruct (usbd_can_detect_vbus u), (msg_type msg),
    (usbd_enable_ret u =? 0), (usbd_disable_ret u =? 0); split; reflexivity.
Qed.

(** X19. The device stack is enabled by one path only.  With VBUS
    detection [main] never calls [usbd_enable]; [msg_cb] enables on a
    VBUS-ready message and disables on a VBUS-removed message, once each
    and never both.  Without VBUS detection [msg_cb] calls neither, and
    [main] calls [usbd_enable] exactly once on its way into the loop.
    [main] never calls [usbd_disable]. *)
Theorem usbd_enable_single_path (k : usbd_kconfig) (b : board)
    (u : usb_stack) (msg : usbd_msg) :
  count_call is_usbd_enable (msg_cb u msg)
  = (if usbd_can_detect_vbus u && is_vbus_ready msg then 1%nat else O) /\
  count_call is_usbd_disable (msg_cb u msg)
  = (if usbd_can_detect_vbus u && is_vbus_removed msg then 1%nat else O) /\
  (count_call is_usbd_enable (msg_cb u msg)
   + count_call is_usbd_disable (msg_cb u msg) <= 1)%nat /\
  count_call is_usbd_disable (fst (main_init k b u)) = O /\
  (count_call is_usbd_enable (fst (main_init k b u))
   <= (if usbd_can_detect_vbus u then O else 1%nat))%nat /\
  (snd (main_init k b u) = None ->
   count_call is_usbd_enable (fst (main_init k b u))
   = (if usbd_can_detect_vbus u then O else 1%nat)).
Proof.
  destruct (msg_cb_counts u msg) as (He & Hd).
  destruct (main_init_facts k b u) as (Hres & _ & Hen & Hdis).
  split; [exact He|]. split; [exact Hd|]. split.
  { rewrite He, Hd. unfold is_vbus_ready, is_vbus_removed.
    destruct (usbd_can_detect_vbus u), (msg_type msg); cbn; lia. }
  split; [exact Hdis|]. rewrite Hen, Hres. split.
  - destruct (leds_come_up b u), (device_is_ready_ret u),
      (hid_device_register_ret u =? 0), (usbd_setup_succeeds k u true),
      (usbd_can_detect_vbus u); cbn; lia.
  - destruct (leds_come_up b u), (device_is_ready_ret u),
      (hid_device_register_ret u =? 0), (usbd_setup_succeeds k u true),
      (usbd_can_detect_vbus u); cbn [negb andb]; try discriminate;
      reflexivity.
Qed.

Lemma usbd_enable_single_path_witness :
  count_call is_usbd_enable
    (fst (main_init (mk_usbd_kconfig false false false)
            (mk_board (mk_gpio_dt_spec None 0 0) (mk_gpio_dt_spec None 0 0)
               (mk_gpio_dt_spec None 0 0) false)
            (mk_usb_stack (fun _ => 0) USBD_SPEED_FS (fun _ => 0) (fun _ => 0)
               0 0 false 0 0 (fun _ => "msg"%string) (fun _ => true)
               (fun _ => 0) true 0 0 0)))
  = 1%nat.
Proof.
  destruct (usbd_enable_single_path (mk_usbd_kconfig false false false)
              (mk_board (mk_gpio_dt_spec None 0 0) (mk_gpio_dt_spec None 0 0)
                 (mk_gpio_dt_spec None 0 0) false)
              (mk_usb_stack (fun _ => 0) USBD_SPEED_FS (fun _ => 0) (fun _ => 0)
                 0 0 false 0 0 (fun _ => "msg"%string) (fun _ => true)
                 (fun _ => 0) true 0 0 0)
              (mk_usbd_msg USBD_MSG_VBUS_READY 0))
    as (_ & _ & _ & _ & _ & H).
  apply H. reflexivity.
Defined.

(** ** Input report requests of any type *)

(** X20. [kb_get_report] never writes outside the caller's buffer and
    never changes the keyboard state.  For a buffer of the requested
    length it returns 8 or 0; with 8, for an input report and a length of
    at least eight, the first eight bytes are the report and the rest of
    the buffer is as it was; with 0, for any other type or a shorter
    length, the buffer is untouched. *)
Theorem kb_get_report_bounds (s : kb_state) (type id len : Z)
    (buf : list Z) :
  reachable s -> 0 <= len -> length buf = Z.to_nat len ->
  exists r buf' tr,
    kb_get_report type id len buf s = Done (r, buf') s tr /\
    length buf' = length buf /\
    skipn 8 buf' = skipn 8 buf /\
    ((r = 8 /\ type = HID_REPORT_TYPE_INPUT /\ 8 <= len /\
      firstn 8 buf' = report s)
     \/ (r = 0 /\ buf' = buf /\ (type <> HID_REPORT_TYPE_INPUT \/ len < 8))).
Proof.
  intros Hre Hlen Hbuf.
  destruct (reachable_inv s Hre) as ((_ & Hr & _) & _).
  unfold KB_REPORT_COUNT in Hr.
  unfold kb_get_report, KB_REPORT_COUNT.
  destruct (type =? HID_REPORT_TYPE_INPUT) eqn:Et; cbn [andb].
  - apply Z.eqb_eq in Et. destruct (8 <=? len) eqn:El.
    + apply Z.leb_le in El.
      unfold bind at 1. cbn [gets]. unfold bind at 1. unfold memcpy.
      replace ((0 <=? 8) && (8 <=? Z.of_nat (length buf))
               && (8 <=? Z.of_nat (length (report s)))) with true
        by (symmetry; rewrite !andb_true_iff; repeat split; apply Z.leb_le; lia).
      cbn [lift ret].
      replace (Z.to_nat 8) with (length (report s)) by (rewrite Hr; reflexivity).
      rewrite firstn_all, Hr.
      do 3 eexists. split; [reflexivity|].
      split; [rewrite length_app, length_skipn; change (Z.to_nat 8) with 8%nat in Hr; lia|].
      split.
      { rewrite skipn_app, skipn_all2 by (change (Z.to_nat 8) with 8%nat in Hr; lia).
        replace (8 - length (report s))%nat with 0%nat
          by (change (Z.to_nat 8) with 8%nat in Hr; lia).
        reflexivity. }
      left. repeat split; try assumption.
      rewrite firstn_app, firstn_all2 by (change (Z.to_nat 8) with 8%nat in Hr; lia).
      replace (8 - length (report s))%nat with 0%nat
        by (change (Z.to_nat 8) with 8%nat in Hr; lia).
      apply app_nil_r.
    + apply Z.leb_gt in El. do 3 eexists. split; [reflexivity|].
      repeat split. right. repeat split. right. exact El.
  - apply Z.eqb_neq in Et. do 3 eexists. split; [reflexivity|].
    repeat split. right. repeat split. left. exact Et.
Qed.

Lemma kb_get_report_bounds_witness :
  exists r buf' tr,
    kb_get_report HID_REPORT_TYPE_FEATURE 0 9 [9; 9; 9; 9; 9; 9; 9; 9; 9]
      kb_initial = Done (r, buf') kb_initial tr /\
    length buf' = 9%nat.
Proof.
  destruct (kb_get_report_bounds kb_initial HID_REPORT_TYPE_FEATURE 0 9
              [9; 9; 9; 9; 9; 9; 9; 9; 9] reach_initial)
    as (r & buf' & tr & H1 & H2 & _).
  - lia.
  - reflexivity.
  - exists r, buf', tr. split; [exact H1 | exact H2].
Defined.
